(** * micro-2048 tournament test drivers: a shallow embedding

    The three Python scripts of the repository drive a GraphQL service:

    - [Fresh]       : test_tournaments_fresh.py  (class TournamentTester)
    - [Legacy]      : test_tournaments.py        (class TournamentTester)
    - [Coordinator] : stress_test_coordinator.py (class StressTestCoordinator)

    Every method becomes a computation in a state-and-exception monad over
    the object's fields and an explicit world: the service is an oracle
    giving the response to the n-th request, every request is recorded, and
    [time.sleep] only adds to a counter.  Python integers are [Z]; Python
    strings are [string]; a value that may be [None] is an [option]. *)

From Stdlib Require Import ZArith List String Ascii Bool Lia.
From Stdlib Require Import DecimalString DecimalPos DecimalZ.
Import ListNotations.
Open Scope string_scope.
Open Scope list_scope.
Open Scope Z_scope.

(** ** Python string primitives used by the scripts *)

Module Py.

(** [str(n)] for an [int]. *)
Definition str (z : Z) : string := NilZero.string_of_int (Z.to_int z).

(** Truth value of a string: the empty string is false. *)
Definition truthy (s : string) : bool :=
  match s with EmptyString => false | String _ _ => true end.

(** Truth value of an optional string ([None] is false). *)
Definition truthy_opt (o : option string) : bool :=
  match o with Some s => truthy s | None => false end.

Definition lower_ascii (c : ascii) : ascii :=
  let n := nat_of_ascii c in
  if (Nat.leb 65 n && Nat.leb n 90)%bool then ascii_of_nat (n + 32) else c.

(** [s.lower()], on ASCII text. *)
Fixpoint lower (s : string) : string :=
  match s with
  | EmptyString => EmptyString
  | String c r => String (lower_ascii c) (lower r)
  end.

(** [needle in hay] for two strings. *)
Fixpoint contains (needle hay : string) : bool :=
  match hay with
  | EmptyString => String.prefix needle EmptyString
  | String _ r => String.prefix needle hay || contains needle r
  end.

(** [range(n)] *)
Definition range (n : Z) : list Z := map Z.of_nat (seq 0 (Z.to_nat n)).

(** [enumerate(l, start)] *)
Fixpoint enumerate {A} (start : Z) (l : list A) : list (Z * A) :=
  match l with
  | [] => []
  | x :: r => (start, x) :: enumerate (start + 1) r
  end.

(** A raised exception: its class name and [str(e)], worded as CPython
    3.11 words it. *)
Record exn := mkExn { exn_class : string; exn_msg : string }.

Definition IndexError_list : exn :=
  mkExn "IndexError" "list index out of range".
Definition KeyError (key : string) : exn :=
  mkExn "KeyError" ("'" ++ key ++ "'").
Definition AttributeError_get (ty : string) : exn :=
  mkExn "AttributeError" ("'" ++ ty ++ "' object has no attribute 'get'").
Definition TypeError_not_iterable (ty : string) : exn :=
  mkExn "TypeError" ("argument of type '" ++ ty ++ "' is not iterable").
Definition TypeError_str_index : exn :=
  mkExn "TypeError" "string indices must be integers, not 'str'".
Definition TypeError_list_index : exn :=
  mkExn "TypeError" "list indices must be integers or slices, not str".
Definition TypeError_not_subscriptable (ty : string) : exn :=
  mkExn "TypeError" ("'" ++ ty ++ "' object is not subscriptable").
Definition IndexError_string : exn :=
  mkExn "IndexError" "string index out of range".
Definition KeyError_int (key : Z) : exn := mkExn "KeyError" (str key).

End Py.

(** ** The wire contract: what the service sends back

    Payloads are typed after the GraphQL schema the scripts query
    (leaderboards, player, boards).  The envelope around them is kept as
    Python sees it after [response.json()]: the body may fail to decode, or
    be any JSON value; an object may carry any value under ["errors"]; its
    ["data"] may be absent, [null], a bare string or an object. *)

Record leaderboard := mkLeaderboard {
  lb_leaderboardId : string;
  lb_name : string;
  lb_host : string;
  lb_chainId : string;
  lb_totalBoards : Z;
  lb_totalPlayers : Z;
  lb_shardIds : list string
}.

Record player_info := mkPlayer {
  pl_username : string;
  pl_chainId : string;
  pl_isMod : bool
}.

Record board := mkBoard {
  bd_boardId : string;
  bd_chainId : string;
  bd_shardId : string;
  bd_leaderboardId : string;
  bd_player : string
}.

(** The object under ["data"]; [None] is an absent key. *)
Record data_obj := mkData {
  d_registerPlayer : option string;
  d_leaderboardAction : option string;
  d_newBoard : option string;
  d_makeMoves : option string;
  d_leaderboards : option (list leaderboard);
  d_player : option player_info;
  d_boards : option (list board)
}.

Definition empty_data : data_obj :=
  mkData None None None None None None None.

Inductive gql_data :=
| DNull                      (* "data": null *)
| DScalar (s : string)       (* "data": "..." *)
| DObject (o : data_obj).    (* "data": { ... } *)

(** One entry of ["errors"] that is an object: its ["message"], [None]
    when it has none.  The scripts read the first entry only; a later entry
    that is not an object is kept as one without a message. *)
Definition gql_error := option string.

(** A JSON null, boolean or number.  Of a float only its truth value is
    ever looked at. *)
Inductive atom :=
| JNull
| JBool (b : bool)
| JInt (n : Z)
| JFloat (nonzero : bool).

(** type(v).__name__ *)
Definition atom_type (a : atom) : string :=
  match a with
  | JNull => "NoneType"
  | JBool _ => "bool"
  | JInt _ => "int"
  | JFloat _ => "float"
  end.

(** bool(v) *)
Definition atom_truthy (a : atom) : bool :=
  match a with
  | JNull => false
  | JBool b => b
  | JInt n => negb (n =? 0)
  | JFloat nonzero => nonzero
  end.

(** A value under ["errors"] that is neither the empty list nor a list
    whose first entry is an object. *)
Inductive odd_errors :=
| ErrorsAtom (a : atom)          (* "errors": null, true, 3 *)
| ErrorsString (s : string)      (* "errors": "..." *)
| ErrorsObject                   (* "errors": { ... } *)
| EntryAtom (a : atom)           (* "errors": [null, ...], [3, ...] *)
| EntryString (s : string)       (* "errors": ["...", ...] *)
| EntryArray.                    (* "errors": [[...], ...] *)

(** The decoded JSON body of a response, when it is an object, a string or
    an array.  An array is kept as far as [key in data] can tell: an item
    is [Some s] when it is the string [s], and [None] otherwise. *)
Inductive envelope :=
| mkEnvelope (errors : option (list gql_error)) (data : option gql_data)
    (* an object; "errors", when present, is the empty list or a list
       whose first entry is an object; with neither key, the empty object *)
| mkOddErrors (errors : odd_errors) (data : option gql_data)
    (* an object with any other value under "errors" *)
| mkOtherKeys
    (* an object that has keys, none of them "errors" or "data" *)
| mkString (s : string)
| mkArray (items : list (option string)).

(** What [requests.post] does. *)
Inductive response :=
| Timeout                                 (* requests.exceptions.Timeout *)
| RequestFailed (msg : string)            (* another RequestException *)
| Http (status : Z) (body : option envelope)  (* body None: not JSON *)
| HttpAtom (status : Z) (body : atom).    (* a body that is an atom *)

(** [response.raise_for_status()] raises HTTPError for these codes. *)
Definition is_error_status (status : Z) : bool :=
  (400 <=? status) && (status <? 600).

(** ** The requests the scripts issue

    One constructor per GraphQL document in the sources, carrying the values
    the script interpolates into it (or passes as variables). *)

Inductive operation :=
| OpRegisterPlayer (username passwordHash : string)
| OpCreateTournament (name startTime endTime : string) (shardNumber : Z)
                     (player passwordHash : string)
| OpNewBoard (player passwordHash timestamp leaderboardId : string)
| OpMakeMoves (boardId moves player passwordHash : string)
| OpUpdateActiveTournaments
| OpQueryState (username : string)  (* leaderboards, player(username), boards *)
| OpQueryLeaderboards (fields : list string)  (* leaderboards { fields } *)
| OpQueryBoards.                    (* boards { boardId player leaderboardId } *)

Record request := mkRequest {
  rq_url : string;
  rq_op : operation;
  rq_timeout : Z
}.

(** f"{base_url}/chains/{chain_id}/applications/{app_id}" *)
Definition endpoint (base_url chain_id app_id : string) : string :=
  (base_url ++ "/chains/" ++ chain_id ++ "/applications/" ++ app_id)%string.

(** ** Verdict-bearing console lines

    The scripts report through [self.log]; the lines that carry a verdict
    are kept as events, in the order printed. *)

Inductive event :=
(* create_multiple_test_tournaments / create_stress_test_tournaments *)
| EvTournamentCreated (name : string)
| EvTournamentCreateFailed (name : string)
(* register_player, trigger_tournament_update *)
| EvPlayerRegistered
| EvPlayerRegisterFailed
| EvCacheUpdateTriggered
| EvCacheUpdateUnconfirmed
| EvCacheUpdateError (msg : string)
(* verify_active_tournaments *)
| EvStreamTriggered (board_id : string)
| EvStreamTriggerNoBoard
| EvStreamTriggerFailed (msg : string)
| EvStreamTriggerRejected
| EvVisibility (name : string) (visible should_be_active : bool)
| EvFilterOk
| EvFilterFailed (expected actual : Z)
| EvStateQueryFailed
| EvTournamentStateQueryFailed
(* test_board_creation_validation *)
| EvPastAccepted
| EvPastReturnedNone
| EvPastCorrectlyRejected
| EvPastUnexpectedError (msg : string)
| EvPastSkipped
| EvActiveAccepted (board_id : string)
| EvActiveReturnedNone
| EvActiveCacheSync
| EvActiveUnexpectedError (msg : string)
| EvActiveSkipped
| EvValidationTally (success_count total_tests : Z)
| EvNoValidationTests
(* run_tournament_validation_test *)
| EvStreamingBoard (board_id : string)
| EvStreamingNoBoard
| EvStreamingError (msg : string)
| EvStreamingSkipped
| EvSummary (filtering_success validation_success overall_success : bool)
(* check_leaderboard_scores *)
| EvStreamingSuccessful (name : string) (total_boards : Z)
| EvNoBoardsRegistered (name : string)
| EvLeaderboardChainFailed (name : string)
| EvLeaderboardChainQueryFailed
| EvNoTournamentsForUser
| EvLeaderboardListFailed
(* create_board / make_moves *)
| EvNoPlayerChain
| EvBoardSubmitted
| EvBoardFound (board_id : string)
| EvBoardNotFound
| EvBoardsQueryFailed
| EvBoardCreateFailed
| EvBoardCreated
| EvMovesOk
| EvMovesFailed
(* transport *)
| EvGraphQLError (message : string)
| EvTimedOut
| EvHttpError (status : Z)
| EvRequestFailed (msg : string)
(* coordinator *)
| EvCoordinatorRegistered
| EvCoordinatorFailed
| EvAccessible (name : string)
| EvNotAccessible (name : string)
| EvSetupFailed (step : Z)
| EvSetupComplete.

(** ** The world *)

Record io := mkIo {
  net : nat -> response;       (* the answer to the n-th request *)
  sent : list request;         (* requests issued so far, oldest first *)
  slept : Z;                   (* seconds spent in time.sleep *)
  now_us : Z;                  (* int(time.time() * 1_000_000) *)
  disk_ok : bool;              (* whether writing a file succeeds *)
  written : list string;       (* files written *)
  out : list event             (* console, oldest first *)
}.

Definition io_send (r : request) (w : io) : response * io :=
  (net w (List.length (sent w)),
   mkIo (net w) (sent w ++ [r]) (slept w) (now_us w) (disk_ok w)
        (written w) (out w)).

Definition io_sleep (secs : Z) (w : io) : io :=
  mkIo (net w) (sent w) (slept w + secs) (now_us w) (disk_ok w)
       (written w) (out w).

Definition io_log (e : event) (w : io) : io :=
  mkIo (net w) (sent w) (slept w) (now_us w) (disk_ok w)
       (written w) (out w ++ [e]).

Definition io_write (file : string) (w : io) : bool * io :=
  if disk_ok w
  then (true, mkIo (net w) (sent w) (slept w) (now_us w) (disk_ok w)
                   (written w ++ [file]) (out w))
  else (false, w).

(** A world in which nothing has happened yet. *)
Definition fresh_io (service : nat -> response) (clock : Z) (disk : bool) : io :=
  mkIo service [] 0 clock disk [] [].

(** ** The monad: object state, world, exceptions *)

Inductive outcome (A : Type) :=
| Ok (a : A)
| Raise (e : Py.exn).
Arguments Ok {A} a.
Arguments Raise {A} e.

Section Monad.
Context {Self : Type}.

Record state := mkState { self : Self; world : io }.

Definition M (A : Type) : Type := state -> outcome A * state.

Definition ret {A} (a : A) : M A := fun s => (Ok a, s).

Definition bind {A B} (c : M A) (k : A -> M B) : M B :=
  fun s => match c s with
           | (Ok a, s') => k a s'
           | (Raise e, s') => (Raise e, s')
           end.

Definition raise {A} (e : Py.exn) : M A := fun s => (Raise e, s).

(** try: c / except Exception as e: h e *)
Definition try_except {A} (c : M A) (h : Py.exn -> M A) : M A :=
  fun s => match c s with
           | (Ok a, s') => (Ok a, s')
           | (Raise e, s') => h e s'
           end.

Definition get_self : M Self := fun s => (Ok (self s), s).
Definition set_self (x : Self) : M unit :=
  fun s => (Ok tt, mkState x (world s)).
Definition get_now : M Z := fun s => (Ok (now_us (world s)), s).

Definition log (e : event) : M unit :=
  fun s => (Ok tt, mkState (self s) (io_log e (world s))).
Definition sleep (secs : Z) : M unit :=
  fun s => (Ok tt, mkState (self s) (io_sleep secs (world s))).
Definition post (r : request) : M response :=
  fun s => let (a, w) := io_send r (world s) in (Ok a, mkState (self s) w).
Definition write_file (file : string) : M bool :=
  fun s => let (b, w) := io_write file (world s) in (Ok b, mkState (self s) w).

(** for x in l: body x   (the body may return early with [Some v]) *)
Fixpoint for_each {A R} (l : list A) (body : A -> M (option R)) : M (option R) :=
  match l with
  | [] => ret None
  | x :: r => bind (body x) (fun o =>
                match o with
                | Some v => ret (Some v)
                | None => for_each r body
                end)
  end.

(** for x in l: acc = body acc x, where the body may return early:
    [inl acc] carries the loop variable on, [inr v] is [return v]. *)
Fixpoint for_loop {A B R} (l : list A) (acc : B)
         (body : B -> A -> M (B + R)) : M (B + R) :=
  match l with
  | [] => ret (inl acc)
  | x :: r => bind (body acc x) (fun o =>
                match o with
                | inl acc' => for_loop r acc' body
                | inr v => ret (inr v)
                end)
  end.

(** for x in l: acc = body acc x *)
Fixpoint for_fold {A B} (l : list A) (acc : B) (body : B -> A -> M B) : M B :=
  match l with
  | [] => ret acc
  | x :: r => bind (body acc x) (fun acc' => for_fold r acc' body)
  end.

Definition when (b : bool) (c : M unit) : M unit :=
  if b then c else ret tt.
End Monad.
Arguments state : clear implicits.
Arguments M : clear implicits.

Declare Scope py_scope.
Delimit Scope py_scope with py.
Notation "x <- c ;; k" := (bind c (fun x => k))
  (at level 61, c at next level, right associativity) : py_scope.
Notation "c ;; k" := (bind c (fun _ => k))
  (at level 61, right associativity) : py_scope.
Open Scope py_scope.

(** ** Transport: make_graphql_request

    test_tournaments_fresh.py and stress_test_coordinator.py share this
    method, up to the timeout (10 and 30 seconds).  Its result is [None]
    for Python's None and also for a body that is a false atom (0, 0.0,
    false): the method returns that atom, and every caller tests the
    result's truth value before anything else. *)

Section Transport.
Context {Self : Type}.

(** Truth value of the decoded body: a dict is true when it has a key, a
    string or a list when it is not empty. *)
Definition envelope_truthy (e : envelope) : bool :=
  match e with
  | mkEnvelope None None => false
  | mkString s => Py.truthy s
  | mkArray [] => false
  | _ => true
  end.

(** [key in items] for the items of an array. *)
Definition among (key : string) (items : list (option string)) : bool :=
  existsb (fun item => match item with
                       | Some s => String.eqb s key
                       | None => false
                       end) items.

(** ["errors" in data]: a key of an object, a substring of a string, an
    item of a list. *)
Definition mentions_errors (e : envelope) : bool :=
  match e with
  | mkEnvelope (Some _) _ | mkOddErrors _ _ => true
  | mkEnvelope None _ | mkOtherKeys => false
  | mkString s => Py.contains "errors" s
  | mkArray items => among "errors" items
  end.

(** What [errors[0].get('message', 'Unknown error')] raises on an odd
    ["errors"] value. *)
Definition odd_errors_exn (v : odd_errors) : Py.exn :=
  match v with
  | ErrorsAtom a => Py.TypeError_not_subscriptable (atom_type a)
  | ErrorsString EmptyString => Py.IndexError_string
  | ErrorsString (String _ _) => Py.AttributeError_get "str"
  | ErrorsObject => Py.KeyError_int 0
  | EntryAtom a => Py.AttributeError_get (atom_type a)
  | EntryString _ => Py.AttributeError_get "str"
  | EntryArray => Py.AttributeError_get "list"
  end.

(** data['errors'][0].get('message', 'Unknown error') *)
Definition first_error_message (e : envelope) : M Self string :=
  match e with
  | mkEnvelope (Some []) _ => raise Py.IndexError_list
  | mkEnvelope (Some (Some m :: _)) _ => ret m
  | mkEnvelope (Some (None :: _)) _ => ret "Unknown error"%string
  | mkOddErrors v _ => raise (odd_errors_exn v)
  | mkString _ => raise Py.TypeError_str_index
  | mkArray _ => raise Py.TypeError_list_index
  | mkEnvelope None _ | mkOtherKeys => raise (Py.KeyError "errors")
  end.

(** response.raise_for_status() followed by [return data]; the HTTPError
    is caught by the method's own except clause. *)
Definition checked_status (status : Z) (show_error : bool)
           (data : option envelope) : M Self (option envelope) :=
  if is_error_status status
  then when show_error (log (EvHttpError status)) ;; ret None
  else ret data.

Definition make_graphql_request (timeout : Z) (url : string) (op : operation)
           (show_error : bool) : M Self (option envelope) :=
  resp <- post (mkRequest url op timeout) ;;
  match resp with
  | Timeout =>
      when show_error (log EvTimedOut) ;;
      ret None
  | RequestFailed msg =>
      when show_error (log (EvRequestFailed msg)) ;;
      ret None
  | Http status None =>
      (* response.json() raised: data = None *)
      checked_status status show_error None
  | Http status (Some e) =>
      (* data and "errors" in data and show_error *)
      if mentions_errors e && show_error
      then
        m <- first_error_message e ;;
        log (EvGraphQLError m) ;;
        ret None
      else checked_status status show_error (Some e)
  | HttpAtom status a =>
      (* a true atom reaches ["errors" in data], whatever show_error is *)
      if atom_truthy a
      then raise (Py.TypeError_not_iterable (atom_type a))
      else checked_status status show_error None
  end.

(** [result and "data" in result] *)
Definition has_data (result : option envelope) : bool :=
  match result with
  | Some (mkEnvelope _ (Some _)) | Some (mkOddErrors _ (Some _)) => true
  | Some (mkString s) => Py.contains "data" s
  | Some (mkArray items) => among "data" items
  | _ => false
  end.

(** [result["data"]]: a string or a list cannot be indexed by a key. *)
Definition data_of (result : option envelope) : M Self gql_data :=
  match result with
  | Some (mkEnvelope _ (Some d)) | Some (mkOddErrors _ (Some d)) => ret d
  | Some (mkString _) => raise Py.TypeError_str_index
  | Some (mkArray _) => raise Py.TypeError_list_index
  | Some _ => raise (Py.KeyError "data")
  | None => raise (Py.TypeError_not_subscriptable "NoneType")
  end.

(** [key in data] followed in the true branch by [data[key]], for the
    payload [data]: the value under [key], or [None] when the test is
    false.  A [null] payload makes the membership test raise; a bare string
    passes it only as a substring and then fails to be indexed. *)
Definition payload_member {A} (key : string) (field : data_obj -> option A)
           (d : gql_data) : M Self (option A) :=
  match d with
  | DNull => raise (Py.TypeError_not_iterable "NoneType")
  | DScalar s =>
      if Py.contains key s then raise Py.TypeError_str_index else ret None
  | DObject o => ret (field o)
  end.

(** [result and "data" in result and key in result["data"]], followed in
    the true branch by [result["data"][key]]. *)
Definition data_member {A} (key : string) (field : data_obj -> option A)
           (result : option envelope) : M Self (option A) :=
  if has_data result
  then d <- data_of result ;; payload_member key field d
  else ret None.

(** [data.get(key) if isinstance(data, dict) else data], for the payload
    [data]. *)
Definition scalar_payload (field : data_obj -> option string)
           (d : gql_data) : option string :=
  match d with
  | DObject o => field o
  | DScalar s => Some s
  | DNull => None
  end.

(** The same for a result whose ["data"] can be read. *)
Definition scalar_result (field : data_obj -> option string)
           (result : option envelope) : option string :=
  match result with
  | Some (mkEnvelope _ (Some d)) | Some (mkOddErrors _ (Some d)) =>
      scalar_payload field d
  | _ => None
  end.
End Transport.

(** ** A results dict

    [Dict[str, bool]] in insertion order: [results[key] = v] replaces the
    value of a key already there, in place, and appends a new key. *)

Definition results := list (string * bool).

Fixpoint results_set (key : string) (v : bool) (d : results) : results :=
  match d with
  | [] => [(key, v)]
  | (k, old) :: r =>
      if String.eqb k key then (k, v) :: r else (k, old) :: results_set key v r
  end.

(** all(results.values()) *)
Definition results_all (d : results) : bool := forallb snd d.

(** ** stress_test_coordinator.py *)

Module Coordinator.

Record tournament_config := mkConfig {
  cfg_name : string;
  cfg_start_time : Z;
  cfg_end_time : Z;
  cfg_shard_number : Z;
  cfg_description : string
}.

Record created_tournament := mkCreated {
  ct_name : string;
  ct_host : string;
  ct_shard_count : Z;
  ct_description : string;
  ct_creation_result : option string
}.

Record tournament_details := mkDetails {
  td_id : string;
  td_name : string;
  td_chainId : string;
  td_shardIds : list string;
  td_shardCount : Z;
  td_totalBoards : Z
}.

Record stress_settings := mkStress {
  total_players : Z;
  boards_per_player : Z;
  moves_per_board : Z;
  move_batch_size : Z;
  concurrent_tournaments : Z;
  recommended_players_per_tournament : Z
}.

(** self.test_config, a dict filled key by key. *)
Record test_config := mkTestConfig {
  tc_tournaments : option (list tournament_details);
  tc_coordinator : option (string * string);
  tc_api : option (string * string * string * string);
  tc_stress_test : option stress_settings
}.

Record coordinator := mkCoordinator {
  base_url : string;
  main_chain_id : string;
  app_id : string;
  main_url : string;
  coordinator_username : string;
  coordinator_password : string;
  created_tournaments : list created_tournament;
  config : test_config
}.

(** __init__; [suffix] is the eight random characters. *)
Definition init (chain_id app base suffix : string) : coordinator :=
  mkCoordinator base chain_id app (endpoint base chain_id app)
                ("coord_" ++ suffix) ("pass_" ++ suffix) []
                (mkTestConfig None None None None).

Definition set_created (l : list created_tournament) (c : coordinator) :=
  mkCoordinator (base_url c) (main_chain_id c) (app_id c) (main_url c)
                (coordinator_username c) (coordinator_password c) l (config c).

Definition set_config (t : test_config) (c : coordinator) :=
  mkCoordinator (base_url c) (main_chain_id c) (app_id c) (main_url c)
                (coordinator_username c) (coordinator_password c)
                (created_tournaments c) t.

Definition request := @make_graphql_request coordinator 30.

Definition register_coordinator : M coordinator bool :=
  c <- get_self ;;
  result <- request (main_url c)
              (OpRegisterPlayer (coordinator_username c) (coordinator_password c))
              true ;;
  if has_data result
  then log EvCoordinatorRegistered ;; ret true
  else log EvCoordinatorFailed ;; ret false.

(** The list comprehension building [tournament_configs]. *)
Definition tournament_configs (num_tournaments shard_count : Z)
  : list tournament_config :=
  map (fun i => mkConfig (Py.str i) 0 0 shard_count
                         ("Tournament " ++ Py.str i))
      (Py.range num_tournaments).

Definition create_operation (c : coordinator) (cfg : tournament_config)
  : operation :=
  OpCreateTournament (cfg_name cfg) (Py.str (cfg_start_time cfg))
                     (Py.str (cfg_end_time cfg)) (cfg_shard_number cfg)
                     (coordinator_username c) (coordinator_password c).

(** One turn of the creation loop; [Some false] is the early return. *)
Definition create_step (total : Z) (ic : Z * tournament_config)
  : M coordinator (option bool) :=
  let (i, cfg) := ic in
  c <- get_self ;;
  result <- request (main_url c) (create_operation c cfg) true ;;
  if has_data result
  then
    d <- data_of result ;;
    let tournament_result := scalar_payload d_leaderboardAction d in
    log (EvTournamentCreated (cfg_name cfg)) ;;
    c <- get_self ;;
    set_self (set_created
                (created_tournaments c ++
                 [mkCreated (cfg_name cfg) (coordinator_username c)
                            (cfg_shard_number cfg) (cfg_description cfg)
                            tournament_result]) c) ;;
    when (i <? total - 1) (sleep 1) ;;
    ret None
  else
    log (EvTournamentCreateFailed (cfg_name cfg)) ;;
    ret (Some false).

Definition create_stress_test_tournaments (num_tournaments shard_count : Z)
  : M coordinator bool :=
  _ <- get_now ;;
  let configs := tournament_configs num_tournaments shard_count in
  r <- for_each (Py.enumerate 0 configs)
                (create_step (Z.of_nat (List.length configs))) ;;
  match r with
  | Some b => ret b
  | None => ret true
  end.

Definition details_of (lb : leaderboard) : tournament_details :=
  mkDetails (lb_leaderboardId lb) (lb_name lb) (lb_chainId lb)
            (lb_shardIds lb) (Z.of_nat (List.length (lb_shardIds lb)))
            (lb_totalBoards lb).

Definition query_tournament_details : M coordinator bool :=
  c <- get_self ;;
  result <- request (main_url c)
              (OpQueryLeaderboards
                 ["leaderboardId"; "name"; "host"; "chainId"; "totalBoards";
                  "shardIds"]%string) true ;;
  lbs <- data_member "leaderboards" d_leaderboards result ;;
  match lbs with
  | Some all =>
      let leaderboards :=
        filter (fun lb => Py.truthy (lb_leaderboardId lb) &&
                          String.eqb (lb_host lb) (coordinator_username c))
               all in
      match leaderboards with
      | _ :: _ =>
          set_self (set_config
            (mkTestConfig
               (Some (map details_of leaderboards))
               (Some (coordinator_username c, coordinator_password c))
               (Some (base_url c, main_chain_id c, app_id c, main_url c))
               (tc_stress_test (config c))) c) ;;
          ret true
      | [] => ret false
      end
  | None => ret false
  end.

(** len(self.test_config.get('tournaments', [])) *)
Definition tournament_count (t : test_config) : Z :=
  match tc_tournaments t with
  | Some l => Z.of_nat (List.length l)
  | None => 0
  end.

Definition save_test_config (output_file : string) : M coordinator bool :=
  c <- get_self ;;
  let n := tournament_count (config c) in
  set_self (set_config
    (mkTestConfig (tc_tournaments (config c)) (tc_coordinator (config c))
       (tc_api (config c))
       (Some (mkStress 60 2 30 15 n (60 / Z.max n 1)))) c) ;;
  written_ok <- write_file output_file ;;
  ret written_ok.

Definition accessibility_fields : list string :=
  ["leaderboardId"; "name"; "totalBoards"; "totalPlayers"]%string.

Definition verify_tournament_accessibility : M coordinator bool :=
  c <- get_self ;;
  match tc_tournaments (config c) with
  | None | Some [] => ret false
  | Some tournaments =>
      all_accessible <-
        for_fold tournaments true (fun acc t =>
          result <- request (endpoint (base_url c) (td_chainId t) (app_id c))
                      (OpQueryLeaderboards accessibility_fields) false ;;
          if has_data result
          then log (EvAccessible (td_name t)) ;; ret acc
          else log (EvNotAccessible (td_name t)) ;; ret false) ;;
      ret all_accessible
  end.

Definition run_coordinator_setup (num_tournaments shard_count : Z)
           (output_file : string) : M coordinator bool :=
  registered <- register_coordinator ;;
  if negb registered then log (EvSetupFailed 1) ;; ret false else
  sleep 1 ;;
  created <- create_stress_test_tournaments num_tournaments shard_count ;;
  if negb created then log (EvSetupFailed 2) ;; ret false else
  sleep 2 ;;
  collected <- query_tournament_details ;;
  if negb collected then log (EvSetupFailed 3) ;; ret false else
  saved <- save_test_config output_file ;;
  if negb saved then log (EvSetupFailed 4) ;; ret false else
  _ <- verify_tournament_accessibility ;;
  log EvSetupComplete ;;
  ret true.

(** The parsed command line. *)
Record args := mkArgs {
  arg_chain_id : string;
  arg_app_id : string;
  arg_tournaments : Z;
  arg_shards : Z;
  arg_url : string;
  arg_output : string
}.

(** How the process ends: [sys.exit(code)], or an uncaught exception. *)
Inductive exit := Exit (code : Z) | Crash (e : Py.exn).

(** main(), after [parser.parse_args()]. *)
Definition main (a : args) (suffix : string) (w : io) : exit * io :=
  if (arg_tournaments a <? 1) || (10 <? arg_tournaments a) then (Exit 1, w)
  else if (arg_shards a <? 1) || (32 <? arg_shards a) then (Exit 1, w)
  else
    let c := init (arg_chain_id a) (arg_app_id a) (arg_url a) suffix in
    match run_coordinator_setup (arg_tournaments a) (arg_shards a)
                                (arg_output a) (mkState c w) with
    | (Ok success, s) => (Exit (if success then 0 else 1), world s)
    | (Raise e, s) => (Crash e, world s)
    end.

End Coordinator.

(** ** test_tournaments_fresh.py *)

Module Fresh.

(** An entry of self.boards. *)
Record board_info := mkBoardInfo {
  bi_board_id : string;
  bi_tournament_id : string;
  bi_tournament_name : string;
  bi_position : string
}.

Record tester := mkTester {
  base_url : string;
  main_chain_id : string;
  app_id : string;
  main_url : string;
  username : string;
  password : string;
  player_chain_id : option string;
  tournaments : list string;
  boards : list board_info
}.

(** __init__; [suffix] is the six random characters. *)
Definition init (chain_id app base suffix : string) : tester :=
  mkTester base chain_id app (endpoint base chain_id app)
           ("test_" ++ suffix) ("pass_" ++ suffix) None [] [].

Definition set_player_chain_id (v : option string) (t : tester) : tester :=
  mkTester (base_url t) (main_chain_id t) (app_id t) (main_url t)
           (username t) (password t) v (tournaments t) (boards t).

Definition request := @make_graphql_request tester 10.

(** *** make_moves *)

Definition move_pattern : list string :=
  ["Down"; "Right"; "Down"; "Left"]%string.

Definition base_timestamp : Z := 100000000.

(** The timestamp of move [i], before [str]. *)
Definition move_timestamp (i : Z) : Z := base_timestamp + i * 1000.

(** move_pattern[i % len(move_pattern)] *)
Definition move_direction (i : Z) : string :=
  nth (Z.to_nat (i mod Z.of_nat (List.length move_pattern))) move_pattern
      EmptyString.

(** The list built by the loop over [range(num_moves)]: one
    [direction, timestamp] pair per index. *)
Definition moves_list (num_moves : Z) : list (string * string) :=
  map (fun i => (move_direction i, Py.str (move_timestamp i)))
      (Py.range num_moves).

Definition dquote : string := String "034"%char EmptyString.

(** json.dumps of a string none of whose characters needs escaping (the
    directions and the decimal numerals are such strings). *)
Definition json_string (s : string) : string := (dquote ++ s ++ dquote)%string.

Definition json_pair (m : string * string) : string :=
  ("[" ++ json_string (fst m) ++ ", " ++ json_string (snd m) ++ "]")%string.

Fixpoint json_items (l : list (string * string)) : string :=
  match l with
  | [] => EmptyString
  | [m] => json_pair m
  | m :: r => (json_pair m ++ ", " ++ json_items r)%string
  end.

(** json.dumps(moves_list) *)
Definition json_dumps (l : list (string * string)) : string :=
  ("[" ++ json_items l ++ "]")%string.

Definition player_url (t : tester) (chain : string) : string :=
  endpoint (base_url t) chain (app_id t).

Definition make_moves (board_id : string) (num_moves : Z) : M tester bool :=
  t <- get_self ;;
  match player_chain_id t with
  | Some chain =>
      if negb (Py.truthy chain) then log EvNoPlayerChain ;; ret false else
      let moves_string := json_dumps (moves_list num_moves) in
      result <- request (player_url t chain)
                  (OpMakeMoves board_id moves_string (username t) (password t))
                  true ;;
      if has_data result
      then
        (* isinstance(result["data"], dict) *)
        _ <- data_of result ;;
        log EvMovesOk ;; ret true
      else log EvMovesFailed ;; ret false
  | None => log EvNoPlayerChain ;; ret false
  end.

(** *** query_state

    The result is the ["data"] object; [None] stands for the two false
    results of the source, [None] and the empty dict. *)
Definition query_state : M tester (option data_obj) :=
  t <- get_self ;;
  result <- request (main_url t) (OpQueryState (username t)) true ;;
  if has_data result then
    data <- data_of result ;;
    match data with
    | DObject d =>
        match d_player d with
        | Some p => set_self (set_player_chain_id (Some (pl_chainId p)) t)
        | None => ret tt
        end ;;
        match d_leaderboards d with
        | Some (_ :: _) => ret (Some d)
        | _ => ret None
        end
    | DScalar _ => raise (Py.AttributeError_get "str")
    | DNull => raise (Py.AttributeError_get "NoneType")
    end
  else
    log EvStateQueryFailed ;; ret None.

(** state["leaderboards"] of a true state. *)
Definition state_leaderboards (state : data_obj) : list leaderboard :=
  match d_leaderboards state with
  | Some l => l
  | None => []
  end.

(** [lb for lb in ... if lb.get("leaderboardId")] *)
Definition all_tournaments (lbs : list leaderboard) : list leaderboard :=
  filter (fun lb => Py.truthy (lb_leaderboardId lb)) lbs.

(** [lb for lb in all_tournaments if lb.get("host") == self.username] *)
Definition my_tournaments (user : string) (lbs : list leaderboard)
  : list leaderboard :=
  filter (fun lb => String.eqb (lb_host lb) user) (all_tournaments lbs).

(** The loop of get_tournament_id_by_name: the first of the player's
    tournaments with that name. *)
Definition find_by_name (tournament_name : string) (mine : list leaderboard)
  : option leaderboard :=
  find (fun t => String.eqb (lb_name t) tournament_name) mine.

Definition get_tournament_id_by_name (tournament_name : string)
  : M tester (option string) :=
  state <- query_state ;;
  t <- get_self ;;
  match state with
  | Some d =>
      match find_by_name tournament_name
                         (my_tournaments (username t) (state_leaderboards d)) with
      | Some lb => ret (Some (lb_leaderboardId lb))
      | None => ret None
      end
  | None => ret None
  end.

(** *** create_board *)

(** The loop over the boards of the follow-up query. *)
Definition find_board (user tournament_id : string) (l : list board)
  : option board :=
  find (fun b => String.eqb (bd_player b) user &&
                 String.eqb (bd_leaderboardId b) tournament_id) l.

Definition create_board (tournament_id timestamp : string)
  : M tester (option string) :=
  t <- get_self ;;
  if negb (Py.truthy_opt (player_chain_id t))
  then log EvNoPlayerChain ;; ret None else
  let url := player_url t (match player_chain_id t with
                           | Some c => c | None => EmptyString end) in
  result <- request url
              (OpNewBoard (username t) (password t) timestamp tournament_id)
              true ;;
  if has_data result then
    log EvBoardSubmitted ;;
    sleep 1 ;;
    boards_result <- request url OpQueryBoards true ;;
    bs <- data_member "boards" d_boards boards_result ;;
    match bs with
    | Some l =>
        match find_board (username t) tournament_id l with
        | Some b => log (EvBoardFound (bd_boardId b)) ;; ret (Some (bd_boardId b))
        | None => log EvBoardNotFound ;; ret None
        end
    | None => log EvBoardsQueryFailed ;; ret None
    end
  else
    log EvBoardCreateFailed ;; ret None.

Definition default_board_timestamp : string := "10000000".

(** *** Tournament creation *)

Definition create_tournament_with_time (name : string) (start_time end_time : Z)
  : M tester (option string) :=
  t <- get_self ;;
  result <- request (main_url t)
              (OpCreateTournament name (Py.str start_time) (Py.str end_time) 2
                                  (username t) (password t)) true ;;
  if has_data result
  then d <- data_of result ;; ret (scalar_payload d_leaderboardAction d)
  else ret None.

(** A row of [tournament_scenarios]:
    (name, start_time, end_time, should_be_active). *)
Record scenario := mkScenario {
  sc_name : string;
  sc_start_time : Z;
  sc_end_time : Z;
  sc_should_be_active : bool
}.

Definition tournament_scenarios (current_time : Z) : list scenario :=
  [ mkScenario "past_tournament" (current_time - 3600000000)
               (current_time - 1800000000) false;
    mkScenario "future_tournament" (current_time + 3600000000)
               (current_time + 7200000000) false;
    mkScenario "active_tournament" 0 0 true;
    mkScenario "eternal_tournament" 0 0 true ].

(** The dict appended to [created_tournaments]; it has these five keys and
    no other (the mutation result is not stored). *)
Record created_tournament := mkCreated {
  ct_name : string;
  ct_start_time : Z;
  ct_end_time : Z;
  ct_should_be_active : bool;
  ct_host : string
}.

Definition created_of (user : string) (sc : scenario) : created_tournament :=
  mkCreated (sc_name sc) (sc_start_time sc) (sc_end_time sc)
            (sc_should_be_active sc) user.

(** One turn of the creation loop; [inr None] is [return None]. *)
Definition create_scenario_step (total : Z)
           (created_tournaments : list created_tournament)
           (isc : Z * scenario)
  : M tester (list created_tournament + option (list created_tournament)) :=
  let (i, sc) := isc in
  mutation_result <- create_tournament_with_time
                       (sc_name sc) (sc_start_time sc) (sc_end_time sc) ;;
  if Py.truthy_opt mutation_result
  then
    log (EvTournamentCreated (sc_name sc)) ;;
    t <- get_self ;;
    when (i <? total) (sleep 1) ;;
    ret (inl (created_tournaments ++ [created_of (username t) sc]))
  else
    log (EvTournamentCreateFailed (sc_name sc)) ;;
    ret (inr None).

Definition create_multiple_test_tournaments
  : M tester (option (list created_tournament)) :=
  current_time <- get_now ;;
  let scenarios := tournament_scenarios current_time in
  r <- for_loop (Py.enumerate 1 scenarios) []
                (create_scenario_step (Z.of_nat (List.length scenarios))) ;;
  match r with
  | inl created_tournaments => ret (Some created_tournaments)
  | inr early => ret early
  end.

Definition register_player : M tester bool :=
  t <- get_self ;;
  result <- request (main_url t)
              (OpRegisterPlayer (username t) (password t)) true ;;
  if has_data result
  then
    log EvPlayerRegistered ;;
    (* the response line: isinstance(result['data'], dict) *)
    _ <- data_of result ;;
    ret true
  else log EvPlayerRegisterFailed ;; ret false.

Definition trigger_tournament_update : M tester unit :=
  try_except
    (t <- get_self ;;
     result <- request (main_url t) OpUpdateActiveTournaments true ;;
     match result with
     | Some e => if envelope_truthy e then log EvCacheUpdateTriggered
                 else log EvCacheUpdateUnconfirmed
     | None => log EvCacheUpdateUnconfirmed
     end)
    (fun e => log (EvCacheUpdateError (Py.exn_msg e))).

(** *** verify_active_tournaments *)

(** The test applied to [str(e).lower()] when forcing stream processing. *)
Definition is_rejection_message (error_msg : string) : bool :=
  Py.contains "not found in cache" error_msg ||
  Py.contains "not active" error_msg ||
  (Py.contains "http error 500" error_msg &&
   Py.contains "runtime error" error_msg).

(** next((t for t in my_tournaments
          if t.get("name") == name and t.get("host") == self.username), None) *)
Definition matching_tournament (user name : string) (mine : list leaderboard)
  : option leaderboard :=
  find (fun t => String.eqb (lb_name t) name && String.eqb (lb_host t) user)
       mine.

Definition is_some {A} (o : option A) : bool :=
  match o with Some _ => true | None => false end.

(** One line of the visibility details. *)
Definition visibility_line (user : string) (mine : list leaderboard)
           (tournament : created_tournament) : event :=
  EvVisibility (ct_name tournament)
               (is_some (matching_tournament user (ct_name tournament) mine))
               (ct_should_be_active tournament).

(** [t for t in my_tournaments if t.get("name") in created_tournament_names] *)
Definition my_new_tournaments (mine : list leaderboard)
           (created_tournaments : list created_tournament) : list leaderboard :=
  filter (fun t => existsb (fun c => String.eqb (ct_name c) (lb_name t))
                           created_tournaments) mine.

Definition force_stream_processing
           (created_tournaments : list created_tournament) : M tester unit :=
  t <- get_self ;;
  let eternal_tournament :=
    find (fun c => String.eqb (ct_name c) "eternal_tournament")
         created_tournaments in
  if is_some eternal_tournament && Py.truthy_opt (player_chain_id t)
  then
    try_except
      ((* eternal_tournament['id']: the dict has no such key *)
       tournament_id <- raise (Py.KeyError "id") ;;
       board_id <- create_board tournament_id "10000000" ;;
       match board_id with
       | Some b => if Py.truthy b then log (EvStreamTriggered b)
                   else log EvStreamTriggerNoBoard
       | None => log EvStreamTriggerNoBoard
       end)
      (fun e =>
         let error_msg := Py.lower (Py.exn_msg e) in
         if is_rejection_message error_msg
         then log EvStreamTriggerRejected
         else log (EvStreamTriggerFailed (Py.exn_msg e)))
  else ret tt.

(** The comparison of the queried state with the scenarios: the count of
    the player's tournaments bearing a created name, one visibility line per
    created tournament, and the verdict. *)
Definition report_filtering (state : option data_obj)
           (expected_active_count : Z)
           (created_tournaments : list created_tournament) : M tester bool :=
  t <- get_self ;;
  match state with
  | Some d =>
      let mine := my_tournaments (username t) (state_leaderboards d) in
      let actual_count :=
        Z.of_nat (List.length (my_new_tournaments mine created_tournaments)) in
      for_fold created_tournaments tt (fun _ tournament =>
        log (visibility_line (username t) mine tournament)) ;;
      if actual_count =? expected_active_count
      then log EvFilterOk ;; ret true
      else log (EvFilterFailed expected_active_count actual_count) ;; ret false
  | None => log EvTournamentStateQueryFailed ;; ret false
  end.

Definition verify_active_tournaments (expected_active_count : Z)
           (created_tournaments : list created_tournament) : M tester bool :=
  sleep 1 ;;
  _ <- query_state ;;
  force_stream_processing created_tournaments ;;
  sleep 1 ;;
  state <- query_state ;;
  report_filtering state expected_active_count created_tournaments.

(** *** test_board_creation_validation *)

(** The test applied to [str(e).lower()] for the expired tournament. *)
Definition is_validation_panic (error_msg : string) : bool :=
  (Py.contains "http error 500" error_msg &&
   Py.contains "runtime error" error_msg) ||
  Py.contains "expired" error_msg ||
  Py.contains "not active" error_msg ||
  Py.contains "not found in cache" error_msg.

(** The except block for the expired tournament; the result is what it
    adds to [success_count]. *)
Definition past_except (e : Py.exn) : M tester Z :=
  let error_msg := Py.lower (Py.exn_msg e) in
  if is_validation_panic error_msg
  then log EvPastCorrectlyRejected ;; ret 1
  else log (EvPastUnexpectedError (Py.exn_msg e)) ;; ret 0.

(** The try/except around the expired tournament's board creation. *)
Definition past_attempt (past_tournament_id : string) : M tester Z :=
  try_except
    (board_id <- create_board past_tournament_id default_board_timestamp ;;
     if Py.truthy_opt board_id
     then log EvPastAccepted ;; ret 0
     else log EvPastReturnedNone ;; ret 0)
    past_except.

(** The except block for the active tournament. *)
Definition active_except (e : Py.exn) : M tester Z :=
  let error_msg := Py.lower (Py.exn_msg e) in
  if Py.contains "http error 500" error_msg &&
     Py.contains "runtime error" error_msg
  then log EvActiveCacheSync ;; ret 1
  else log (EvActiveUnexpectedError (Py.exn_msg e)) ;; ret 0.

(** The try/except around the active tournament's board creation. *)
Definition active_attempt (active_tournament_id : string) : M tester Z :=
  try_except
    (board_id <- create_board active_tournament_id default_board_timestamp ;;
     match board_id with
     | Some b => if Py.truthy b then log (EvActiveAccepted b) ;; ret 1
                 else log EvActiveReturnedNone ;; ret 0
     | None => log EvActiveReturnedNone ;; ret 0
     end)
    active_except.

Definition test_board_creation_validation
           (created_tournaments : list created_tournament) : M tester bool :=
  past_tournament_id <- get_tournament_id_by_name "past_tournament" ;;
  active_tournament_id <- get_tournament_id_by_name "active_tournament" ;;
  past <- match past_tournament_id with
          | Some id =>
              if Py.truthy id
              then n <- past_attempt id ;; ret (n, 1)
              else log EvPastSkipped ;; ret (0, 0)
          | None => log EvPastSkipped ;; ret (0, 0)
          end ;;
  active <- match active_tournament_id with
            | Some id =>
                if Py.truthy id
                then n <- active_attempt id ;; ret (n, 1)
                else log EvActiveSkipped ;; ret (0, 0)
            | None => log EvActiveSkipped ;; ret (0, 0)
            end ;;
  let success_count := fst past + fst active in
  let total_tests := snd past + snd active in
  if 0 <? total_tests
  then log (EvValidationTally success_count total_tests) ;;
       ret (success_count =? total_tests)
  else log EvNoValidationTests ;; ret true.

(** *** Leaderboard score check *)

Definition chain_fields : list string :=
  ["leaderboardId"; "name"; "host"; "totalBoards"; "totalPlayers"]%string.

Definition list_fields : list string :=
  ["leaderboardId"; "name"; "host"; "chainId"]%string.

(** The three lookups of query_leaderboard_chain over the chain's answer:
    exact id; else the only entry; else the first with a name or a host. *)
Definition pick_leaderboard (leaderboard_id : string)
           (leaderboards : list leaderboard) : option leaderboard :=
  match find (fun lb => String.eqb (lb_leaderboardId lb) leaderboard_id)
             leaderboards with
  | Some lb => Some lb
  | None =>
      match leaderboards with
      | [only] => Some only
      | _ => find (fun lb => Py.truthy (lb_name lb) || Py.truthy (lb_host lb))
                  leaderboards
      end
  end.

Definition query_leaderboard_chain (leaderboard_id chain_id : string)
  : M tester (option leaderboard) :=
  t <- get_self ;;
  result <- request (endpoint (base_url t) chain_id (app_id t))
              (OpQueryLeaderboards chain_fields) true ;;
  lbs <- data_member "leaderboards" d_leaderboards result ;;
  match lbs with
  | Some leaderboards => ret (pick_leaderboard leaderboard_id leaderboards)
  | None => log EvLeaderboardChainQueryFailed ;; ret None
  end.

(** The verdict printed for one tournament from its chain's totals. *)
Definition streaming_verdict (name : string) (total_boards : Z) : event :=
  if 0 <? total_boards
  then EvStreamingSuccessful name total_boards
  else EvNoBoardsRegistered name.

Definition check_leaderboard_scores : M tester unit :=
  t <- get_self ;;
  result <- request (main_url t) (OpQueryLeaderboards list_fields) true ;;
  lbs <- data_member "leaderboards" d_leaderboards result ;;
  match lbs with
  | Some all =>
      let leaderboards :=
        filter (fun lb => Py.truthy (lb_leaderboardId lb) &&
                          String.eqb (lb_host lb) (username t)) all in
      match leaderboards with
      | _ :: _ =>
          for_fold leaderboards tt (fun _ lb =>
            lb_details <- query_leaderboard_chain (lb_leaderboardId lb)
                                                  (lb_chainId lb) ;;
            match lb_details with
            | Some details =>
                log (streaming_verdict (lb_name lb) (lb_totalBoards details))
            | None => log (EvLeaderboardChainFailed (lb_name lb))
            end)
      | [] => log EvNoTournamentsForUser
      end
  | None => log EvLeaderboardListFailed
  end.

(** *** run_tournament_validation_test *)

(** sum(1 for t in created_tournaments if t['should_be_active']) *)
Definition count_expected_active (l : list created_tournament) : Z :=
  Z.of_nat (List.length (filter ct_should_be_active l)).

Definition streaming_step (active_tournament_id : string) : M tester unit :=
  try_except
    (board_id <- create_board active_tournament_id default_board_timestamp ;;
     match board_id with
     | Some b =>
         if Py.truthy b
         then log (EvStreamingBoard b) ;;
              _ <- make_moves b 8 ;;
              sleep 1 ;;
              check_leaderboard_scores
         else log EvStreamingNoBoard
     | None => log EvStreamingNoBoard
     end)
    (fun e => log (EvStreamingError (Py.exn_msg e))).

Definition run_tournament_validation_test : M tester bool :=
  registered <- register_player ;;
  if negb registered then ret false else
  sleep 1 ;;
  created <- create_multiple_test_tournaments ;;
  match created with
  | None | Some [] => ret false
  | Some created_tournaments =>
      let expected_active := count_expected_active created_tournaments in
      sleep 1 ;;
      trigger_tournament_update ;;
      sleep 1 ;;
      filtering_success <-
        verify_active_tournaments expected_active created_tournaments ;;
      validation_success <- test_board_creation_validation created_tournaments ;;
      active_tournament_id <- get_tournament_id_by_name "active_tournament" ;;
      (if Py.truthy_opt active_tournament_id && validation_success
       then streaming_step (match active_tournament_id with
                            | Some id => id | None => EmptyString end)
       else log EvStreamingSkipped) ;;
      let overall_success := filtering_success && validation_success in
      log (EvSummary filtering_success validation_success overall_success) ;;
      ret overall_success
  end.

(** *** The numbered tournaments of the full test *)

Definition set_tournaments (l : list string) (t : tester) : tester :=
  mkTester (base_url t) (main_chain_id t) (app_id t) (main_url t)
           (username t) (password t) (player_chain_id t) l (boards t).

Definition set_boards (l : list board_info) (t : tester) : tester :=
  mkTester (base_url t) (main_chain_id t) (app_id t) (main_url t)
           (username t) (password t) (player_chain_id t) (tournaments t) l.

Definition create_tournament (name : string) : M tester (option string) :=
  create_tournament_with_time name 0 0.

(** f"tournament_{i}" *)
Definition numbered_name (i : Z) : string := "tournament_" ++ Py.str i.

(** range(1, count + 1) *)
Definition one_to (count : Z) : list Z := map (fun i => i + 1) (Py.range count).

(** One turn of the loop of create_multiple_tournaments; [Some false] is
    [return False]. *)
Definition create_numbered_step (count i : Z) : M tester (option bool) :=
  tournament_id <- create_tournament (numbered_name i) ;;
  match tournament_id with
  | Some id =>
      if Py.truthy id then
        log (EvTournamentCreated (numbered_name i)) ;;
        t <- get_self ;;
        set_self (set_tournaments (tournaments t ++ [id]) t) ;;
        when (i <? count) (sleep 2) ;;
        ret None
      else
        log (EvTournamentCreateFailed (numbered_name i)) ;;
        ret (Some false)
  | None =>
      log (EvTournamentCreateFailed (numbered_name i)) ;;
      ret (Some false)
  end.

Definition create_multiple_tournaments (count : Z) : M tester bool :=
  r <- for_each (one_to count) (create_numbered_step count) ;;
  match r with
  | Some b => ret b
  | None => ret true
  end.

(** *** Moves on the stored boards *)

Definition test_additional_moves : M tester unit :=
  t <- get_self ;;
  for_fold (boards t) tt (fun _ board_info =>
    _ <- make_moves (bi_board_id board_info) 15 ;;
    sleep 1).

(** One round of test_trigger_cycle_verification. *)
Definition trigger_round (round_num : Z) : M tester unit :=
  t <- get_self ;;
  for_fold (boards t) tt (fun _ board_info =>
    let base_moves := 8 + round_num * 3 in
    _ <- make_moves (bi_board_id board_info) base_moves ;;
    sleep 1) ;;
  sleep 1 ;;
  when (round_num <? 2) (sleep 1).

Definition test_trigger_cycle_verification : M tester unit :=
  for_fold (Py.range 3) tt (fun _ round_num => trigger_round round_num).

(** *** test_board_creation_and_moves *)

Definition position_label (idx len : Z) : string :=
  if idx =? 0 then "FIRST"
  else if idx =? len - 1 then "LAST"
  else "MIDDLE (#" ++ Py.str (idx + 1) ++ ")".

(** The key of a tournament in the results: f"{position} - {name}". *)
Definition result_key (position name : string) : string :=
  position ++ " - " ++ name.

(** The timestamp of the board created for the tournament at [idx]. *)
Definition board_timestamp (idx : Z) : string :=
  Py.str (10000000 + idx * 10000000).

(** One turn of the loop over the player's tournaments.  A board counts
    as created when create_board did not return None (an empty id
    counts). *)
Definition board_and_moves_step (len : Z) (acc : results)
           (ilb : Z * leaderboard) : M tester results :=
  let (idx, lb) := ilb in
  let tournament_id := lb_leaderboardId lb in
  let name := lb_name lb in
  let position := position_label idx len in
  board_id <- create_board tournament_id (board_timestamp idx) ;;
  acc' <- match board_id with
          | Some b =>
              t <- get_self ;;
              set_self (set_boards
                          (boards t ++
                           [mkBoardInfo b tournament_id name position]) t) ;;
              sleep 1 ;;
              move_success <- make_moves b 8 ;;
              ret (results_set (result_key position name) move_success acc)
          | None =>
              ret (results_set (result_key position name) false acc)
          end ;;
  when (idx <? len - 1) (sleep 1) ;;
  ret acc'.

Definition test_board_creation_and_moves : M tester results :=
  state <- query_state ;;
  match state with
  | None => ret []
  | Some d =>
      t <- get_self ;;
      let leaderboards :=
        filter (fun lb => Py.truthy (lb_leaderboardId lb) &&
                          String.eqb (lb_host lb) (username t))
               (state_leaderboards d) in
      match leaderboards with
      | [] => ret []
      | _ :: _ =>
          for_fold (Py.enumerate 0 leaderboards) []
                   (board_and_moves_step (Z.of_nat (List.length leaderboards)))
      end
  end.

(** *** run_full_test and main *)

Definition run_full_test (tournament_count : Z) : M tester bool :=
  registered <- register_player ;;
  if negb registered then ret false else
  sleep 1 ;;
  created <- create_multiple_tournaments tournament_count ;;
  if negb created then ret false else
  sleep 1 ;;
  _ <- query_state ;;
  res <- test_board_creation_and_moves ;;
  t <- get_self ;;
  match boards t with
  | [] => ret tt
  | _ :: _ => test_additional_moves ;; test_trigger_cycle_verification
  end ;;
  _ <- query_state ;;
  check_leaderboard_scores ;;
  match res with
  | [] => ret false
  | _ :: _ => ret (results_all res)
  end.

(** How the process ends: [sys.exit(code)], or an uncaught exception. *)
Inductive exit := Exit (code : Z) | Crash (e : Py.exn).

(** sys.exit(0 if success else 1) after a test run. *)
Definition exit_after (r : outcome bool * state tester) : exit * io :=
  match r with
  | (Ok success, s) => (Exit (if success then 0 else 1), world s)
  | (Raise e, s) => (Crash e, world s)
  end.

(** main().  [argv] is sys.argv, [suffix] the six random characters the
    constructor draws, and [py_int] is Python's [int] on a string, [None]
    standing for ValueError. *)
Definition main (py_int : string -> option Z) (argv : list string)
           (suffix : string) (w : io) : exit * io :=
  match argv with
  | _ :: chain_id :: app_id :: rest =>
      let tester := mkState (init chain_id app_id "http://localhost:8088" suffix)
                            w in
      match rest with
      | third :: _ =>
          if String.eqb (Py.lower third) "validation"
          then exit_after (run_tournament_validation_test tester)
          else
            match py_int third with
            | Some tournament_count =>
                if tournament_count <? 1 then (Exit 1, w)
                else exit_after (run_full_test tournament_count tester)
            | None => (Exit 1, w)
            end
      | [] => exit_after (run_full_test 3 tester)
      end
  | _ => (Exit 1, w)
  end.

End Fresh.

(** ** test_tournaments.py *)

Module Legacy.

Record tester := mkTester {
  base_url : string;
  main_chain_id : string;
  app_id : string;
  main_url : string;
  player_chain_id : option string;
  tournaments : list string
}.

Definition init (chain_id app base : string) : tester :=
  mkTester base chain_id app (endpoint base chain_id app) None [].

(** data['errors'], where ["errors" in data]: a string or a list cannot
    be indexed by a key. *)
Definition errors_of (e : envelope) : M tester unit :=
  match e with
  | mkEnvelope (Some _) _ | mkOddErrors _ _ => ret tt
  | mkString _ => raise Py.TypeError_str_index
  | mkArray _ => raise Py.TypeError_list_index
  | mkEnvelope None _ | mkOtherKeys => raise (Py.KeyError "errors")
  end.

(** make_graphql_request of this script: the status is checked first, then
    the body is decoded, then ["errors"] is looked for, whatever the body's
    truth value; the value under it is printed whole. *)
Definition make_graphql_request (url : string) (op : operation)
  : M tester (option envelope) :=
  resp <- post (mkRequest url op 10) ;;
  match resp with
  | Timeout => log EvTimedOut ;; ret None
  | RequestFailed msg => log (EvRequestFailed msg) ;; ret None
  | Http status body =>
      if is_error_status status
      then log (EvRequestFailed "HTTPError") ;; ret None
      else
        match body with
        | None => log (EvRequestFailed "JSONDecodeError") ;; ret None
        | Some e =>
            if mentions_errors e
            then
              errors_of e ;;
              log (EvGraphQLError "errors") ;;
              ret None
            else ret (Some e)
        end
  | HttpAtom status a =>
      if is_error_status status
      then log (EvRequestFailed "HTTPError") ;; ret None
      else raise (Py.TypeError_not_iterable (atom_type a))
  end.

(** create_board: the mutation's answer alone decides the result. *)
Definition create_board (tournament_id timestamp : string) : M tester bool :=
  t <- get_self ;;
  if negb (Py.truthy_opt (player_chain_id t))
  then log EvNoPlayerChain ;; ret false else
  let player_url :=
    endpoint (base_url t)
             (match player_chain_id t with Some c => c | None => EmptyString end)
             (app_id t) in
  result <- make_graphql_request player_url
              (OpNewBoard "hello" "hello" timestamp tournament_id) ;;
  if has_data result
  then log EvBoardCreated ;; ret true
  else log EvBoardCreateFailed ;; ret false.

(** *** The rest of test_tournaments.py *)

Definition set_player_chain_id (v : option string) (t : tester) : tester :=
  mkTester (base_url t) (main_chain_id t) (app_id t) (main_url t) v
           (tournaments t).

Definition set_tournaments (l : list string) (t : tester) : tester :=
  mkTester (base_url t) (main_chain_id t) (app_id t) (main_url t)
           (player_chain_id t) l.

Definition TypeError_none_subscript : Py.exn :=
  Py.mkExn "TypeError" "'NoneType' object is not subscriptable".

(** result['data'][key]: the payload is indexed without a test, so a
    payload that is [null], a bare string, or an object lacking the key
    raises. *)
Definition subscript (key : string) (field : data_obj -> option string)
           (d : gql_data) : M tester string :=
  match d with
  | DNull => raise TypeError_none_subscript
  | DScalar _ => raise Py.TypeError_str_index
  | DObject o =>
      match field o with
      | Some v => ret v
      | None => raise (Py.KeyError key)
      end
  end.

Definition register_player (username password : string) : M tester bool :=
  t <- get_self ;;
  result <- make_graphql_request (main_url t)
              (OpRegisterPlayer username password) ;;
  if has_data result
  then
    log EvPlayerRegistered ;;
    d <- data_of result ;;
    _ <- subscript "registerPlayer" d_registerPlayer d ;;
    ret true
  else log EvPlayerRegisterFailed ;; ret false.

(** The end of the window every tournament of this script is given. *)
Definition far_end_time : string := "18588537542440000".

Definition create_tournament (name : string) : M tester (option string) :=
  t <- get_self ;;
  result <- make_graphql_request (main_url t)
              (OpCreateTournament name "0" far_end_time 2 "hello" "hello") ;;
  if has_data result
  then
    d <- data_of result ;;
    tournament_id <- subscript "leaderboardAction" d_leaderboardAction d ;;
    ret (Some tournament_id)
  else ret None.

(** f"test_{i}" *)
Definition numbered_name (i : Z) : string := "test_" ++ Py.str i.

Definition create_numbered_step (count i : Z) : M tester (option bool) :=
  tournament_id <- create_tournament (numbered_name i) ;;
  match tournament_id with
  | Some id =>
      if Py.truthy id then
        log (EvTournamentCreated (numbered_name i)) ;;
        t <- get_self ;;
        set_self (set_tournaments (tournaments t ++ [id]) t) ;;
        when (i <? count) (sleep 2) ;;
        ret None
      else
        log (EvTournamentCreateFailed (numbered_name i)) ;;
        ret (Some false)
  | None =>
      log (EvTournamentCreateFailed (numbered_name i)) ;;
      ret (Some false)
  end.

Definition create_multiple_tournaments (count : Z) : M tester bool :=
  r <- for_each (map (fun i => i + 1) (Py.range count))
                (create_numbered_step count) ;;
  match r with
  | Some b => ret b
  | None => ret true
  end.

(** query_state; [None] stands for the two false results, None and the
    empty dict. *)
Definition query_state : M tester (option data_obj) :=
  t <- get_self ;;
  result <- make_graphql_request (main_url t) (OpQueryState "hello") ;;
  if has_data result then
    data <- data_of result ;;
    match data with
    | DObject d =>
        match d_player d with
        | Some p => set_self (set_player_chain_id (Some (pl_chainId p)) t)
        | None => ret tt
        end ;;
        match d_leaderboards d with
        | Some (_ :: _) => ret (Some d)
        | _ => ret None
        end
    | DScalar _ => raise (Py.AttributeError_get "str")
    | DNull => raise (Py.AttributeError_get "NoneType")
    end
  else
    log EvStateQueryFailed ;; ret None.

Definition timestamps : list string :=
  ["1000"; "2000"; "3000"; "4000"; "5000"].

(** timestamps[idx % len(timestamps)] *)
Definition timestamp_at (idx : Z) : string :=
  nth (Z.to_nat (idx mod Z.of_nat (List.length timestamps))) timestamps
      EmptyString.

Definition position_label (idx len : Z) : string :=
  if idx =? 0 then "First"
  else if idx =? len - 1 then "Last"
  else "#" ++ Py.str (idx + 1).

(** f"{position} ({name})" *)
Definition result_key (position name : string) : string :=
  position ++ " (" ++ name ++ ")".

Definition board_step (len : Z) (acc : results) (ilb : Z * leaderboard)
  : M tester results :=
  let (idx, lb) := ilb in
  success <- create_board (lb_leaderboardId lb) (timestamp_at idx) ;;
  when (idx <? len - 1) (sleep 2) ;;
  ret (results_set (result_key (position_label idx len) (lb_name lb))
                   success acc).

Definition test_board_creation : M tester results :=
  state <- query_state ;;
  match state with
  | None => ret []
  | Some d =>
      let leaderboards :=
        filter (fun lb => Py.truthy (lb_leaderboardId lb))
               (match d_leaderboards d with Some l => l | None => [] end) in
      match leaderboards with
      | [] => ret []
      | _ :: _ =>
          for_fold (Py.enumerate 0 leaderboards) []
                   (board_step (Z.of_nat (List.length leaderboards)))
      end
  end.

Definition run_full_test : M tester bool :=
  registered <- register_player "hello" "hello" ;;
  if negb registered then ret false else
  sleep 2 ;;
  created <- create_multiple_tournaments 3 ;;
  if negb created then ret false else
  sleep 2 ;;
  _ <- query_state ;;
  res <- test_board_creation ;;
  _ <- query_state ;;
  match res with
  | [] => ret false
  | _ :: _ => ret (results_all res)
  end.

Inductive exit := Exit (code : Z) | Crash (e : Py.exn).

(** main(), on sys.argv. *)
Definition main (argv : list string) (w : io) : exit * io :=
  match argv with
  | _ :: chain_id :: app_id :: _ =>
      match run_full_test
              (mkState (init chain_id app_id "http://localhost:8088") w) with
      | (Ok success, s) => (Exit (if success then 0 else 1), world s)
      | (Raise e, s) => (Crash e, world s)
      end
  | _ => (Exit 1, w)
  end.

End Legacy.

(** ** Reference definitions taken from the specification *)

Module SpecModel.

(** The activation-window policy in the specification's words: a tournament
    is active iff (start == 0 OR now >= start) AND (end == 0 OR now <= end).
    The scripts contain no such computation; this is the yardstick their
    literal flags are compared with. *)
Definition spec_active (start_time end_time now : Z) : bool :=
  ((start_time =? 0) || (start_time <=? now)) &&
  ((end_time =? 0) || (now <=? end_time)).

(** The convergence check in the specification's words: total_boards
    increments by exactly one and no more than one from the baseline. *)
Definition spec_converged (baseline total_boards : Z) : bool :=
  total_boards =? baseline + 1.

Inductive poll_outcome (State : Type) :=
| Converged (s : State)
| DeadlineExceeded (lastState : State).
Arguments Converged {State} s.
Arguments DeadlineExceeded {State} lastState.

(** What a finished poll reports: the outcome, the time elapsed since it
    started, and how many times the predicate was evaluated. *)
Record poll_report (State : Type) := mkReport {
  outcome_of : poll_outcome State;
  elapsed_at_return : Z;
  evaluations : nat
}.
Arguments mkReport {State}.
Arguments outcome_of {State}.
Arguments elapsed_at_return {State}.
Arguments evaluations {State}.

(** Modelled from the spec: the Convergence Poller [pollUntil], which no
    file under src/ contains (the scripts pace themselves with fixed
    [time.sleep] calls).  Fetch the state, evaluate the predicate; if it
    holds return the state at once; otherwise sleep [interval], and on
    exceeding [maxWait] return [DeadlineExceeded] with the last observed
    state, else repeat.  [fetch n] is the state seen by the n-th fetch,
    time passes only in the sleeps, and [fuel] bounds the iterations. *)
Fixpoint pollUntil_from {State : Type} (fuel : nat) (predicate : State -> bool)
         (fetch : nat -> State) (maxWait interval : Z)
         (n : nat) (elapsed : Z) : option (poll_report State) :=
  match fuel with
  | O => None
  | S fuel' =>
      let s := fetch n in
      if predicate s then Some (mkReport (Converged s) elapsed (S n))
      else
        let elapsed' := elapsed + interval in
        if maxWait <? elapsed'
        then Some (mkReport (DeadlineExceeded s) elapsed' (S n))
        else pollUntil_from fuel' predicate fetch maxWait interval
                            (S n) elapsed'
  end.

Definition pollUntil {State : Type} (fuel : nat) (predicate : State -> bool)
           (fetch : nat -> State) (maxWait interval : Z)
  : option (poll_report State) :=
  pollUntil_from fuel predicate fetch maxWait interval 0%nat 0.

End SpecModel.

(** ** Derived views used by the proofs *)

(** The response the next request will get. *)
Definition next_response {Self} (s : state Self) : response :=
  net (world s) (List.length (sent (world s))).

(** The response to the request after the next one. *)
Definition second_response {Self} (s : state Self) : response :=
  net (world s) (S (List.length (sent (world s)))).

(** The state after a request has been issued and some lines printed. *)
Definition after_request {Self} (r : request) (evs : list event)
           (s : state Self) : state Self :=
  mkState (self s)
          (mkIo (net (world s)) (sent (world s) ++ [r]) (slept (world s))
                (now_us (world s)) (disk_ok (world s)) (written (world s))
                (out (world s) ++ evs)).

(** What make_graphql_request returns for a response. *)
Definition decode (show_error : bool) (resp : response)
  : outcome (option envelope) :=
  match resp with
  | Timeout | RequestFailed _ => Ok None
  | Http status body =>
      match body, show_error with
      | Some (mkEnvelope (Some []) _), true => Raise Py.IndexError_list
      | Some (mkEnvelope (Some (_ :: _)) _), true => Ok None
      | Some (mkOddErrors v _), true => Raise (odd_errors_exn v)
      | Some (mkString s), true =>
          if Py.contains "errors" s then Raise Py.TypeError_str_index
          else if is_error_status status then Ok None else Ok body
      | Some (mkArray items), true =>
          if among "errors" items then Raise Py.TypeError_list_index
          else if is_error_status status then Ok None else Ok body
      | _, _ => if is_error_status status then Ok None else Ok body
      end
  | HttpAtom status a =>
      if atom_truthy a then Raise (Py.TypeError_not_iterable (atom_type a))
      else Ok None
  end.

(** What [result["data"]] evaluates to. *)
Definition data_outcome (result : option envelope) : outcome gql_data :=
  match result with
  | Some (mkEnvelope _ (Some d)) | Some (mkOddErrors _ (Some d)) => Ok d
  | Some (mkString _) => Raise Py.TypeError_str_index
  | Some (mkArray _) => Raise Py.TypeError_list_index
  | Some _ => Raise (Py.KeyError "data")
  | None => Raise (Py.TypeError_not_subscriptable "NoneType")
  end.

(** What data_member evaluates to. *)
Definition member_outcome {A} (key : string) (field : data_obj -> option A)
           (result : option envelope) : outcome (option A) :=
  if has_data result then
    match data_outcome result with
    | Ok DNull => Raise (Py.TypeError_not_iterable "NoneType")
    | Ok (DScalar s) =>
        if Py.contains key s then Raise Py.TypeError_str_index else Ok None
    | Ok (DObject o) => Ok (field o)
    | Raise e => Raise e
    end
  else Ok None.

(** The exceptions the scripts' own code raises on a reply of the wrong
    shape: Python's fixed wordings, with type names and literal keys, none
    of them text sent by the service. *)
Definition atom_types : list string :=
  ["NoneType"; "bool"; "int"; "float"]%string.

Definition python_wordings : list Py.exn :=
  [Py.IndexError_list; Py.IndexError_string; Py.KeyError_int 0;
   Py.KeyError "data"; Py.KeyError "errors";
   Py.TypeError_str_index; Py.TypeError_list_index]
  ++ map Py.TypeError_not_iterable atom_types
  ++ map Py.TypeError_not_subscriptable atom_types
  ++ map Py.AttributeError_get (atom_types ++ ["str"; "list"]%string).

(** What make_graphql_request prints for a response. *)
Definition transport_events (show_error : bool) (resp : response)
  : list event :=
  match resp with
  | Timeout => if show_error then [EvTimedOut] else []
  | RequestFailed msg => if show_error then [EvRequestFailed msg] else []
  | Http status body =>
      match body, show_error with
      | Some (mkEnvelope (Some []) _), true => []
      | Some (mkEnvelope (Some (Some m :: _)) _), true => [EvGraphQLError m]
      | Some (mkEnvelope (Some (None :: _)) _), true =>
          [EvGraphQLError "Unknown error"]
      | Some (mkOddErrors _ _), true => []
      | Some (mkString s), true =>
          if Py.contains "errors" s then []
          else if is_error_status status then [EvHttpError status] else []
      | Some (mkArray items), true =>
          if among "errors" items then []
          else if is_error_status status then [EvHttpError status] else []
      | _, _ => if is_error_status status && show_error
                then [EvHttpError status] else []
      end
  | HttpAtom status a =>
      if atom_truthy a then []
      else if is_error_status status && show_error
           then [EvHttpError status] else []
  end.

(** A service-reported rejection: a body with a non-empty ["errors"]. *)
Definition is_service_rejection (resp : response) : bool :=
  match resp with
  | Http _ (Some (mkEnvelope (Some (_ :: _)) _)) => true
  | _ => false
  end.

(** A transport failure: a timeout, a failed connection, or an HTTP error
    status on a response that reports no GraphQL errors (and whose body is
    no true atom). *)
Definition is_transport_failure (resp : response) : bool :=
  match resp with
  | Timeout | RequestFailed _ => true
  | Http status (Some e) => negb (mentions_errors e) && is_error_status status
  | Http status None => is_error_status status
  | HttpAtom status a => negb (atom_truthy a) && is_error_status status
  end.

(** A reply as a GraphQL service words it: a transport failure, a body
    that is not JSON, or a JSON object whose ["errors"], when present, is
    a list that is empty or starts with an object. *)
Definition graphql_shaped (resp : response) : bool :=
  match resp with
  | Timeout | RequestFailed _ | Http _ None => true
  | Http _ (Some (mkEnvelope _ _)) | Http _ (Some mkOtherKeys) => true
  | _ => false
  end.

(** A computation only appends to the requests sent and to the console;
    every request it adds satisfies [Q] and every line it prints [P]. *)
Definition emits {Self A} (P : event -> Prop) (Q : request -> Prop)
           (c : M Self A) : Prop :=
  forall s, exists rs es,
    sent (world (snd (c s))) = sent (world s) ++ rs /\
    out (world (snd (c s))) = out (world s) ++ es /\
    Forall Q rs /\ Forall P es.

(** [P] holds of every line the transport prints. *)
Definition allows_transport (P : event -> Prop) : Prop :=
  (forall m, P (EvGraphQLError m)) /\ P EvTimedOut /\
  (forall status, P (EvHttpError status)) /\
  (forall msg, P (EvRequestFailed msg)).

Definition any_event : event -> Prop := fun _ => True.
Definition any_request : request -> Prop := fun _ => True.

(** The requests a computation adds to those already sent. *)
Definition new_requests {Self A} (c : M Self A) (s : state Self)
  : list request :=
  skipn (List.length (sent (world s))) (sent (world (snd (c s)))).

(** The lines a computation adds to the console. *)
Definition new_events {Self A} (c : M Self A) (s : state Self) : list event :=
  skipn (List.length (out (world s))) (out (world (snd (c s)))).

(** The two range tests of the coordinator's main(). *)
Definition tournaments_in_bounds (a : Coordinator.args) : bool :=
  (1 <=? Coordinator.arg_tournaments a) && (Coordinator.arg_tournaments a <=? 10).

Definition shards_in_bounds (a : Coordinator.args) : bool :=
  (1 <=? Coordinator.arg_shards a) && (Coordinator.arg_shards a <=? 32).

(** The first request of the coordinator's setup. *)
Definition registration_request (a : Coordinator.args) (suffix : string)
  : request :=
  mkRequest (endpoint (Coordinator.arg_url a) (Coordinator.arg_chain_id a)
                      (Coordinator.arg_app_id a))
            (OpRegisterPlayer ("coord_" ++ suffix) ("pass_" ++ suffix)) 30.

(** How main() turns the setup's result into the end of the process. *)
Definition exit_of {Self} (r : outcome bool * state Self)
  : Coordinator.exit * io :=
  match r with
  | (Ok success, s) => (Coordinator.Exit (if success then 0 else 1), world s)
  | (Raise e, s) => (Coordinator.Crash e, world s)
  end.

(** The request create_stress_test_tournaments issues for a configuration. *)
Definition creation_request (c : Coordinator.coordinator)
           (cfg : Coordinator.tournament_config) : request :=
  mkRequest (Coordinator.main_url c) (Coordinator.create_operation c cfg) 30.

(** A creation request whose window is startTime "0", endTime "0". *)
Definition has_open_window (r : request) : bool :=
  match rq_op r with
  | OpCreateTournament _ startTime endTime _ _ _ =>
      String.eqb startTime "0" && String.eqb endTime "0"
  | _ => false
  end.

(** A service that answers every request with a timeout. *)
Definition silent_service : nat -> response := fun _ => Timeout.

(** A service that accepts every mutation with the same token and shows no
    leaderboards. *)
Definition accepting_service : nat -> response :=
  fun _ => Http 200 (Some (mkEnvelope None (Some (DObject
             (mkData (Some "tok") (Some "tok") (Some "tok") (Some "tok")
                     None None None))))).

Definition bad_args : Coordinator.args :=
  Coordinator.mkArgs "chain" "app" 11 8 "http://localhost:8088" "out.json".

Definition good_args : Coordinator.args :=
  Coordinator.mkArgs "chain" "app" 3 8 "http://localhost:8088" "out.json".

Definition demo_coordinator : state Coordinator.coordinator :=
  mkState (Coordinator.init "chain" "app" "http://localhost:8088" "abcdefgh")
          (fresh_io accepting_service 1700000000000000 true).

(** *** Reading a move payload back

    The inverse of [Fresh.json_dumps] on lists of pairs of quote-free
    strings: what a JSON reader finds in the ["moves"] variable. *)

Fixpoint strip_prefix (p s : string) : option string :=
  match p, s with
  | EmptyString, _ => Some s
  | String a p', String b s' =>
      if Ascii.eqb a b then strip_prefix p' s' else None
  | String _ _, EmptyString => None
  end.

Fixpoint no_quote (s : string) : bool :=
  match s with
  | EmptyString => true
  | String c r => negb (Ascii.eqb c "034") && no_quote r
  end.

(** The characters up to the closing quote, and what follows it. *)
Fixpoint read_quoted_tail (s : string) : option (string * string) :=
  match s with
  | EmptyString => None
  | String c r =>
      if Ascii.eqb c "034" then Some (EmptyString, r)
      else match read_quoted_tail r with
           | Some (x, rest) => Some (String c x, rest)
           | None => None
           end
  end.

Definition read_json_string (s : string) : option (string * string) :=
  match strip_prefix Fresh.dquote s with
  | Some r => read_quoted_tail r
  | None => None
  end.

Definition read_json_pair (s : string) : option ((string * string) * string) :=
  match strip_prefix "[" s with
  | Some s1 =>
      match read_json_string s1 with
      | Some (a, s2) =>
          match strip_prefix ", " s2 with
          | Some s3 =>
              match read_json_string s3 with
              | Some (b, s4) =>
                  match strip_prefix "]" s4 with
                  | Some s5 => Some ((a, b), s5)
                  | None => None
                  end
              | None => None
              end
          | None => None
          end
      | None => None
      end
  | None => None
  end.

Fixpoint read_json_items (fuel : nat) (s : string)
  : option (list (string * string) * string) :=
  match fuel with
  | O => None
  | S fuel' =>
      match read_json_pair s with
      | Some (m, rest) =>
          match strip_prefix ", " rest with
          | Some rest' =>
              match read_json_items fuel' rest' with
              | Some (l, r) => Some (m :: l, r)
              | None => None
              end
          | None => Some ([m], rest)
          end
      | None => None
      end
  end.

Definition json_loads (s : string) : option (list (string * string)) :=
  match strip_prefix "[" s with
  | Some r =>
      match strip_prefix "]" r with
      | Some EmptyString => Some []
      | Some _ => None
      | None =>
          match read_json_items (String.length r) r with
          | Some (l, rest) => if String.eqb rest "]" then Some l else None
          | None => None
          end
      end
  | None => None
  end.

Definition quote_free (m : string * string) : Prop :=
  no_quote (fst m) = true /\ no_quote (snd m) = true.

(** int(s) for a decimal numeral. *)
Definition int_of_str (s : string) : option Z :=
  option_map Z.of_int (NilZero.int_of_string s).

Fixpoint all_some {A} (l : list (option A)) : option (list A) :=
  match l with
  | [] => Some []
  | Some a :: r => option_map (cons a) (all_some r)
  | None :: _ => None
  end.

(** The moves a makeMoves request carries, decoded from its payload. *)
Definition payload_moves (r : request) : option (list (string * string)) :=
  match rq_op r with
  | OpMakeMoves _ moves _ _ => json_loads moves
  | _ => None
  end.

(** Their timestamps, as numbers, in order. *)
Definition payload_timestamps (r : request) : option (list Z) :=
  match payload_moves r with
  | Some l => all_some (map (fun m => int_of_str (snd m)) l)
  | None => None
  end.

Fixpoint strictly_increasing (l : list Z) : bool :=
  match l with
  | a :: (b :: _) as r => (a <? b) && strictly_increasing r
  | _ => true
  end.

(** The timestamps make_moves generates for [num_moves] moves. *)
Definition move_timestamps (num_moves : Z) : list Z :=
  map Fresh.move_timestamp (Py.range num_moves).

(** The one request make_moves issues. *)
Definition move_request (t : Fresh.tester) (chain board_id : string)
           (num_moves : Z) : request :=
  mkRequest (Fresh.player_url t chain)
            (OpMakeMoves board_id
                         (Fresh.json_dumps (Fresh.moves_list num_moves))
                         (Fresh.username t) (Fresh.password t)) 10.

(** A tester that has learnt its player chain. *)
Definition demo_tester (service : nat -> response) : state Fresh.tester :=
  mkState (Fresh.set_player_chain_id (Some "player-chain")
             (Fresh.init "chain" "app" "http://localhost:8088" "abc123"))
          (fresh_io service 1700000000000000 true).

(** A tester that has not. *)
Definition new_tester (service : nat -> response) : state Fresh.tester :=
  mkState (Fresh.init "chain" "app" "http://localhost:8088" "abc123")
          (fresh_io service 1700000000000000 true).

(** The request create_multiple_test_tournaments issues for a scenario. *)
Definition scenario_request (t : Fresh.tester) (sc : Fresh.scenario) : request :=
  mkRequest (Fresh.main_url t)
            (OpCreateTournament (Fresh.sc_name sc)
                                (Py.str (Fresh.sc_start_time sc))
                                (Py.str (Fresh.sc_end_time sc)) 2
                                (Fresh.username t) (Fresh.password t)) 10.

(** Whether a response makes create_tournament_with_time return a true
    value: it has data, reports no errors, and the mutation's result is a
    non-empty string. *)
Definition creation_accepted (resp : response) : bool :=
  match decode true resp with
  | Ok result =>
      has_data result &&
      Py.truthy_opt (scalar_result d_leaderboardAction result)
  | Raise _ => false
  end.

(** How many of the [n] responses from position [base] on are accepted
    before the first that is not. *)
Fixpoint accepted_run (service : nat -> response) (base n : nat) : nat :=
  match n with
  | O => O
  | S n' => if creation_accepted (service base)
            then S (accepted_run service (S base) n')
            else O
  end.

(** The verdict line of the filtering report. *)
Definition filter_verdict (user : string) (d : data_obj) (expected : Z)
           (created : list Fresh.created_tournament) : event :=
  let actual :=
    Z.of_nat (List.length
                (Fresh.my_new_tournaments
                   (Fresh.my_tournaments user (Fresh.state_leaderboards d))
                   created)) in
  if actual =? expected then EvFilterOk else EvFilterFailed expected actual.

(** A service that accepts the first creation and then times out. *)
Definition failing_second : nat -> response :=
  fun n => match n with
           | O => accepting_service O
           | _ => Timeout
           end.

(** A clock reading (microseconds since the epoch), and one hour later. *)
Definition demo_time : Z := 1700000000000000.
Definition an_hour_later : Z := demo_time + 3600000000.

(** The expected-active flag agrees with the activation policy at [now]. *)
Definition flag_matches_policy (now : Z) (sc : Fresh.scenario) : Prop :=
  Fresh.sc_should_be_active sc =
  SpecModel.spec_active (Fresh.sc_start_time sc) (Fresh.sc_end_time sc) now.

(** The same, for the record handed to the verification steps. *)
Definition created_matches_policy (now : Z) (c : Fresh.created_tournament)
  : Prop :=
  Fresh.ct_should_be_active c =
  SpecModel.spec_active (Fresh.ct_start_time c) (Fresh.ct_end_time c) now.

(** Every "streaming successful" line reports a positive total. *)
Definition positive_total (e : event) : Prop :=
  match e with
  | EvStreamingSuccessful _ total_boards => 0 < total_boards
  | _ => True
  end.

(** The player's active tournament as a leaderboard chain reports it, with
    [n] boards. *)
Definition active_with_boards (n : Z) : leaderboard :=
  mkLeaderboard "T-active" "active_tournament" "test_abc123" "lb-chain" n 1
                ["shard-0"; "shard-1"].

(** A service on which that tournament has five boards. *)
Definition five_boards_service : nat -> response :=
  fun _ => Http 200 (Some (mkEnvelope None (Some (DObject
             (mkData None None None None (Some [active_with_boards 5])
                     None None))))).

(** A state source that counts the fetches, and a predicate that never
    holds. *)
Definition counting_fetch : nat -> nat := fun n => n.
Definition never : nat -> bool := fun _ => false.

(** The two requests of test_tournaments_fresh.py's create_board. *)
Definition new_board_request (t : Fresh.tester) (chain tournament_id timestamp
                              : string) : request :=
  mkRequest (Fresh.player_url t chain)
            (OpNewBoard (Fresh.username t) (Fresh.password t) timestamp
                        tournament_id) 10.

Definition boards_query_request (t : Fresh.tester) (chain : string) : request :=
  mkRequest (Fresh.player_url t chain) OpQueryBoards 10.

(** The one request of test_tournaments.py's create_board. *)
Definition legacy_board_request (t : Legacy.tester)
           (chain tournament_id timestamp : string) : request :=
  mkRequest (endpoint (Legacy.base_url t) chain (Legacy.app_id t))
            (OpNewBoard "hello" "hello" timestamp tournament_id) 10.

(** A test_tournaments.py tester that has learnt its player chain. *)
Definition legacy_tester (service : nat -> response) : state Legacy.tester :=
  mkState (Legacy.mkTester "http://localhost:8088" "chain" "app"
             (endpoint "http://localhost:8088" "chain" "app")
             (Some "player-chain") [])
          (fresh_io service 1700000000000000 true).

(** A service that acknowledges every mutation and holds no board. *)
Definition acknowledging_service : nat -> response :=
  fun _ => Http 200 (Some (mkEnvelope None (Some (DObject
             (mkData None None (Some "ack") None None None (Some [])))))).

(** Whether a response makes test_tournaments.py's make_graphql_request
    return a result that has data: a success status, a JSON body with no
    ["errors"] key and with a ["data"] key (for a string or a list: one
    that contains ["data"] and not ["errors"]). *)
Definition legacy_accepts (resp : response) : bool :=
  match resp with
  | Http status (Some e) =>
      negb (mentions_errors e) && has_data (Some e) &&
      negb (is_error_status status)
  | _ => false
  end.

(** A board of the demo player in the active tournament. *)
Definition demo_board : board :=
  mkBoard "B-1" "player-chain" "shard-0" "T-active" "test_abc123".

(** A service that acknowledges a mutation with [token] and then shows the
    demo board. *)
Definition board_service (token : string) : nat -> response :=
  fun n =>
    match n with
    | O => Http 200 (Some (mkEnvelope None (Some (DObject
             (mkData None None (Some token) None None None None)))))
    | _ => Http 200 (Some (mkEnvelope None (Some (DObject
             (mkData None None None None None None (Some [demo_board]))))))
    end.

(** A service that refuses every request with a validation message. *)
Definition rejecting_service : nat -> response :=
  fun _ => Http 200 (Some (mkEnvelope
             (Some [Some "Tournament has expired"]) (Some DNull))).

(** A service that answers every request with HTTP 500 and no JSON body. *)
Definition broken_service : nat -> response := fun _ => Http 500 None.

(** Somebody else's tournament bearing the same name, and the demo
    player's eternal tournament. *)
Definition foreign_active : leaderboard :=
  mkLeaderboard "T-foreign" "active_tournament" "someone_else" "lb-chain-f"
                7 3 ["shard-0"; "shard-1"].

Definition eternal_observed : leaderboard :=
  mkLeaderboard "T-eternal" "eternal_tournament" "test_abc123" "lb-chain-e"
                0 0 ["shard-0"; "shard-1"].

Definition observed_list : list leaderboard :=
  [foreign_active; active_with_boards 0; eternal_observed].

(** A service that accepts every mutation and lists these tournaments. *)
Definition listing_service : nat -> response :=
  fun _ => Http 200 (Some (mkEnvelope None (Some (DObject
             (mkData (Some "tok") (Some "tok") (Some "tok") (Some "tok")
                     (Some observed_list)
                     (Some (mkPlayer "test_abc123" "player-chain" false))
                     (Some [])))))).

(** The data of that service's replies. *)
Definition listing_state : data_obj :=
  mkData (Some "tok") (Some "tok") (Some "tok") (Some "tok")
         (Some observed_list)
         (Some (mkPlayer "test_abc123" "player-chain" false))
         (Some []).

(** The created-tournament records of the active and eternal scenarios. *)
Definition created_active : Fresh.created_tournament :=
  Fresh.mkCreated "active_tournament" 0 0 true "test_abc123".

Definition created_eternal : Fresh.created_tournament :=
  Fresh.mkCreated "eternal_tournament" 0 0 true "test_abc123".

(** The (name, host) pair of a scenario record and of an observation. *)
Definition scenario_key (c : Fresh.created_tournament) : string * string :=
  (Fresh.ct_name c, Fresh.ct_host c).

Definition observed_key (o : leaderboard) : string * string :=
  (lb_name o, lb_host o).

(** The same observation under another identifier. *)
Definition relabel (f : leaderboard -> string) (o : leaderboard) : leaderboard :=
  mkLeaderboard (f o) (lb_name o) (lb_host o) (lb_chainId o)
                (lb_totalBoards o) (lb_totalPlayers o) (lb_shardIds o).

(** The identifier an observation gets when every identifier is replaced
    by a fresh token (an empty identifier stays empty). *)
Definition retoken (o : leaderboard) : string :=
  if Py.truthy (lb_leaderboardId o) then "fresh-" ++ lb_leaderboardId o
  else "".

(** The tournament name a creation request carries. *)
Definition creation_name (r : request) : option string :=
  match rq_op r with
  | OpCreateTournament name _ _ _ _ _ => Some name
  | _ => None
  end.

(** A service that accepts the registration and the first creation, and
    then times out. *)
Definition failing_third : nat -> response :=
  fun n => match n with
           | O | S O => accepting_service O
           | _ => Timeout
           end.

(** A service that accepts the registration and the first creation, and
    answers every later request with an empty list of errors. *)
Definition unreadable_third : nat -> response :=
  fun n => match n with
           | O | S O => accepting_service O
           | _ => Http 200 (Some (mkEnvelope (Some []) None))
           end.

(** The state in which run_tournament_validation_test starts creating
    tournaments: after the registration and the pause that follows it. *)
Definition after_registration (s : state Fresh.tester) : state Fresh.tester :=
  snd ((_ <- Fresh.register_player ;; sleep 1) s).

(** A coordinator facing a service that fails from the second request on. *)
Definition failing_coordinator : state Coordinator.coordinator :=
  mkState (Coordinator.init "chain" "app" "http://localhost:8088" "abcdefgh")
          (fresh_io failing_second 1700000000000000 true).

(** The reply carries an ["errors"] key holding the empty list. *)
Definition has_empty_errors (resp : response) : bool :=
  match resp with
  | Http _ (Some (mkEnvelope (Some []) _)) => true
  | _ => false
  end.

(** What test_tournaments.py's make_graphql_request raises for a
    response, if anything: with a success status, an atom cannot be
    searched for ["errors"], and a string or a list that contains it cannot
    be indexed by it. *)
Definition legacy_raises (resp : response) : option Py.exn :=
  match resp with
  | Http status (Some (mkString s)) =>
      if is_error_status status then None
      else if Py.contains "errors" s then Some Py.TypeError_str_index
           else None
  | Http status (Some (mkArray items)) =>
      if is_error_status status then None
      else if among "errors" items then Some Py.TypeError_list_index
           else None
  | HttpAtom status a =>
      if is_error_status status then None
      else Some (Py.TypeError_not_iterable (atom_type a))
  | _ => None
  end.

(** What it returns for a response on which it does not raise. *)
Definition legacy_decode (resp : response) : option envelope :=
  match resp with
  | Http status (Some e) =>
      if mentions_errors e then None
      else if is_error_status status then None else Some e
  | _ => None
  end.

(** Both together. *)
Definition legacy_outcome (resp : response) : outcome (option envelope) :=
  match legacy_raises resp with
  | Some e => Raise e
  | None => Ok (legacy_decode resp)
  end.

(** The request query_state issues. *)
Definition state_query_request (t : Fresh.tester) : request :=
  mkRequest (Fresh.main_url t) (OpQueryState (Fresh.username t)) 10.

(** Two testers that differ at most in the player chain they know. *)
Definition same_identity (t t' : Fresh.tester) : Prop :=
  Fresh.base_url t' = Fresh.base_url t /\
  Fresh.main_chain_id t' = Fresh.main_chain_id t /\
  Fresh.app_id t' = Fresh.app_id t /\
  Fresh.main_url t' = Fresh.main_url t /\
  Fresh.username t' = Fresh.username t /\
  Fresh.password t' = Fresh.password t /\
  Fresh.tournaments t' = Fresh.tournaments t /\
  Fresh.boards t' = Fresh.boards t.

(** A service whose state reply names the player's chain but lists no
    tournament. *)
Definition player_only_service : nat -> response :=
  fun _ => Http 200 (Some (mkEnvelope None (Some (DObject
             (mkData None None None None (Some [])
                     (Some (mkPlayer "test_abc123" "player-chain" false))
                     None))))).

(** The first error's message cannot be read from the body:
    [data['errors'][0].get(...)] raises. *)
Definition unreadable_errors (e : envelope) : bool :=
  match e with
  | mkEnvelope (Some []) _ | mkOddErrors _ _ => true
  | mkString s => Py.contains "errors" s
  | mkArray items => among "errors" items
  | _ => false
  end.

(** The replies on which make_graphql_request raises: a body that is a
    true atom, and, with errors shown, one whose errors cannot be read. *)
Definition makes_transport_raise (show_error : bool) (resp : response)
  : bool :=
  match resp with
  | HttpAtom _ a => atom_truthy a
  | Http _ (Some e) => show_error && unreadable_errors e
  | _ => false
  end.

(** A service that answers every request with the number 5, and one whose
    replies carry [null] under ["errors"]. *)
Definition number_service : nat -> response :=
  fun _ => HttpAtom 200 (JInt 5).

Definition null_errors_service : nat -> response :=
  fun _ => Http 200 (Some (mkOddErrors (ErrorsAtom JNull) None)).

(** A service that answers every request with the JSON value [null]. *)
Definition null_service : nat -> response := fun _ => HttpAtom 200 JNull.

(** A service whose replies carry an empty list of errors. *)
Definition empty_errors_service : nat -> response :=
  fun _ => Http 200 (Some (mkEnvelope (Some []) (Some DNull))).

(** The demo player's expired tournament as the main chain lists it, and a
    service that lists it beside the active one, accepts every mutation and
    shows a board of the player in each. *)
Definition past_observed : leaderboard :=
  mkLeaderboard "T-past" "past_tournament" "test_abc123" "lb-chain-p"
                0 0 ["shard-0"; "shard-1"].

Definition expired_listed_service : nat -> response :=
  fun _ => Http 200 (Some (mkEnvelope None (Some (DObject
             (mkData (Some "tok") (Some "tok") (Some "tok") (Some "tok")
                     (Some [past_observed; active_with_boards 0])
                     (Some (mkPlayer "test_abc123" "player-chain" false))
                     (Some [mkBoard "B-9" "player-chain" "shard-0" "T-past"
                                    "test_abc123";
                            demo_board])))))).

(** The request create_multiple_tournaments issues for tournament [i]. *)
Definition numbered_request (t : Fresh.tester) (i : Z) : request :=
  mkRequest (Fresh.main_url t)
            (OpCreateTournament (Fresh.numbered_name i) "0" "0" 2
                                (Fresh.username t) (Fresh.password t)) 10.

(** The tournament id create_tournament hands back for a response, when it
    is a true value. *)
Definition created_id (resp : response) : option string :=
  match decode true resp with
  | Ok result =>
      if has_data result
      then match scalar_result d_leaderboardAction result with
           | Some id => if Py.truthy id then Some id else None
           | None => None
           end
      else None
  | Raise _ => None
  end.

(** The ids of the creations accepted, of the [n] responses from position
    [base] on, before the first that is not. *)
Fixpoint accepted_ids (service : nat -> response) (base n : nat)
  : list string :=
  match n with
  | O => []
  | S n' => match created_id (service base) with
            | Some id => id :: accepted_ids service (S base) n'
            | None => []
            end
  end.

(** A service that hands out a different id for every request. *)
Definition numbering_service : nat -> response :=
  fun n => Http 200 (Some (mkEnvelope None (Some (DObject
             (mkData (Some "tok") (Some ("T-" ++ Py.str (Z.of_nat n))%string)
                     (Some "tok") (Some "tok") None None None))))).

(** The move requests one pass over the stored boards issues, [n] moves
    for each board. *)
Definition pass_requests (t : Fresh.tester) (chain : string) (n : Z)
  : list request :=
  map (fun b => move_request t chain (Fresh.bi_board_id b) n) (Fresh.boards t).

(** The timestamps of the moves that the given requests submit for one
    board, in the order sent. *)
Definition submitted_timestamps (board_id : string) (requests : list request)
  : list Z :=
  flat_map (fun r =>
              match rq_op r with
              | OpMakeMoves b _ _ _ =>
                  if String.eqb b board_id
                  then match payload_timestamps r with
                       | Some ts => ts
                       | None => []
                       end
                  else []
              | _ => []
              end) requests.

(** What a caller gets that shows errors, tests [result and "data" in
    result] and reads [result["data"]] in the true branch: whether the
    reply has data, unless the transport or the reading raises. *)
Definition reader_outcome (resp : response) : outcome bool :=
  match decode true resp with
  | Ok r => if has_data r
            then match data_outcome r with
                 | Ok _ => Ok true
                 | Raise e => Raise e
                 end
            else Ok false
  | Raise e => Raise e
  end.

Definition reader_raises (resp : response) : bool :=
  match reader_outcome resp with
  | Ok _ => false
  | Raise _ => true
  end.

(** No reply of the service makes such a caller raise: none carries an
    empty ["errors"] list, an ["errors"] value that is no list of objects,
    or a body that is a true atom or a string or a list containing
    ["errors"] or ["data"]. *)
Definition replies_readable (service : nat -> response) : Prop :=
  forall n, reader_raises (service n) = false.

(** The demo tester with two stored boards. *)
Definition two_boards : list Fresh.board_info :=
  [Fresh.mkBoardInfo "B-1" "T-active" "active_tournament" "FIRST";
   Fresh.mkBoardInfo "B-2" "T-eternal" "eternal_tournament" "LAST"].

Definition boards_tester (service : nat -> response) : state Fresh.tester :=
  mkState (Fresh.set_boards two_boards (self (demo_tester service)))
          (world (demo_tester service)).

(** The registration request of test_tournaments_fresh.py. *)
Definition player_registration (t : Fresh.tester) : request :=
  mkRequest (Fresh.main_url t)
            (OpRegisterPlayer (Fresh.username t) (Fresh.password t)) 10.

(** The tester main() constructs. *)
Definition main_tester (chain_id app_id suffix : string) : Fresh.tester :=
  Fresh.init chain_id app_id "http://localhost:8088" suffix.

(** sys.argv[3].lower() == 'validation' *)
Definition wants_validation (third : string) : bool :=
  String.eqb (Py.lower third) "validation".

(** A reading of the count argument: the digits of "5", nothing else. *)
Definition demo_int (a : string) : option Z :=
  if String.eqb a "5" then Some 5
  else if String.eqb a "0" then Some 0 else None.

(** The request query_tournament_details issues. *)
Definition details_request (c : Coordinator.coordinator) : request :=
  mkRequest (Coordinator.main_url c)
            (OpQueryLeaderboards
               ["leaderboardId"; "name"; "host"; "chainId"; "totalBoards";
                "shardIds"]%string) 30.

(** The leaderboards of a list that the coordinator hosts and that have an
    id. *)
Definition hosted_by (c : Coordinator.coordinator) (all : list leaderboard)
  : list leaderboard :=
  filter (fun lb => Py.truthy (lb_leaderboardId lb) &&
                    String.eqb (lb_host lb) (Coordinator.coordinator_username c))
         all.

(** The request verify_tournament_accessibility issues for a tournament. *)
Definition access_request (c : Coordinator.coordinator)
           (t : Coordinator.tournament_details) : request :=
  mkRequest (endpoint (Coordinator.base_url c) (Coordinator.td_chainId t)
                      (Coordinator.app_id c))
            (OpQueryLeaderboards Coordinator.accessibility_fields) 30.

(** A reply that counts as accessible: a success status and a JSON body
    with a ["data"] key, whatever else the body holds (for a string or a
    list: one that contains ["data"]). *)
Definition answers_with_data (resp : response) : bool :=
  match resp with
  | Http status (Some e) => has_data (Some e) && negb (is_error_status status)
  | _ => false
  end.

(** The true atom a reply's body is, if it is one. *)
Definition true_atom (resp : response) : option atom :=
  match resp with
  | HttpAtom _ a => if atom_truthy a then Some a else None
  | _ => None
  end.

(** The first of the [n] replies from position [base] on whose body is a
    true atom, with its index among them. *)
Fixpoint first_true_atom (service : nat -> response) (base n : nat)
  : option (nat * atom) :=
  match n with
  | O => None
  | S n' =>
      match true_atom (service base) with
      | Some a => Some (O, a)
      | None => option_map (fun p => (S (fst p), snd p))
                           (first_true_atom service (S base) n')
      end
  end.

(** The query of the accessibility check, and the requests that carry
    it. *)
Definition accessibility_check : operation :=
  OpQueryLeaderboards Coordinator.accessibility_fields.

Definition is_access_check (q : request) : bool :=
  match rq_op q with
  | OpQueryLeaderboards fields =>
      if list_eq_dec string_dec fields Coordinator.accessibility_fields
      then true else false
  | _ => false
  end.

(** Whether the [n] replies from position [base] on all answer with
    data. *)
Fixpoint all_answer (service : nat -> response) (base n : nat) : bool :=
  match n with
  | O => true
  | S n' => answers_with_data (service base) &&
            all_answer service (S base) n'
  end.

(** The tournaments of the configuration. *)
Definition configured (c : Coordinator.coordinator)
  : list Coordinator.tournament_details :=
  match Coordinator.tc_tournaments (Coordinator.config c) with
  | Some l => l
  | None => []
  end.

(** Two tournaments of the coordinator of the demo, one of somebody else,
    and a service that accepts every mutation and lists the three. *)
Definition coordinator_list : list leaderboard :=
  [mkLeaderboard "T-0" "0" "coord_abcdefgh" "lb-chain-0" 0 0
                 ["shard-0"; "shard-1"];
   foreign_active;
   mkLeaderboard "T-1" "1" "coord_abcdefgh" "lb-chain-1" 0 0 ["shard-0"]].

Definition coordinator_service : nat -> response :=
  fun _ => Http 200 (Some (mkEnvelope None (Some (DObject
             (mkData (Some "tok") (Some "tok") None None
                     (Some coordinator_list) None None))))).

(** The same service, except that from the fifth request on (the
    accessibility checks of a two-tournament setup) it times out. *)
Definition unreachable_chains_service : nat -> response :=
  fun n => if Nat.leb 4 n then Timeout else coordinator_service n.

(** The same list sent together with a reported error. *)
Definition listing_with_errors : nat -> response :=
  fun _ => Http 200 (Some (mkEnvelope (Some [Some "partial failure"])
             (Some (DObject (mkData None None None None
                                    (Some coordinator_list) None None))))).

(** A coordinator whose configuration lists two tournaments, facing a
    service that answers every request with the number 5. *)
Definition numbered_coordinator : state Coordinator.coordinator :=
  mkState (Coordinator.set_config
             (Coordinator.mkTestConfig
                (Some (map Coordinator.details_of
                           (hosted_by (self demo_coordinator)
                                      coordinator_list)))
                None None None)
             (self demo_coordinator))
          (fresh_io number_service 1700000000000000 true).

(** The demo coordinator facing that service. *)
Definition demo_coordinator_listing : state Coordinator.coordinator :=
  mkState (self demo_coordinator)
          (fresh_io coordinator_service 1700000000000000 true).

(** The character [c] does not occur in [s]. *)
Fixpoint lacks (c : ascii) (s : string) : bool :=
  match s with
  | EmptyString => true
  | String a r => negb (Ascii.eqb a c) && lacks c r
  end.

(** [c] is neither a decimal digit nor the minus sign. *)
Definition no_numeral_char (c : ascii) : bool :=
  lacks c "-0123456789".

(** The keys of the results of test_board_creation_and_moves for a list of
    tournaments, as enumerated from [i], of [len] in all. *)
Definition fresh_key (len : Z) (p : Z * leaderboard) : string :=
  Fresh.result_key (Fresh.position_label (fst p) len) (lb_name (snd p)).

(** The same for test_tournaments.py's test_board_creation. *)
Definition legacy_key (len : Z) (p : Z * leaderboard) : string :=
  Legacy.result_key (Legacy.position_label (fst p) len) (lb_name (snd p)).

(** The tournaments test_board_creation_and_moves goes through: those of
    a state that have an id and are hosted by [user]. *)
Definition own_tournaments (user : string) (d : data_obj) : list leaderboard :=
  filter (fun lb => Py.truthy (lb_leaderboardId lb) &&
                    String.eqb (lb_host lb) user)
         (Fresh.state_leaderboards d).

(** The tournaments test_tournaments.py's test_board_creation goes
    through: all those of a state that have an id. *)
Definition listed_tournaments (d : data_obj) : list leaderboard :=
  filter (fun lb => Py.truthy (lb_leaderboardId lb))
         (match d_leaderboards d with Some l => l | None => [] end).

(** The state query of test_tournaments.py, and the board request it
    issues for an enumerated tournament. *)
Definition legacy_state_request (t : Legacy.tester) : request :=
  mkRequest (Legacy.main_url t) (OpQueryState "hello") 10.

Definition legacy_step_request (t : Legacy.tester) (chain : string)
           (p : Z * leaderboard) : request :=
  legacy_board_request t chain (lb_leaderboardId (snd p))
                       (Legacy.timestamp_at (fst p)).

(** A new test_tournaments.py tester facing a service. *)
Definition legacy_new_tester (service : nat -> response)
  : state Legacy.tester :=
  mkState (Legacy.init "chain" "app" "http://localhost:8088")
          (fresh_io service 1700000000000000 true).

(** The created tournaments whose visibility line says "visible". *)
Definition visible_created (user : string) (mine : list leaderboard)
           (created : list Fresh.created_tournament)
  : list Fresh.created_tournament :=
  filter (fun c => Fresh.is_some
                     (Fresh.matching_tournament user (Fresh.ct_name c) mine))
         created.

(** The demo player's active tournament listed twice, under two ids. *)
Definition doubled_listing : data_obj :=
  mkData None None None None
         (Some [active_with_boards 0;
                relabel (fun _ => "T-active-2") (active_with_boards 0)])
         None None.

(** A service that accepts every mutation, lists the demo player's active
    and eternal tournaments (and nothing expired), and shows the player's
    board in the active one. *)
Definition hiding_service : nat -> response :=
  fun _ => Http 200 (Some (mkEnvelope None (Some (DObject
             (mkData (Some "tok") (Some "tok") (Some "tok") (Some "tok")
                     (Some observed_list)
                     (Some (mkPlayer "test_abc123" "player-chain" false))
                     (Some [demo_board])))))).

(** A board of the player in a tournament. *)
Definition is_players_board (user tournament_id : string) (b : board) : bool :=
  String.eqb (bd_player b) user && String.eqb (bd_leaderboardId b) tournament_id.

(** A service that acknowledges a mutation and then lists an older board
    of the demo player in the active tournament before a newer one. *)
Definition older_board : board :=
  mkBoard "B-0" "player-chain" "shard-1" "T-active" "test_abc123".

Definition two_boards_service : nat -> response :=
  fun n =>
    match n with
    | O => Http 200 (Some (mkEnvelope None (Some (DObject
             (mkData None None (Some "tok") None None None None)))))
    | _ => Http 200 (Some (mkEnvelope None (Some (DObject
             (mkData None None None None None None
                     (Some [older_board; demo_board]))))))
    end.

(** The request test_tournaments.py's create_multiple_tournaments issues
    for tournament [i]. *)
Definition legacy_numbered_request (t : Legacy.tester) (i : Z) : request :=
  mkRequest (Legacy.main_url t)
            (OpCreateTournament (Legacy.numbered_name i) "0"
                                "18588537542440000" 2 "hello" "hello") 10.

(** The tournament id its create_tournament hands back for a response,
    when it is a true value. *)
Definition legacy_created_id (resp : response) : option string :=
  match legacy_decode resp with
  | Some (mkEnvelope _ (Some (DObject o))) =>
      match d_leaderboardAction o with
      | Some id => if Py.truthy id then Some id else None
      | None => None
      end
  | _ => None
  end.

Fixpoint legacy_accepted_ids (service : nat -> response) (base n : nat)
  : list string :=
  match n with
  | O => []
  | S n' => match legacy_created_id (service base) with
            | Some id => id :: legacy_accepted_ids service (S base) n'
            | None => []
            end
  end.

(** The two kinds of request check_leaderboard_scores issues: the list of
    leaderboards on the main chain, and one leaderboard's own chain. *)
Definition list_request (t : Fresh.tester) : request :=
  mkRequest (Fresh.main_url t) (OpQueryLeaderboards Fresh.list_fields) 10.

Definition chain_request (t : Fresh.tester) (lb : leaderboard) : request :=
  mkRequest (endpoint (Fresh.base_url t) (lb_chainId lb) (Fresh.app_id t))
            (OpQueryLeaderboards Fresh.chain_fields) 10.

(** The body of the loop of check_leaderboard_scores. *)
Definition score_step (_ : unit) (lb : leaderboard) : M Fresh.tester unit :=
  lb_details <- Fresh.query_leaderboard_chain (lb_leaderboardId lb)
                                              (lb_chainId lb) ;;
  match lb_details with
  | Some details =>
      log (Fresh.streaming_verdict (lb_name lb) (lb_totalBoards details))
  | None => log (EvLeaderboardChainFailed (lb_name lb))
  end.

(** The test check_leaderboard_scores applies to the entries of the main
    chain's list. *)
Definition hosted_with_id (user : string) (lb : leaderboard) : bool :=
  Py.truthy (lb_leaderboardId lb) && String.eqb (lb_host lb) user.

(** The leaderboards a reply lists, as the score check reads them off it;
    [Ok None] when the reply has no such list, and the exception when
    reading the reply raises. *)
Definition chain_listing (resp : response)
  : outcome (option (list leaderboard)) :=
  match decode true resp with
  | Ok result => member_outcome "leaderboards" d_leaderboards result
  | Raise e => Raise e
  end.

(** The lines the score check prints for one of the tester's leaderboards,
    given the reply of that leaderboard's chain. *)
Definition chain_lines (lb : leaderboard) (resp : response) : list event :=
  transport_events true resp ++
  match chain_listing resp with
  | Ok (Some lbs) =>
      [match Fresh.pick_leaderboard (lb_leaderboardId lb) lbs with
       | Some details =>
           Fresh.streaming_verdict (lb_name lb) (lb_totalBoards details)
       | None => EvLeaderboardChainFailed (lb_name lb)
       end]
  | Ok None =>
      [EvLeaderboardChainQueryFailed; EvLeaderboardChainFailed (lb_name lb)]
  | Raise _ => []
  end.

(** The loop over the tester's leaderboards, chain after chain, up to the
    first chain whose reply cannot be read: the lines printed, the number
    of chains asked, and the outcome. *)
Fixpoint score_lines (service : nat -> response) (base : nat)
         (own : list leaderboard) : list event :=
  match own with
  | [] => []
  | lb :: rest =>
      chain_lines lb (service base) ++
      match chain_listing (service base) with
      | Ok _ => score_lines service (S base) rest
      | Raise _ => []
      end
  end.

Fixpoint chains_asked (service : nat -> response) (base : nat)
         (own : list leaderboard) : nat :=
  match own with
  | [] => O
  | _ :: rest =>
      S (match chain_listing (service base) with
         | Ok _ => chains_asked service (S base) rest
         | Raise _ => O
         end)
  end.

Fixpoint score_outcome (service : nat -> response) (base : nat)
         (own : list leaderboard) : outcome unit :=
  match own with
  | [] => Ok tt
  | _ :: rest =>
      match chain_listing (service base) with
      | Ok _ => score_outcome service (S base) rest
      | Raise e => Raise e
      end
  end.

(** A request other than the score check's list of leaderboards. *)
Definition not_list_request (r : request) : Prop :=
  rq_op r <> OpQueryLeaderboards Fresh.list_fields.

(** What query_state hands back for a response: the data object when it
    lists at least one leaderboard, a false result otherwise, and the
    exception when the reply cannot be read. *)
Definition state_outcome (resp : response) : outcome (option data_obj) :=
  match decode true resp with
  | Ok result =>
      if has_data result then
        match data_outcome result with
        | Ok (DObject d) =>
            match d_leaderboards d with
            | Some (_ :: _) => Ok (Some d)
            | _ => Ok None
            end
        | Ok (DScalar _) => Raise (Py.AttributeError_get "str")
        | Ok DNull => Raise (Py.AttributeError_get "NoneType")
        | Raise e => Raise e
        end
      else Ok None
  | Raise e => Raise e
  end.

(** The count verify_active_tournaments compares with the expected one. *)
Definition filter_tally (user : string) (d : data_obj)
           (created : list Fresh.created_tournament) : Z :=
  Z.of_nat (List.length
              (Fresh.my_new_tournaments
                 (Fresh.my_tournaments user (Fresh.state_leaderboards d))
                 created)).

(** Another host's leaderboard, which bears no id on its own chain. *)
Definition foreign_on_chain : leaderboard :=
  mkLeaderboard "" "other_tournament" "someone_else" "lb-chain" 7 3
                ["shard-0"; "shard-1"].

(** A service on which a validation run goes through (every mutation is
    accepted, the player's active and eternal tournaments are listed and
    the player's board shows in the active one), while the chains asked by
    the score check, from the eighteenth request on, answer with another
    host's leaderboard alone. *)
Definition crossed_chain_service : nat -> response :=
  fun n => if (n <? 17)%nat then hiding_service n
           else Http 200 (Some (mkEnvelope None (Some (DObject
                  (mkData None None None None (Some [foreign_on_chain])
                          None None))))).

(** ** Generic facts about the monad and the transport *)

Lemma state_eta {Self} (s : state Self) : mkState (self s) (world s) = s.
Proof. destruct s; reflexivity. Qed.

Lemma io_eta (w : io) :
  mkIo (net w) (sent w) (slept w) (now_us w) (disk_ok w) (written w) (out w) = w.
Proof. destruct w; reflexivity. Qed.

Lemma make_graphql_request_eq {Self} timeout url op show (s : state Self) :
  make_graphql_request timeout url op show s =
  (decode show (next_response s),
   after_request (mkRequest url op timeout)
                 (transport_events show (next_response s)) s).
Proof.
  unfold make_graphql_request, bind, post, io_send, next_response, after_request.
  cbn [world self].
  destruct (net (world s) (List.length (sent (world s))))
    as [|msg|status [[[[|[m|] errs]|] d|v d| |str|items]|]|status a];
    destruct show; cbn -[Py.contains];
    unfold checked_status, bind, log, ret, raise, io_log; cbn -[Py.contains];
    rewrite ?app_nil_r, ?andb_true_r, ?andb_false_r; try reflexivity;
    repeat match goal with
           | |- context [if ?b then _ else _] => destruct b
           end; cbn;
    unfold bind, log, ret, raise, io_log; cbn;
    rewrite ?app_nil_r; reflexivity.
Qed.

Lemma data_of_eq {Self} result (s : state Self) :
  data_of result s = (data_outcome result, s).
Proof.
  destruct result as [[errs [d|]|v [d|]| |str|items]|]; reflexivity.
Qed.

(** Reading the payload of a result either gives the payload its scalar
    reading is taken from, or raises, and then there is no such reading. *)
Lemma data_outcome_cases result :
  (exists d, data_outcome result = Ok d /\
             forall field, scalar_result field result = scalar_payload field d) \/
  (exists e, data_outcome result = Raise e /\
             forall field, scalar_result field result = None).
Proof.
  destruct result as [[errs [d|]|v [d|]| |str|items]|]; cbn; eauto.
Qed.

Lemma data_member_eq {Self A} key (field : data_obj -> option A) result
      (s : state Self) :
  data_member key field result s = (member_outcome key field result, s).
Proof.
  unfold data_member, member_outcome.
  destruct (has_data result); [|reflexivity].
  unfold bind. rewrite data_of_eq.
  destruct (data_outcome result) as [[|str|o]|e]; cbn -[Py.contains];
    try destruct (Py.contains key str); reflexivity.
Qed.

Lemma bind_data_member {Self A B} key (field : data_obj -> option A) result
      (k : option A -> M Self B) (s : state Self) :
  bind (data_member key field result) k s =
  match member_outcome key field result with
  | Ok a => k a s
  | Raise e => (Raise e, s)
  end.
Proof. unfold bind. rewrite data_member_eq. reflexivity. Qed.

Lemma bind_data_of {Self B} result (k : gql_data -> M Self B)
      (s : state Self) :
  bind (data_of result) k s =
  match data_outcome result with
  | Ok d => k d s
  | Raise e => (Raise e, s)
  end.
Proof. unfold bind. rewrite data_of_eq. reflexivity. Qed.

(** A body the transport hands back came with a success status. *)
Lemma decode_some show resp e :
  decode show resp = Ok (Some e) ->
  exists status, resp = Http status (Some e) /\ is_error_status status = false.
Proof.
  destruct resp as [|msg|status [body|]|status a];
    cbn -[Py.contains among atom_truthy]; try discriminate.
  - intros He.
    assert (Hst : is_error_status status = false /\ body = e).
    { destruct body as [[[|x errs]|] d|v d| |str|items];
        destruct show; cbn -[Py.contains among] in He;
        repeat match type of He with
               | context [if ?b then _ else _] => destruct b eqn:?
               end;
        try discriminate; inversion He; subst; auto. }
    destruct Hst as [Hst ->]. eauto.
  - destruct show; destruct (is_error_status status); discriminate.
  - destruct (atom_truthy a); discriminate.
Qed.

(** A result the transport hands back with errors shown mentions no
    errors. *)
Lemma decode_shown_quiet resp e :
  decode true resp = Ok (Some e) -> mentions_errors e = false.
Proof.
  destruct resp
    as [|msg|status [[[[|x errs]|] d|v d| |str|items]|]|status a];
    cbn -[Py.contains]; try discriminate;
    repeat match goal with
           | |- context [if ?b then _ else _] => destruct b eqn:?
           end;
    intros H; inversion H; subst; cbn -[Py.contains]; auto.
Qed.

(** A payload read from a result handed back with errors shown is that of
    an object without an ["errors"] key. *)
Lemma shown_data resp result d :
  decode true resp = Ok result -> data_outcome result = Ok d ->
  result = Some (mkEnvelope None (Some d)).
Proof.
  intros Hdec Hdo.
  destruct result as [[[errs|] [d0|]|v [d0|]| |str|items]|];
    cbn in Hdo; try discriminate;
    try (apply decode_shown_quiet in Hdec; discriminate).
  now inversion Hdo.
Qed.

(** A member is found only in the payload object of an object body. *)
Lemma member_outcome_found {A} key (field : data_obj -> option A) result x :
  member_outcome key field result = Ok (Some x) ->
  exists e d, result = Some e /\ field d = Some x /\
    (e = mkEnvelope None (Some (DObject d)) \/ mentions_errors e = true).
Proof.
  unfold member_outcome.
  destruct result as [[[errs|] [[|str|o]|]|v [[|str|o]|]| |str|items]|];
    cbn -[Py.contains]; try discriminate;
    repeat match goal with
           | |- context [if ?b then _ else _] => destruct b eqn:?
           end; try discriminate;
    intros H; inversion H; subst; eauto 6.
Qed.

Section Emits.
Context {Self : Type} (P : event -> Prop) (Q : request -> Prop).

Lemma emits_nothing {A} (c : M Self A) :
  (forall s, sent (world (snd (c s))) = sent (world s) /\
             out (world (snd (c s))) = out (world s)) ->
  emits P Q c.
Proof.
  intros H s. destruct (H s) as [Hs Ho]. exists [], [].
  rewrite Hs, Ho, !app_nil_r. auto.
Qed.

Lemma emits_ret {A} (a : A) : emits P Q (@ret Self A a).
Proof. apply emits_nothing; intros s; auto. Qed.

Lemma emits_raise {A} e : emits P Q (@raise Self A e).
Proof. apply emits_nothing; intros s; auto. Qed.

Lemma emits_get_self : emits P Q (@get_self Self).
Proof. apply emits_nothing; intros s; auto. Qed.

Lemma emits_set_self x : emits P Q (@set_self Self x).
Proof. apply emits_nothing; intros s; auto. Qed.

Lemma emits_get_now : emits P Q (@get_now Self).
Proof. apply emits_nothing; intros s; auto. Qed.

Lemma emits_sleep n : emits P Q (@sleep Self n).
Proof. apply emits_nothing; intros s; auto. Qed.

Lemma emits_write f : emits P Q (@write_file Self f).
Proof.
  apply emits_nothing; intros s. unfold write_file, io_write.
  destruct (disk_ok (world s)); auto.
Qed.

Lemma emits_log e : P e -> emits P Q (@log Self e).
Proof.
  intros He s. exists [], [e]. cbn. rewrite app_nil_r. auto.
Qed.

Lemma emits_bind {A B} (c : M Self A) (k : A -> M Self B) :
  emits P Q c -> (forall a, emits P Q (k a)) -> emits P Q (bind c k).
Proof.
  intros Hc Hk s. unfold bind.
  destruct (Hc s) as [rs [es [Hs [Ho [HQ HP]]]]].
  destruct (c s) as [[a|e] s1]; cbn [fst snd] in *.
  - destruct (Hk a s1) as [rs' [es' [Hs' [Ho' [HQ' HP']]]]].
    exists (rs ++ rs'), (es ++ es').
    rewrite Hs', Ho', Hs, Ho, !app_assoc.
    repeat split; auto; apply Forall_app; auto.
  - exists rs, es. auto.
Qed.

Lemma emits_try {A} (c : M Self A) (h : Py.exn -> M Self A) :
  emits P Q c -> (forall e, emits P Q (h e)) -> emits P Q (try_except c h).
Proof.
  intros Hc Hh s. unfold try_except.
  destruct (Hc s) as [rs [es [Hs [Ho [HQ HP]]]]].
  destruct (c s) as [[a|e] s1]; cbn [fst snd] in *.
  - exists rs, es. auto.
  - destruct (Hh e s1) as [rs' [es' [Hs' [Ho' [HQ' HP']]]]].
    exists (rs ++ rs'), (es ++ es').
    rewrite Hs', Ho', Hs, Ho, !app_assoc.
    repeat split; auto; apply Forall_app; auto.
Qed.

Lemma emits_when b (c : M Self unit) : emits P Q c -> emits P Q (when b c).
Proof. destruct b; cbn; auto using emits_ret. Qed.

Lemma emits_request timeout url op show :
  allows_transport P -> Q (mkRequest url op timeout) ->
  emits P Q (@make_graphql_request Self timeout url op show).
Proof.
  intros [Hg [Ht [Hh Hf]]] HQ s. rewrite make_graphql_request_eq.
  exists [mkRequest url op timeout],
         (transport_events show (next_response s)).
  cbn [snd after_request world sent out]. repeat split; auto.
  destruct (next_response s)
    as [|msg|status [[[[|[m|] errs]|] d|v d| |str|items]|]|status a];
    destruct show; cbn -[Py.contains]; auto;
    repeat match goal with
           | |- context [if ?b then _ else _] => destruct b
           end; cbn; auto.
Qed.

Lemma emits_data_of result : emits P Q (@data_of Self result).
Proof.
  unfold data_of.
  destruct result as [[errs [d|]|v [d|]| |str|items]|];
    auto using emits_ret, emits_raise.
Qed.

Lemma emits_payload_member {A} key (field : data_obj -> option A) d :
  emits P Q (@payload_member Self A key field d).
Proof.
  unfold payload_member.
  destruct d as [|str|o]; try destruct (Py.contains key str);
    auto using emits_ret, emits_raise.
Qed.

Lemma emits_data_member {A} key (field : data_obj -> option A) result :
  emits P Q (@data_member Self A key field result).
Proof.
  unfold data_member. destruct (has_data result); [|apply emits_ret].
  apply emits_bind; [apply emits_data_of|].
  intros d. apply emits_payload_member.
Qed.

Lemma emits_for_each {A R} (l : list A) (body : A -> M Self (option R)) :
  (forall x, emits P Q (body x)) -> emits P Q (for_each l body).
Proof.
  intros Hb. induction l as [|x r IH]; cbn.
  - apply emits_ret.
  - apply emits_bind; [apply Hb|]. intros [v|]; [apply emits_ret | exact IH].
Qed.

Lemma emits_for_loop {A B R} (l : list A) (acc : B)
      (body : B -> A -> M Self (B + R)) :
  (forall b x, emits P Q (body b x)) -> emits P Q (for_loop l acc body).
Proof.
  intros Hb. revert acc. induction l as [|x r IH]; intros acc; cbn.
  - apply emits_ret.
  - apply emits_bind; [apply Hb|]. intros [b|v]; [apply IH | apply emits_ret].
Qed.

Lemma emits_for_fold {A B} (l : list A) (acc : B) (body : B -> A -> M Self B) :
  (forall b x, emits P Q (body b x)) -> emits P Q (for_fold l acc body).
Proof.
  intros Hb. revert acc. induction l as [|x r IH]; intros acc; cbn.
  - apply emits_ret.
  - apply emits_bind; [apply Hb|]. intros b. apply IH.
Qed.

End Emits.

Lemma allows_any : allows_transport any_event.
Proof. repeat split. Qed.

Create HintDb emits.
#[export] Hint Resolve emits_ret emits_raise emits_get_self emits_set_self
  emits_get_now emits_sleep emits_write emits_data_member emits_data_of
  emits_payload_member allows_any : emits.

(** Walk down a computation, one combinator at a time; what is left are
    the obligations on the lines printed and the requests issued. *)
Ltac emits_step :=
  match goal with
  | |- emits _ _ (bind _ _) => apply emits_bind; [|intro]
  | |- emits _ _ (try_except _ _) => apply emits_try; [|intro]
  | |- emits _ _ (when _ _) => apply emits_when
  | |- emits _ _ (for_each _ _) => apply emits_for_each; intro
  | |- emits _ _ (for_loop _ _ _) => apply emits_for_loop; intros
  | |- emits _ _ (for_fold _ _ _) => apply emits_for_fold; intros
  | |- emits _ _ (log _) => apply emits_log
  | |- emits _ _ (make_graphql_request _ _ _ _) => apply emits_request
  | |- emits _ _ (if ?b then _ else _) => destruct b eqn:?
  | |- emits _ _ (match ?x with _ => _ end) => destruct x eqn:?
  | |- emits _ _ (let (_, _) := ?x in _) => destruct x eqn:?
  | |- emits _ _ _ => solve [auto with emits]
  end.
Ltac emits := repeat emits_step.

(** With no constraint on lines or requests every obligation is trivial. *)
Ltac emits_any := emits; try exact I; auto with emits.

Lemma emits_register_coordinator :
  emits any_event any_request Coordinator.register_coordinator.
Proof.
  unfold Coordinator.register_coordinator, Coordinator.request. emits_any.
Qed.

Lemma emits_create_stress n sc :
  emits any_event any_request
        (Coordinator.create_stress_test_tournaments n sc).
Proof.
  unfold Coordinator.create_stress_test_tournaments, Coordinator.create_step,
    Coordinator.request. emits_any.
Qed.

Lemma emits_query_details :
  emits any_event any_request Coordinator.query_tournament_details.
Proof.
  unfold Coordinator.query_tournament_details, Coordinator.request. emits_any.
Qed.

Lemma emits_save f :
  emits any_event any_request (Coordinator.save_test_config f).
Proof. unfold Coordinator.save_test_config. emits_any. Qed.

Lemma emits_verify_access :
  emits any_event any_request Coordinator.verify_tournament_accessibility.
Proof.
  unfold Coordinator.verify_tournament_accessibility, Coordinator.request.
  emits_any.
Qed.

(** ** The coordinator's command line (C10) *)

Lemma setup_registers_first n sc f (s : state Coordinator.coordinator) :
  exists rest,
    sent (world (snd (Coordinator.run_coordinator_setup n sc f s))) =
    sent (world s) ++
      mkRequest (Coordinator.main_url (self s))
                (OpRegisterPlayer (Coordinator.coordinator_username (self s))
                                  (Coordinator.coordinator_password (self s)))
                30 :: rest.
Proof.
  assert (Hrest : forall b, emits any_event any_request
            (if negb b then log (EvSetupFailed 1) ;; ret false else
             sleep 1 ;;
             created <- Coordinator.create_stress_test_tournaments n sc ;;
             if negb created then log (EvSetupFailed 2) ;; ret false else
             sleep 2 ;;
             collected <- Coordinator.query_tournament_details ;;
             if negb collected then log (EvSetupFailed 3) ;; ret false else
             saved <- Coordinator.save_test_config f ;;
             if negb saved then log (EvSetupFailed 4) ;; ret false else
             _ <- Coordinator.verify_tournament_accessibility ;;
             log EvSetupComplete ;; ret true)).
  { intros b.
    pose proof emits_create_stress. pose proof emits_query_details.
    pose proof emits_save. pose proof emits_verify_access.
    emits_any. }
  unfold Coordinator.run_coordinator_setup.
  unfold bind at 1.
  destruct (Coordinator.register_coordinator s) as [[b|e] s1] eqn:Hreg.
  - destruct (Hrest b s1) as [l [es [Hl _]]]. rewrite Hl.
    revert Hreg. unfold Coordinator.register_coordinator, Coordinator.request.
    unfold bind at 1. cbn [get_self].
    unfold bind at 1. rewrite make_graphql_request_eq.
    intros Hreg.
    assert (Hs1 : sent (world s1) =
                  sent (world s) ++
                  [mkRequest (Coordinator.main_url (self s))
                     (OpRegisterPlayer
                        (Coordinator.coordinator_username (self s))
                        (Coordinator.coordinator_password (self s))) 30]).
    { destruct (decode true (next_response s)) as [r|e]; [|discriminate].
      destruct (has_data r); cbn in Hreg; inversion Hreg; subst; reflexivity. }
    rewrite Hs1, <- app_assoc. cbn. eauto.
  - revert Hreg. unfold Coordinator.register_coordinator, Coordinator.request.
    unfold bind at 1. cbn [get_self].
    unfold bind at 1. rewrite make_graphql_request_eq.
    destruct (decode true (next_response s)) as [r|e'].
    + destruct (has_data r); cbn; discriminate.
    + intros Hreg. inversion Hreg; subst. cbn. exists []. reflexivity.
Qed.

(** C10. The coordinator's main() checks its two numeric arguments before
    anything else: with a tournament count outside 1..10 or a shard count
    outside 1..32 it exits with code 1 and leaves the world as it was (no
    request issued, nothing printed or written); with both inside, it runs
    the setup, whose first request registers the coordinator, and its exit
    is the setup's result.  Hence requests are issued only for arguments
    inside both bounds. *)
Theorem main_validates_before_network
        (a : Coordinator.args) (suffix : string) (w : io) :
  (tournaments_in_bounds a && shards_in_bounds a = false ->
   Coordinator.main a suffix w = (Coordinator.Exit 1, w)) /\
  (tournaments_in_bounds a && shards_in_bounds a = true ->
   Coordinator.main a suffix w =
     exit_of (Coordinator.run_coordinator_setup
                (Coordinator.arg_tournaments a) (Coordinator.arg_shards a)
                (Coordinator.arg_output a)
                (mkState (Coordinator.init (Coordinator.arg_chain_id a)
                                           (Coordinator.arg_app_id a)
                                           (Coordinator.arg_url a) suffix) w))
   /\ exists rest,
       sent (snd (Coordinator.main a suffix w)) =
       sent w ++ registration_request a suffix :: rest) /\
  (sent (snd (Coordinator.main a suffix w)) <> sent w ->
   1 <= Coordinator.arg_tournaments a <= 10 /\
   1 <= Coordinator.arg_shards a <= 32).
Proof.
  assert (Hout : tournaments_in_bounds a && shards_in_bounds a = false ->
                 Coordinator.main a suffix w = (Coordinator.Exit 1, w)).
  { unfold tournaments_in_bounds, shards_in_bounds, Coordinator.main.
    intros H.
    destruct (Z.ltb_spec (Coordinator.arg_tournaments a) 1); [reflexivity|].
    destruct (Z.ltb_spec 10 (Coordinator.arg_tournaments a)); [reflexivity|].
    destruct (Z.ltb_spec (Coordinator.arg_shards a) 1); [reflexivity|].
    destruct (Z.ltb_spec 32 (Coordinator.arg_shards a)); [reflexivity|].
    exfalso. apply andb_false_iff in H.
    destruct H as [H|H]; apply andb_false_iff in H; destruct H as [H|H];
      (apply Z.leb_gt in H; lia). }
  split; [exact Hout|]. split.
  - intros H. apply andb_true_iff in H. destruct H as [Ht Hs].
    unfold tournaments_in_bounds in Ht. unfold shards_in_bounds in Hs.
    apply andb_true_iff in Ht. apply andb_true_iff in Hs.
    destruct Ht as [Ht1 Ht2], Hs as [Hs1 Hs2].
    apply Z.leb_le in Ht1, Ht2, Hs1, Hs2.
    assert (Hmain : Coordinator.main a suffix w =
      exit_of (Coordinator.run_coordinator_setup
                (Coordinator.arg_tournaments a) (Coordinator.arg_shards a)
                (Coordinator.arg_output a)
                (mkState (Coordinator.init (Coordinator.arg_chain_id a)
                                           (Coordinator.arg_app_id a)
                                           (Coordinator.arg_url a) suffix) w))).
    { unfold Coordinator.main.
      destruct (Z.ltb_spec (Coordinator.arg_tournaments a) 1); [lia|].
      destruct (Z.ltb_spec 10 (Coordinator.arg_tournaments a)); [lia|].
      destruct (Z.ltb_spec (Coordinator.arg_shards a) 1); [lia|].
      destruct (Z.ltb_spec 32 (Coordinator.arg_shards a)); [lia|].
      reflexivity. }
    split; [exact Hmain|].
    rewrite Hmain.
    destruct (setup_registers_first
                (Coordinator.arg_tournaments a) (Coordinator.arg_shards a)
                (Coordinator.arg_output a)
                (mkState (Coordinator.init (Coordinator.arg_chain_id a)
                                           (Coordinator.arg_app_id a)
                                           (Coordinator.arg_url a) suffix) w))
      as [rest Hrest].
    exists rest. unfold exit_of.
    destruct (Coordinator.run_coordinator_setup _ _ _ _) as [[b|e] s1];
      cbn in *; exact Hrest.
  - intros Hsent.
    destruct (tournaments_in_bounds a && shards_in_bounds a) eqn:Hb.
    + apply andb_true_iff in Hb. destruct Hb as [Ht Hs].
      unfold tournaments_in_bounds in Ht. unfold shards_in_bounds in Hs.
      apply andb_true_iff in Ht. apply andb_true_iff in Hs.
      destruct Ht as [Ht1 Ht2], Hs as [Hs1 Hs2].
      apply Z.leb_le in Ht1, Ht2, Hs1, Hs2. lia.
    + exfalso. apply Hsent. rewrite (Hout eq_refl). reflexivity.
Qed.

Lemma main_validates_before_network_witness :
  Coordinator.main bad_args "abcdefgh" (fresh_io silent_service 0 true) =
    (Coordinator.Exit 1, fresh_io silent_service 0 true) /\
  (exists rest,
      sent (snd (Coordinator.main good_args "abcdefgh"
                                  (fresh_io silent_service 0 true))) =
      [] ++ registration_request good_args "abcdefgh" :: rest) /\
  (1 <= 3 <= 10 /\ 1 <= 8 <= 32).
Proof.
  split.
  - apply (proj1 (main_validates_before_network
                    bad_args "abcdefgh" (fresh_io silent_service 0 true))).
    reflexivity.
  - split.
    + apply (proj1 (proj2 (main_validates_before_network
                    good_args "abcdefgh" (fresh_io silent_service 0 true)))).
      reflexivity.
    + apply (proj2 (proj2 (main_validates_before_network
                    good_args "abcdefgh" (fresh_io silent_service 0 true)))).
      vm_compute. discriminate.
Defined.

(** ** Bulk provisioning (C9) *)

Lemma new_requests_eq {Self A} (c : M Self A) (s : state Self) l :
  sent (world (snd (c s))) = sent (world s) ++ l -> new_requests c s = l.
Proof.
  intros H. unfold new_requests. rewrite H, skipn_app, skipn_all, Nat.sub_diag.
  reflexivity.
Qed.

Lemma new_events_eq {Self A} (c : M Self A) (s : state Self) l :
  out (world (snd (c s))) = out (world s) ++ l -> new_events c s = l.
Proof.
  intros H. unfold new_events. rewrite H, skipn_app, skipn_all, Nat.sub_diag.
  reflexivity.
Qed.

Lemma in_firstn {A} (x : A) k l : In x (firstn k l) -> In x l.
Proof.
  intros H. rewrite <- (firstn_skipn k l). apply in_or_app. now left.
Qed.

Lemma range_length n : List.length (Py.range n) = Z.to_nat n.
Proof. unfold Py.range. now rewrite length_map, length_seq. Qed.

Lemma enumerate_length {A} (l : list A) i :
  List.length (Py.enumerate i l) = List.length l.
Proof. revert i; induction l; intros; cbn; auto. Qed.

Lemma configs_open n sc :
  Forall (fun cfg => Coordinator.cfg_start_time cfg = 0 /\
                     Coordinator.cfg_end_time cfg = 0)
         (Coordinator.tournament_configs n sc).
Proof.
  unfold Coordinator.tournament_configs. apply Forall_forall.
  intros cfg Hin. apply in_map_iff in Hin. destruct Hin as [i [<- _]].
  now cbn.
Qed.

(** One configuration's turn: exactly its creation request goes out, the
    coordinator's identity is unchanged, and the only early return is
    [return False]. *)
Lemma create_step_sent total i cfg (s : state Coordinator.coordinator) :
  let r := Coordinator.create_step total (i, cfg) s in
  sent (world (snd r)) = sent (world s) ++ [creation_request (self s) cfg] /\
  (forall cfg', creation_request (self (snd r)) cfg' =
                creation_request (self s) cfg') /\
  (forall b, fst r = Ok (Some b) -> b = false).
Proof.
  cbv zeta.
  remember (Coordinator.create_step total (i, cfg) s) as r eqn:Hr.
  unfold Coordinator.create_step, Coordinator.request in Hr.
  unfold bind at 1 in Hr. cbn [get_self] in Hr.
  unfold bind at 1 in Hr. rewrite make_graphql_request_eq in Hr.
  destruct (decode true (next_response s)) as [result|e].
  - destruct (has_data result).
    + unfold bind at 1 in Hr. rewrite data_of_eq in Hr.
      destruct (data_outcome result) as [d|e].
      * cbn in Hr. destruct (i <? total - 1); cbn in Hr; subst r; cbn;
          repeat split; discriminate.
      * subst r. cbn. repeat split. discriminate.
    + cbn in Hr. subst r. cbn. repeat split. intros b H. now inversion H.
  - subst r. cbn. repeat split. discriminate.
Qed.

(** The creation loop sends the creation requests of a prefix of the
    configurations, in order, and of all of them when it runs to its end. *)
Lemma create_loop_sent total (l : list Coordinator.tournament_config) :
  forall i (s : state Coordinator.coordinator),
  let r := for_each (Py.enumerate i l) (Coordinator.create_step total) s in
  exists k, (k <= List.length l)%nat /\
    sent (world (snd r)) =
      sent (world s) ++ map (creation_request (self s)) (firstn k l) /\
    (fst r = Ok None -> k = List.length l) /\
    (forall b, fst r = Ok (Some b) -> b = false).
Proof.
  induction l as [|cfg rest IH]; intros i s; cbv zeta;
    cbn [Py.enumerate for_each].
  - exists 0%nat. cbn. rewrite app_nil_r. repeat split; auto. discriminate.
  - unfold bind.
    pose proof (create_step_sent total i cfg s) as [Hsent [Hid Hret]].
    destruct (Coordinator.create_step total (i, cfg) s) as [[[v|]|e] s1];
      cbn [fst snd] in Hsent, Hid, Hret; cbn [ret fst snd].
    + exists 1%nat. cbn [firstn map List.length]. rewrite Hsent.
      repeat split; [lia|discriminate|].
      intros b H. inversion H; subst. now apply Hret.
    + destruct (IH (i + 1) s1) as [k [Hk [Hs [Hall Hearly]]]].
      exists (S k). cbn [firstn map List.length]. split; [lia|].
      split; [|split].
      * rewrite Hs, Hsent, <- app_assoc. cbn [app].
        rewrite (map_ext _ _ Hid). reflexivity.
      * intros H. f_equal. auto.
      * exact Hearly.
    + exists 1%nat. cbn [firstn map List.length]. rewrite Hsent.
      repeat split; [lia|discriminate|discriminate].
Qed.

(** create_stress_test_tournaments submits a prefix of its configurations
    and reports success only when it submitted them all. *)
Lemma create_stress_requests n shards (s : state Coordinator.coordinator) :
  let configs := Coordinator.tournament_configs n shards in
  let run := Coordinator.create_stress_test_tournaments n shards in
  exists k, (k <= List.length configs)%nat /\
    new_requests run s = map (creation_request (self s)) (firstn k configs) /\
    (fst (run s) = Ok true -> k = List.length configs).
Proof.
  intros configs run.
  unfold run, Coordinator.create_stress_test_tournaments.
  fold configs.
  destruct (create_loop_sent (Z.of_nat (List.length configs)) configs 0 s)
    as [k [Hk [Hs [Hall Hearly]]]].
  exists k. split; [exact Hk|].
  remember (for_each (Py.enumerate 0 configs)
              (Coordinator.create_step (Z.of_nat (List.length configs))))
    as loop eqn:Eloop.
  assert (Hrun : forall A (k : option bool -> M Coordinator.coordinator A),
             (_ <- get_now ;; r <- loop ;; k r) s =
             match loop s with
             | (Ok r, s1) => k r s1
             | (Raise e, s1) => (Raise e, s1)
             end).
  { intros A k0. reflexivity. }
  split.
  - apply new_requests_eq. rewrite Hrun.
    destruct (loop s) as [[[b|]|e] s1]; cbn in *; exact Hs.
  - rewrite Hrun. intros Hok. apply Hall.
    destruct (loop s) as [[[b|]|e] s1]; cbn in *;
      try discriminate; try reflexivity.
    specialize (Hearly b eq_refl). subst b. discriminate.
Qed.

(** C9. In bulk-provisioning mode each of the N tournament configurations
    has start time 0 and end time 0, a window the activation policy holds
    open at every instant; the creation requests issued are those of the
    first k configurations, in order, each carrying startTime "0" and
    endTime "0"; and when the creation reports success, all N were sent. *)
Theorem bulk_tournaments_always_active
        (n shards : Z) (s : state Coordinator.coordinator) :
  let configs := Coordinator.tournament_configs n shards in
  let run := Coordinator.create_stress_test_tournaments n shards in
  List.length configs = Z.to_nat n /\
  Forall (fun cfg =>
            Coordinator.cfg_start_time cfg = 0 /\
            Coordinator.cfg_end_time cfg = 0 /\
            forall now, SpecModel.spec_active (Coordinator.cfg_start_time cfg)
                          (Coordinator.cfg_end_time cfg) now = true) configs /\
  (exists k, (k <= Z.to_nat n)%nat /\
     new_requests run s = map (creation_request (self s)) (firstn k configs)) /\
  Forall (fun r => has_open_window r = true) (new_requests run s) /\
  (fst (run s) = Ok true ->
   new_requests run s = map (creation_request (self s)) configs).
Proof.
  intros configs run.
  assert (Hlen : List.length configs = Z.to_nat n).
  { unfold configs, Coordinator.tournament_configs.
    now rewrite length_map, range_length. }
  assert (Hopen : Forall (fun cfg => Coordinator.cfg_start_time cfg = 0 /\
                                     Coordinator.cfg_end_time cfg = 0) configs)
    by apply configs_open.
  assert (Hloop : exists k, (k <= Z.to_nat n)%nat /\
     new_requests run s = map (creation_request (self s)) (firstn k configs) /\
     (fst (run s) = Ok true -> k = List.length configs)).
  { rewrite <- Hlen. apply create_stress_requests. }
  destruct Hloop as [k [Hk [Hreq Hall]]].
  split; [exact Hlen|]. split.
  { eapply Forall_impl; [|exact Hopen].
    intros cfg [H0 H1]. rewrite H0, H1. repeat split. }
  split; [exists k; auto|]. split.
  - rewrite Hreq. apply Forall_forall. intros r Hin.
    apply in_map_iff in Hin. destruct Hin as [cfg [<- Hin]].
    apply in_firstn in Hin.
    rewrite Forall_forall in Hopen. destruct (Hopen cfg Hin) as [H0 H1].
    unfold has_open_window, creation_request, Coordinator.create_operation.
    cbn. rewrite H0, H1. reflexivity.
  - intros Hok. rewrite Hreq, (Hall Hok), firstn_all. reflexivity.
Qed.

Lemma bulk_tournaments_always_active_witness :
  new_requests (Coordinator.create_stress_test_tournaments 3 8)
               demo_coordinator =
  map (creation_request (self demo_coordinator))
      (Coordinator.tournament_configs 3 8).
Proof.
  apply (proj2 (proj2 (proj2 (proj2
           (bulk_tournaments_always_active 3 8 demo_coordinator))))).
  vm_compute. reflexivity.
Defined.

(** ** Move submission (C4) *)

Lemma append_assoc (a b c : string) :
  ((a ++ b) ++ c = a ++ (b ++ c))%string.
Proof. induction a as [|x a IH]; cbn; [reflexivity | now rewrite IH]. Qed.

Lemma length_append (a b : string) :
  String.length (a ++ b) = (String.length a + String.length b)%nat.
Proof. induction a as [|x a IH]; cbn; [reflexivity | now rewrite IH]. Qed.

Lemma strip_prefix_app p s : strip_prefix p (p ++ s) = Some s.
Proof.
  induction p as [|a p IH]; cbn; [reflexivity|].
  now rewrite Ascii.eqb_refl.
Qed.

Lemma read_quoted_tail_app x rest :
  no_quote x = true ->
  read_quoted_tail (x ++ Fresh.dquote ++ rest) = Some (x, rest).
Proof.
  induction x as [|c x IH]; cbn [String.append read_quoted_tail no_quote].
  - intros _. reflexivity.
  - intros H. apply andb_true_iff in H. destruct H as [Hc Hx].
    apply negb_true_iff in Hc. rewrite Hc, (IH Hx). reflexivity.
Qed.

Lemma read_json_string_app x rest :
  no_quote x = true ->
  read_json_string (Fresh.json_string x ++ rest) = Some (x, rest).
Proof.
  intros H. unfold read_json_string, Fresh.json_string.
  rewrite !append_assoc, strip_prefix_app. now apply read_quoted_tail_app.
Qed.

Lemma read_json_pair_app m rest :
  quote_free m -> read_json_pair (Fresh.json_pair m ++ rest) = Some (m, rest).
Proof.
  intros [Ha Hb]. destruct m as [a b]. cbn [fst snd] in *.
  unfold read_json_pair, Fresh.json_pair. cbn [fst snd].
  rewrite !append_assoc, strip_prefix_app.
  rewrite (read_json_string_app a _ Ha), strip_prefix_app.
  rewrite (read_json_string_app b _ Hb), strip_prefix_app.
  reflexivity.
Qed.

Lemma read_json_items_app l : forall m fuel rest,
  Forall quote_free (m :: l) ->
  (List.length l < fuel)%nat ->
  strip_prefix ", " rest = None ->
  read_json_items fuel (Fresh.json_items (m :: l) ++ rest) = Some (m :: l, rest).
Proof.
  induction l as [|m' l IH]; intros m fuel rest Hq Hfuel Hrest;
    (destruct fuel as [|fuel]; [cbn in Hfuel; lia|]);
    inversion Hq as [|? ? Hm Hl]; subst.
  - cbn [Fresh.json_items read_json_items].
    rewrite (read_json_pair_app m rest Hm), Hrest. reflexivity.
  - change (Fresh.json_items (m :: m' :: l))
      with (Fresh.json_pair m ++ ", " ++ Fresh.json_items (m' :: l))%string.
    cbn [read_json_items].
    rewrite !append_assoc, (read_json_pair_app m _ Hm), strip_prefix_app.
    rewrite (IH m' fuel rest Hl); [reflexivity | cbn in Hfuel; lia | exact Hrest].
Qed.

Lemma json_items_length l :
  (List.length l <= String.length (Fresh.json_items l))%nat.
Proof.
  induction l as [|m [|m' l] IH]; [cbn; lia | |].
  - cbn [Fresh.json_items List.length]. unfold Fresh.json_pair.
    rewrite length_append. cbn. lia.
  - change (Fresh.json_items (m :: m' :: l))
      with (Fresh.json_pair m ++ ", " ++ Fresh.json_items (m' :: l))%string.
    unfold Fresh.json_pair at 1. rewrite !length_append.
    cbn [List.length] in *. cbn [String.length]. lia.
Qed.

(** Reading back what json.dumps wrote gives the list again. *)
Lemma json_loads_dumps l :
  Forall quote_free l -> json_loads (Fresh.json_dumps l) = Some l.
Proof.
  intros Hq. unfold json_loads, Fresh.json_dumps.
  rewrite strip_prefix_app.
  destruct l as [|m l]; [reflexivity|].
  assert (Hhead : strip_prefix "]" (Fresh.json_items (m :: l) ++ "]") = None).
  { destruct l; cbn [Fresh.json_items]; unfold Fresh.json_pair; reflexivity. }
  rewrite Hhead.
  rewrite read_json_items_app; [reflexivity | exact Hq | | reflexivity].
  rewrite length_append.
  pose proof (json_items_length (m :: l)) as H. cbn [List.length] in H.
  cbn [String.length]. lia.
Qed.

Lemma no_quote_uint d : no_quote (NilEmpty.string_of_uint d) = true.
Proof. induction d; cbn; auto. Qed.

Lemma no_quote_str z : no_quote (Py.str z) = true.
Proof.
  unfold Py.str.
  destruct z as [|p|p]; cbn; [reflexivity | |];
    (destruct (Pos.to_uint p) eqn:E;
     [exfalso; now apply (DecimalPos.Unsigned.to_uint_nonnil p) | ..];
     cbn; apply no_quote_uint).
Qed.

Lemma int_of_str_str z : int_of_str (Py.str z) = Some z.
Proof.
  unfold int_of_str, Py.str.
  rewrite NilZero.isi.
  - cbn. now rewrite DecimalZ.of_to.
  - destruct z; cbn; try discriminate.
    intros H. inversion H. now apply (DecimalPos.Unsigned.to_uint_nonnil p).
  - destruct z; cbn; try discriminate.
    intros H. inversion H. now apply (DecimalPos.Unsigned.to_uint_nonnil p).
Qed.

Lemma move_direction_cases i :
  Fresh.move_direction i = "Down" \/ Fresh.move_direction i = "Right" \/
  Fresh.move_direction i = "Left".
Proof.
  unfold Fresh.move_direction. cbn [Fresh.move_pattern List.length].
  assert (H : (Z.to_nat (i mod Z.of_nat 4) < 4)%nat).
  { pose proof (Z.mod_pos_bound i (Z.of_nat 4)). lia. }
  destruct (Z.to_nat (i mod Z.of_nat 4)) as [|[|[|[|k]]]]; cbn; auto; lia.
Qed.

Lemma move_direction_in_pattern i :
  In (Fresh.move_direction i) Fresh.move_pattern.
Proof.
  destruct (move_direction_cases i) as [H|[H|H]]; rewrite H; cbn; auto.
Qed.

Lemma moves_quote_free n : Forall quote_free (Fresh.moves_list n).
Proof.
  unfold Fresh.moves_list. apply Forall_forall. intros m Hin.
  apply in_map_iff in Hin. destruct Hin as [i [<- _]].
  split; cbn [fst snd]; [|apply no_quote_str].
  destruct (move_direction_cases i) as [H|[H|H]]; rewrite H; reflexivity.
Qed.

Lemma moves_timestamps_read n :
  all_some (map (fun m => int_of_str (snd m)) (Fresh.moves_list n)) =
  Some (move_timestamps n).
Proof.
  unfold Fresh.moves_list, move_timestamps.
  induction (Py.range n) as [|i l IH]; [reflexivity|].
  cbn [map snd all_some]. now rewrite int_of_str_str, IH.
Qed.

Lemma strictly_increasing_cons a b l :
  strictly_increasing (a :: b :: l) =
  (a <? b) && strictly_increasing (b :: l).
Proof. reflexivity. Qed.

Lemma timestamps_increase k : forall start,
  strictly_increasing
    (map Fresh.move_timestamp (map Z.of_nat (seq start k))) = true.
Proof.
  induction k as [|k IH]; intros start; [reflexivity|].
  destruct k as [|k]; [reflexivity|].
  specialize (IH (S start)).
  cbn [seq map] in *. rewrite strictly_increasing_cons.
  rewrite IH, andb_true_r. apply Z.ltb_lt.
  unfold Fresh.move_timestamp. lia.
Qed.

Lemma move_request_payload t chain board_id n :
  payload_moves (move_request t chain board_id n) = Some (Fresh.moves_list n) /\
  payload_timestamps (move_request t chain board_id n) =
    Some (move_timestamps n).
Proof.
  unfold payload_timestamps, payload_moves, move_request. cbn [rq_op].
  rewrite (json_loads_dumps _ (moves_quote_free n)).
  split; [reflexivity | apply moves_timestamps_read].
Qed.

Lemma make_moves_requests board_id n (s : state Fresh.tester) :
  match Fresh.player_chain_id (self s) with
  | Some chain =>
      if Py.truthy chain
      then new_requests (Fresh.make_moves board_id n) s =
             [move_request (self s) chain board_id n]
      else Fresh.make_moves board_id n s =
             (Ok false, mkState (self s) (io_log EvNoPlayerChain (world s)))
  | None => Fresh.make_moves board_id n s =
              (Ok false, mkState (self s) (io_log EvNoPlayerChain (world s)))
  end.
Proof.
  unfold Fresh.make_moves, Fresh.request.
  destruct (Fresh.player_chain_id (self s)) as [chain|] eqn:Hc.
  - destruct (Py.truthy chain) eqn:Ht.
    + apply new_requests_eq.
      unfold bind at 1. cbn [get_self]. rewrite Hc, Ht. cbn [negb].
      unfold bind at 1. rewrite make_graphql_request_eq.
      destruct (decode true (next_response s)) as [r|e]; [|reflexivity].
      destruct (has_data r); [|reflexivity].
      unfold bind at 1. rewrite data_of_eq.
      destruct (data_outcome r); reflexivity.
    + unfold bind at 1. cbn [get_self]. rewrite Hc, Ht. reflexivity.
  - unfold bind at 1. cbn [get_self]. rewrite Hc. reflexivity.
Qed.

Lemma moves_list_nth n i :
  (i < Z.to_nat n)%nat ->
  nth_error (Fresh.moves_list n) i =
  Some (Fresh.move_direction (Z.of_nat i),
        Py.str (Fresh.move_timestamp (Z.of_nat i))).
Proof.
  intros Hi. unfold Fresh.moves_list, Py.range.
  rewrite !nth_error_map, nth_error_seq.
  destruct (Nat.ltb_spec i (Z.to_nat n)); [reflexivity | lia].
Qed.

Example two_moves_payload :
  json_loads (Fresh.json_dumps (Fresh.moves_list 2)) =
    Some [("Down", "100000000"); ("Right", "100001000")] /\
  String.length (Fresh.json_dumps (Fresh.moves_list 2)) = 47%nat.
Proof. split; reflexivity. Qed.

(** C4 as stated fails: there is no local rejection of a move sequence.
    make_moves takes a number of moves, not a sequence, tests no timestamp,
    and numbers its moves from 100000000 at every call.  In the three
    trigger rounds of test_trigger_cycle_verification one board is so sent
    8, 11 and 14 moves: read in the order sent, the timestamps submitted
    for that board are not strictly increasing, and every one of the
    submissions reaches the network. *)
Lemma restarted_timestamps_are_submitted :
  let rounds := Fresh.test_trigger_cycle_verification in
  let s := boards_tester accepting_service in
  fst (rounds s) = Ok tt /\
  List.length (new_requests rounds s) = 6%nat /\
  submitted_timestamps "B-1" (new_requests rounds s) =
    move_timestamps 8 ++ move_timestamps 11 ++ move_timestamps 14 /\
  strictly_increasing (submitted_timestamps "B-1" (new_requests rounds s)) =
    false /\
  ~ (forall (t : state Fresh.tester) board_id,
        strictly_increasing
          (submitted_timestamps board_id
             (new_requests Fresh.test_trigger_cycle_verification t)) = true).
Proof.
  cbv zeta. split; [vm_compute; reflexivity|].
  split; [vm_compute; reflexivity|].
  split; [vm_compute; reflexivity|].
  split; [vm_compute; reflexivity|].
  intros H. specialize (H (boards_tester accepting_service) "B-1").
  vm_compute in H. discriminate.
Qed.



(** ** The validation matrix and its creation loop (C3, C8) *)

Lemma after_request_length {Self} r evs (s : state Self) :
  List.length (sent (world (after_request r evs s))) =
  S (List.length (sent (world s))).
Proof. cbn. rewrite length_app. cbn. lia. Qed.

(** One scenario's turn. *)
Lemma create_scenario_step_eq total acc i sc (s : state Fresh.tester) :
  let r := Fresh.create_scenario_step total acc (i, sc) s in
  sent (world (snd r)) = sent (world s) ++ [scenario_request (self s) sc] /\
  self (snd r) = self s /\
  net (world (snd r)) = net (world s) /\
  (if creation_accepted (next_response s)
   then fst r = Ok (inl (acc ++ [Fresh.created_of (Fresh.username (self s)) sc]))
   else fst r = Ok (inr None) \/ exists e, fst r = Raise e).
Proof.
  cbv zeta.
  remember (Fresh.create_scenario_step total acc (i, sc) s) as r eqn:Hr.
  unfold Fresh.create_scenario_step, Fresh.create_tournament_with_time,
    Fresh.request in Hr.
  unfold bind at 1 2 in Hr. cbn [get_self] in Hr.
  unfold bind at 1 in Hr. rewrite make_graphql_request_eq in Hr.
  unfold creation_accepted.
  destruct (decode true (next_response s)) as [result|e].
  - destruct (has_data result); cbn [andb ret] in Hr |- *.
    + unfold bind at 1 in Hr. rewrite data_of_eq in Hr.
      destruct (data_outcome_cases result) as [[d [Hd Hf]]|[e [Hd Hf]]];
        rewrite Hd in Hr; rewrite Hf.
      * cbn [ret] in Hr.
        destruct (Py.truthy_opt (scalar_payload d_leaderboardAction d)).
        -- destruct (i <? total); subst r; cbn; auto.
        -- subst r; cbn; auto.
      * subst r; cbn; eauto 6.
    + subst r; cbn; auto.
  - subst r; cbn; eauto 6.
Qed.

(** The creation loop: requests go out for the scenarios up to and
    including the first whose creation is not accepted, and for no other;
    the list of created tournaments comes back only when every creation
    was accepted. *)
Lemma create_scenarios_loop total (l : list Fresh.scenario) :
  forall i acc (s : state Fresh.tester),
  let r := for_loop (Py.enumerate i l) acc (Fresh.create_scenario_step total) s in
  let a := accepted_run (net (world s)) (List.length (sent (world s)))
                        (List.length l) in
  sent (world (snd r)) =
    sent (world s) ++ map (scenario_request (self s)) (firstn (S a) l) /\
  self (snd r) = self s /\
  (if Nat.eqb a (List.length l)
   then fst r = Ok (inl (acc ++ map (Fresh.created_of (Fresh.username (self s))) l))
   else fst r = Ok (inr None) \/ exists e, fst r = Raise e).
Proof.
  induction l as [|sc rest IH]; intros i acc s; cbv zeta;
    cbn [Py.enumerate for_loop List.length accepted_run].
  - cbn. rewrite !app_nil_r. auto.
  - unfold bind.
    pose proof (create_scenario_step_eq total acc i sc s)
      as [Hsent [Hself [Hnet Hres]]].
    unfold next_response in Hres.
    destruct (creation_accepted
                (net (world s) (List.length (sent (world s))))) eqn:Hacc.
    + destruct (Fresh.create_scenario_step total acc (i, sc) s) as [o s1].
      cbn [fst snd] in *. subst o.
      specialize (IH (i + 1) (acc ++ [Fresh.created_of
                                        (Fresh.username (self s)) sc]) s1).
      cbv zeta in IH. destruct IH as [IHsent [IHself IHres]].
      rewrite Hnet, Hsent, Hself, length_app in IHsent, IHres.
      cbn [List.length] in IHsent, IHres.
      rewrite Nat.add_1_r in IHsent, IHres.
      split; [|split].
      * rewrite IHsent, <- app_assoc. reflexivity.
      * congruence.
      * cbn [Nat.eqb].
        destruct (Nat.eqb _ (List.length rest)); [|exact IHres].
        rewrite IHres, <- app_assoc. reflexivity.
    + destruct (Fresh.create_scenario_step total acc (i, sc) s) as [o s1].
      cbn [fst snd] in *.
      destruct Hres as [->|[e ->]]; cbn [fst snd ret firstn map Nat.eqb];
        rewrite Hsent; eauto.
Qed.

(** create_multiple_test_tournaments, in terms of the responses it gets. *)
Lemma create_multiple_test_tournaments_spec (s : state Fresh.tester) :
  let scenarios := Fresh.tournament_scenarios (now_us (world s)) in
  let a := accepted_run (net (world s)) (List.length (sent (world s))) 4 in
  let r := Fresh.create_multiple_test_tournaments s in
  sent (world (snd r)) =
    sent (world s) ++ map (scenario_request (self s)) (firstn (S a) scenarios) /\
  (if Nat.eqb a 4
   then fst r = Ok (Some (map (Fresh.created_of (Fresh.username (self s)))
                              scenarios))
   else fst r = Ok None \/ exists e, fst r = Raise e).
Proof.
  cbv zeta. unfold Fresh.create_multiple_test_tournaments.
  unfold bind. cbn [get_now].
  pose proof (create_scenarios_loop
                (Z.of_nat (List.length (Fresh.tournament_scenarios
                                          (now_us (world s)))))
                (Fresh.tournament_scenarios (now_us (world s))) 1 [] s) as H.
  cbv zeta in H. destruct H as [Hsent [_ Hres]].
  destruct (for_loop _ _ _ s) as [o s1]. cbn [fst snd] in *.
  change (List.length (Fresh.tournament_scenarios (now_us (world s))))
    with 4%nat in Hsent, Hres.
  destruct (Nat.eqb _ 4).
  - subst o. cbn. auto.
  - destruct Hres as [->|[e ->]]; cbn; eauto.
Qed.

(** A creation that is not accepted ends the step with None, unless the
    reply is one the script cannot read: then the exception comes out. *)
Lemma create_scenario_step_refused total acc i sc (s : state Fresh.tester) :
  creation_accepted (next_response s) = false ->
  fst (Fresh.create_scenario_step total acc (i, sc) s) =
  match reader_outcome (next_response s) with
  | Ok _ => Ok (inr None)
  | Raise e => Raise e
  end.
Proof.
  unfold Fresh.create_scenario_step, Fresh.create_tournament_with_time,
    Fresh.request.
  unfold bind at 1 2. cbn [get_self].
  unfold bind at 1. rewrite make_graphql_request_eq.
  unfold creation_accepted, reader_outcome.
  destruct (decode true (next_response s)) as [result|e]; [|reflexivity].
  destruct (has_data result); cbn [andb ret]; [|reflexivity].
  unfold bind at 1. rewrite data_of_eq.
  destruct (data_outcome_cases result) as [[d [Hd Hf]]|[e [Hd Hf]]];
    rewrite Hd, Hf; [|reflexivity].
  cbn [ret]. intros Hno. rewrite Hno. reflexivity.
Qed.

Lemma create_scenarios_loop_refused total (l : list Fresh.scenario) :
  forall i acc (s : state Fresh.tester),
  let service := net (world s) in
  let base := List.length (sent (world s)) in
  let a := accepted_run service base (List.length l) in
  (a < List.length l)%nat ->
  fst (for_loop (Py.enumerate i l) acc (Fresh.create_scenario_step total) s) =
  match reader_outcome (service (base + a)%nat) with
  | Ok _ => Ok (inr None)
  | Raise e => Raise e
  end.
Proof.
  induction l as [|sc rest IH]; intros i acc s; cbv zeta;
    cbn [Py.enumerate for_loop List.length accepted_run]; [lia|].
  unfold bind.
  pose proof (create_scenario_step_eq total acc i sc s)
    as [Hsent [Hself [Hnet Hres]]].
  pose proof (create_scenario_step_refused total acc i sc s) as Hno.
  unfold next_response in Hres, Hno.
  destruct (creation_accepted
              (net (world s) (List.length (sent (world s))))) eqn:Hacc.
  - intros Ha.
    destruct (Fresh.create_scenario_step total acc (i, sc) s) as [o s1].
    cbn [fst snd] in *. subst o.
    specialize (IH (i + 1) (acc ++ [Fresh.created_of
                                      (Fresh.username (self s)) sc]) s1).
    cbv zeta in IH.
    rewrite Hnet, Hsent, length_app in IH. cbn [List.length] in IH.
    rewrite Nat.add_1_r in IH. rewrite IH by lia.
    now rewrite Nat.add_succ_r.
  - intros _. rewrite Nat.add_0_r.
    destruct (Fresh.create_scenario_step total acc (i, sc) s) as [o s1].
    cbn [fst snd] in *. rewrite (Hno eq_refl).
    destruct (reader_outcome _); reflexivity.
Qed.

(** create_multiple_test_tournaments when some creation is refused: what
    it ends with is decided by the first refused reply. *)
Lemma create_multiple_test_tournaments_refused (s : state Fresh.tester) :
  let service := net (world s) in
  let base := List.length (sent (world s)) in
  let a := accepted_run service base 4 in
  (a < 4)%nat ->
  fst (Fresh.create_multiple_test_tournaments s) =
  match reader_outcome (service (base + a)%nat) with
  | Ok _ => Ok None
  | Raise e => Raise e
  end.
Proof.
  cbv zeta. intros Ha. unfold Fresh.create_multiple_test_tournaments.
  unfold bind. cbn [get_now].
  pose proof (create_scenarios_loop_refused
                (Z.of_nat (List.length (Fresh.tournament_scenarios
                                          (now_us (world s)))))
                (Fresh.tournament_scenarios (now_us (world s))) 1 [] s) as H.
  cbv zeta in H.
  change (List.length (Fresh.tournament_scenarios (now_us (world s))))
    with 4%nat in H.
  specialize (H Ha).
  destruct (for_loop _ _ _ s) as [o s1]. cbn [fst snd] in *. subst o.
  destruct (reader_outcome _); reflexivity.
Qed.

Lemma created_list_is_the_matrix (s : state Fresh.tester) l :
  fst (Fresh.create_multiple_test_tournaments s) = Ok (Some l) ->
  l = map (Fresh.created_of (Fresh.username (self s)))
          (Fresh.tournament_scenarios (now_us (world s))).
Proof.
  intros H.
  pose proof (create_multiple_test_tournaments_spec s) as [_ Hres].
  destruct (Nat.eqb _ 4).
  - rewrite Hres in H. now inversion H.
  - destruct Hres as [E|[e E]]; rewrite E in H; discriminate.
Qed.

Lemma matrix_matches_policy current_time now :
  1800000000 < current_time ->
  current_time <= now < current_time + 3600000000 ->
  Forall (flag_matches_policy now) (Fresh.tournament_scenarios current_time).
Proof.
  intros Hct Hnow. unfold Fresh.tournament_scenarios.
  repeat constructor; unfold flag_matches_policy, SpecModel.spec_active;
    cbn [Fresh.sc_should_be_active Fresh.sc_start_time Fresh.sc_end_time].
  - destruct (Z.eqb_spec (current_time - 1800000000) 0); [lia|].
    destruct (Z.leb_spec now (current_time - 1800000000)); [lia|].
    now rewrite andb_false_r.
  - destruct (Z.eqb_spec (current_time + 3600000000) 0); [lia|].
    destruct (Z.leb_spec (current_time + 3600000000) now); [lia|].
    reflexivity.
Qed.

(** C3 as stated fails: one hour after creation the future tournament's
    window has opened, so the policy makes it active, while the scenario
    still carries the flag False it was given when the matrix was built. *)
Lemma expected_flag_is_not_recomputed :
  exists sc,
    In sc (Fresh.tournament_scenarios demo_time) /\
    Fresh.sc_name sc = "future_tournament" /\
    Fresh.sc_should_be_active sc = false /\
    SpecModel.spec_active (Fresh.sc_start_time sc) (Fresh.sc_end_time sc)
                          an_hour_later = true /\
    ~ flag_matches_policy an_hour_later sc /\
    ~ (forall current_time now,
          current_time <= now ->
          Forall (flag_matches_policy now)
                 (Fresh.tournament_scenarios current_time)).
Proof.
  exists (Fresh.mkScenario "future_tournament" (demo_time + 3600000000)
                           (demo_time + 7200000000) false).
  assert (Hne : ~ flag_matches_policy an_hour_later
                  (Fresh.mkScenario "future_tournament"
                     (demo_time + 3600000000) (demo_time + 7200000000) false)).
  { unfold flag_matches_policy. vm_compute. discriminate. }
  split; [cbn; auto|].
  repeat split; [exact Hne|].
  intros H. specialize (H demo_time an_hour_later).
  rewrite Forall_forall in H. apply Hne. apply H.
  - unfold an_hour_later. lia.
  - cbn. auto.
Qed.

(** C3, amended. The expected-active flags of the validation matrix are
    literals fixed when the matrix is built (False for the expired and the
    future scenario, True for the two zero-window ones), whatever the clock
    reads, and the records handed to the verification steps carry exactly
    these flags and the windows computed from the creation-time clock.
    Each flag equals the policy (start == 0 OR now >= start) AND
    (end == 0 OR now <= end) at every instant [now] from the creation time
    up to, but excluding, one hour after it, provided the creation-time
    clock reads more than 1_800_000_000 microseconds. *)
Theorem scenario_flags_match_policy_within_the_hour
        (current_time now : Z) (s : state Fresh.tester)
        (created : list Fresh.created_tournament) :
  1800000000 < current_time ->
  current_time <= now < current_time + 3600000000 ->
  now_us (world s) = current_time ->
  fst (Fresh.create_multiple_test_tournaments s) = Ok (Some created) ->
  map Fresh.sc_should_be_active (Fresh.tournament_scenarios current_time) =
    [false; false; true; true] /\
  Forall (flag_matches_policy now) (Fresh.tournament_scenarios current_time) /\
  map Fresh.ct_should_be_active created = [false; false; true; true] /\
  Forall (created_matches_policy now) created.
Proof.
  intros Hct Hnow Hclock Hcreated.
  pose proof (matrix_matches_policy current_time now Hct Hnow) as Hm.
  apply created_list_is_the_matrix in Hcreated. rewrite Hclock in Hcreated.
  subst created.
  split; [reflexivity|]. split; [exact Hm|]. split; [reflexivity|].
  apply Forall_forall. intros c Hin.
  apply in_map_iff in Hin. destruct Hin as [sc [<- Hin]].
  rewrite Forall_forall in Hm. exact (Hm sc Hin).
Qed.

Lemma scenario_flags_match_policy_within_the_hour_witness :
  map Fresh.sc_should_be_active (Fresh.tournament_scenarios demo_time) =
    [false; false; true; true] /\
  Forall (flag_matches_policy (demo_time + 5000000))
         (Fresh.tournament_scenarios demo_time) /\
  map Fresh.ct_should_be_active
      (map (Fresh.created_of "test_abc123")
           (Fresh.tournament_scenarios demo_time)) =
    [false; false; true; true] /\
  Forall (created_matches_policy (demo_time + 5000000))
         (map (Fresh.created_of "test_abc123")
              (Fresh.tournament_scenarios demo_time)).
Proof.
  apply (scenario_flags_match_policy_within_the_hour
           demo_time (demo_time + 5000000) (new_tester accepting_service)).
  - reflexivity.
  - unfold demo_time. lia.
  - reflexivity.
  - reflexivity.
Defined.

(** ** The leaderboard score check (C5) *)

Lemma streaming_verdict_positive name total_boards :
  positive_total (Fresh.streaming_verdict name total_boards).
Proof.
  unfold Fresh.streaming_verdict.
  destruct (Z.ltb_spec 0 total_boards); cbn; auto.
Qed.

Lemma allows_positive_total : allows_transport positive_total.
Proof. repeat split. Qed.

Lemma emits_query_leaderboard_chain id chain :
  emits positive_total any_request (Fresh.query_leaderboard_chain id chain).
Proof.
  unfold Fresh.query_leaderboard_chain, Fresh.request.
  pose proof allows_positive_total.
  emits; try exact I; cbn; auto with emits.
Qed.

Lemma emits_check_leaderboard_scores :
  emits positive_total any_request Fresh.check_leaderboard_scores.
Proof.
  unfold Fresh.check_leaderboard_scores, Fresh.request.
  pose proof allows_positive_total.
  pose proof emits_query_leaderboard_chain.
  pose proof streaming_verdict_positive.
  emits; try exact I; cbn; auto with emits.
Qed.

(** One tournament's turn in the score check, in terms of the reply of
    its chain. *)
Lemma score_step_eq lb (s : state Fresh.tester) :
  score_step tt lb s =
  (match chain_listing (next_response s) with
   | Ok _ => Ok tt
   | Raise e => Raise e
   end,
   after_request (chain_request (self s) lb)
                 (chain_lines lb (next_response s)) s).
Proof.
  unfold score_step, Fresh.query_leaderboard_chain, Fresh.request.
  unfold bind at 1. unfold bind at 1. cbn [get_self].
  unfold bind at 1. rewrite make_graphql_request_eq.
  unfold chain_listing, chain_lines, chain_listing, chain_request.
  destruct (decode true (next_response s)) as [result|e];
    [|cbn; now rewrite app_nil_r].
  rewrite bind_data_member.
  destruct (member_outcome "leaderboards" d_leaderboards result)
    as [[lbs|]|e]; cbn [ret fst snd];
    [destruct (Fresh.pick_leaderboard (lb_leaderboardId lb) lbs)| |];
    unfold log, io_log, after_request, bind, ret;
    cbn [self world net sent slept now_us disk_ok written out fst snd];
    rewrite <- ?app_assoc, ?app_nil_r; reflexivity.
Qed.

Lemma score_loop_eq (own : list leaderboard) :
  forall (s : state Fresh.tester),
  let service := net (world s) in
  let base := List.length (sent (world s)) in
  for_fold own tt score_step s =
  (score_outcome service base own,
   mkState (self s)
     (mkIo (net (world s))
           (sent (world s) ++
            map (chain_request (self s))
                (firstn (chains_asked service base own) own))
           (slept (world s)) (now_us (world s)) (disk_ok (world s))
           (written (world s))
           (out (world s) ++ score_lines service base own))).
Proof.
  induction own as [|lb rest IH]; intros s; cbv zeta;
    cbn [for_fold score_outcome chains_asked score_lines firstn map].
  - cbn. now rewrite !app_nil_r, io_eta, state_eta.
  - unfold bind. rewrite score_step_eq. unfold next_response.
    destruct (chain_listing (net (world s) (List.length (sent (world s)))))
      as [x|e].
    + destruct x as [lbs|]; rewrite IH; cbv zeta;
        rewrite after_request_length; unfold after_request;
        cbn [self world net sent slept now_us disk_ok written out];
        rewrite <- !app_assoc; reflexivity.
    + unfold after_request. cbn [firstn map]. now rewrite app_nil_r.
Qed.

(** check_leaderboard_scores, in terms of the main chain's reply. *)
Lemma check_leaderboard_scores_eq (s : state Fresh.tester) :
  Fresh.check_leaderboard_scores s =
  let s0 := after_request (list_request (self s))
                          (transport_events true (next_response s)) s in
  match chain_listing (next_response s) with
  | Ok (Some all) =>
      match filter (hosted_with_id (Fresh.username (self s))) all with
      | [] => log EvNoTournamentsForUser s0
      | lb :: rest => for_fold (lb :: rest) tt score_step s0
      end
  | Ok None => log EvLeaderboardListFailed s0
  | Raise e => (Raise e, s0)
  end.
Proof.
  cbv zeta. unfold Fresh.check_leaderboard_scores, Fresh.request.
  unfold bind at 1. cbn [get_self].
  unfold bind at 1. rewrite make_graphql_request_eq.
  unfold chain_listing, list_request.
  destruct (decode true (next_response s)) as [result|e]; [|reflexivity].
  rewrite bind_data_member.
  destruct (member_outcome "leaderboards" d_leaderboards result)
    as [[all|]|e]; try reflexivity.
  unfold hosted_with_id.
  destruct (filter _ all); reflexivity.
Qed.

(** A reply from which the list of leaderboards is read is a JSON object
    with a success status, no errors, and the list under its data. *)
Lemma chain_listing_some resp lbs :
  chain_listing resp = Ok (Some lbs) ->
  exists status d,
    resp = Http status (Some (mkEnvelope None (Some (DObject d)))) /\
    is_error_status status = false /\ d_leaderboards d = Some lbs.
Proof.
  unfold chain_listing, member_outcome.
  destruct (decode true resp) as [result|e] eqn:Hdec; [|discriminate].
  destruct (has_data result); [|discriminate].
  destruct (data_outcome result) as [[|str|d]|e] eqn:Hdo; try discriminate.
  - destruct (Py.contains "leaderboards" str); discriminate.
  - intros H. inversion H as [Hl].
    rewrite (shown_data _ _ _ Hdec Hdo) in Hdec.
    apply decode_some in Hdec. destruct Hdec as [status [-> Hst]].
    exists status, d. auto.
Qed.

Lemma chain_listing_listed status d :
  is_error_status status = false ->
  chain_listing (Http status (Some (mkEnvelope None (Some (DObject d))))) =
    Ok (d_leaderboards d) /\
  transport_events true
    (Http status (Some (mkEnvelope None (Some (DObject d))))) = [].
Proof.
  intros Hst. unfold chain_listing. cbn. rewrite Hst. split; reflexivity.
Qed.

(** The transport prints no verdict of the score check. *)
Lemma transport_prints_no_verdict show resp name total :
  ~ In (EvStreamingSuccessful name total) (transport_events show resp).
Proof.
  destruct resp
    as [|msg|status [[[[|[m|] errs]|] d|v d| |str|items]|]|status a];
    destruct show; cbn -[Py.contains among];
    repeat match goal with
           | |- context [if ?b then _ else _] => destruct b
           end;
    cbn; intros H; repeat (destruct H as [H|H]; try discriminate); exact H.
Qed.

(** As long as the chains' replies can be read, every leaderboard of the
    tester gets its turn: its chain is asked and its lines are printed. *)
Lemma score_lines_reach service (own : list leaderboard) :
  forall base i lb,
  nth_error own i = Some lb ->
  (forall j, (j < i)%nat ->
     exists x, chain_listing (service (base + j)%nat) = Ok x) ->
  (i < chains_asked service base own)%nat /\
  incl (chain_lines lb (service (base + i)%nat))
       (score_lines service base own).
Proof.
  induction own as [|lb0 rest IH]; intros base i lb Hi Hok;
    [destruct i; discriminate|].
  cbn [chains_asked score_lines]. destruct i as [|i]; cbn in Hi.
  - inversion Hi; subst. rewrite Nat.add_0_r. split; [lia|].
    intros ev Hev. apply in_or_app. now left.
  - destruct (Hok O ltac:(lia)) as [x Hx]. rewrite Nat.add_0_r in Hx.
    rewrite Hx.
    destruct (IH (S base) i lb Hi) as [Hk Hincl].
    { intros j Hj. destruct (Hok (S j) ltac:(lia)) as [y Hy].
      exists y. now rewrite Nat.add_succ_r in Hy. }
    rewrite Nat.add_succ_r. split; [lia|].
    intros ev Hev. apply in_or_app. right. now apply Hincl.
Qed.

(** A success line among those of the loop stems from one leaderboard of
    the tester and from the total of the entry picked from its chain's
    reply. *)
Lemma score_lines_success service (own : list leaderboard) name total :
  forall base,
  In (EvStreamingSuccessful name total) (score_lines service base own) ->
  0 < total /\
  exists i lb st dd lbs details,
    nth_error own i = Some lb /\ lb_name lb = name /\
    service (base + i)%nat =
      Http st (Some (mkEnvelope None (Some (DObject dd)))) /\
    is_error_status st = false /\
    d_leaderboards dd = Some lbs /\
    Fresh.pick_leaderboard (lb_leaderboardId lb) lbs = Some details /\
    lb_totalBoards details = total.
Proof.
  induction own as [|lb rest IH]; intros base Hin; [destruct Hin|].
  cbn [score_lines] in Hin. apply in_app_or in Hin.
  destruct Hin as [Hin|Hin].
  - unfold chain_lines in Hin. apply in_app_or in Hin.
    destruct Hin as [Hin|Hin];
      [now apply transport_prints_no_verdict in Hin|].
    destruct (chain_listing (service base)) as [[lbs|]|e] eqn:Hl;
      [| destruct Hin as [Hin|[Hin|[]]]; discriminate | destruct Hin].
    destruct Hin as [Hin|[]].
    destruct (Fresh.pick_leaderboard (lb_leaderboardId lb) lbs)
      as [details|] eqn:Hp; [|discriminate].
    unfold Fresh.streaming_verdict in Hin.
    destruct (Z.ltb_spec 0 (lb_totalBoards details)); [|discriminate].
    inversion Hin; subst.
    split; [assumption|].
    apply chain_listing_some in Hl. destruct Hl as [st [dd [Hr [Hst Hd]]]].
    exists O, lb, st, dd, lbs, details. rewrite Nat.add_0_r. auto 8.
  - destruct (chain_listing (service base)) as [x|e]; [|destruct Hin].
    destruct (IH (S base) Hin)
      as [Hpos [i [lb' [st [dd [lbs [details H]]]]]]].
    split; [exact Hpos|].
    exists (S i), lb', st, dd, lbs, details. now rewrite Nat.add_succ_r.
Qed.

Lemma nth_error_asked {X Y} (f : X -> Y) (l : list X) k i x :
  nth_error l i = Some x -> (i < k)%nat ->
  nth_error (map f (firstn k l)) i = Some (f x).
Proof.
  revert k i. induction l as [|a l IH]; intros k i Hx Hk;
    [destruct i; discriminate|].
  destruct k as [|k]; [lia|]. destruct i as [|i]; cbn in *.
  - now inversion Hx.
  - apply IH; [exact Hx | lia].
Qed.

(** The score check, once the main chain has listed the leaderboards. *)
Lemma check_leaderboard_scores_listed (s : state Fresh.tester) status d all :
  next_response s = Http status (Some (mkEnvelope None (Some (DObject d)))) ->
  is_error_status status = false ->
  d_leaderboards d = Some all ->
  let own := filter (hosted_with_id (Fresh.username (self s))) all in
  let service := net (world s) in
  let base := S (List.length (sent (world s))) in
  sent (world (snd (Fresh.check_leaderboard_scores s))) =
    sent (world s) ++
    list_request (self s) ::
    map (chain_request (self s)) (firstn (chains_asked service base own) own) /\
  (own <> [] ->
   out (world (snd (Fresh.check_leaderboard_scores s))) =
     out (world s) ++ score_lines service base own) /\
  (own = [] ->
   out (world (snd (Fresh.check_leaderboard_scores s))) =
     out (world s) ++ [EvNoTournamentsForUser]).
Proof.
  intros Hresp Hst Hall. cbv zeta.
  rewrite check_leaderboard_scores_eq. cbv zeta. rewrite Hresp.
  destruct (chain_listing_listed status d Hst) as [-> ->]. rewrite Hall.
  destruct (filter _ all) as [|lb rest] eqn:Hown.
  - cbn. rewrite !app_nil_r. split; [reflexivity|].
    split; [congruence | reflexivity].
  - rewrite score_loop_eq. cbv zeta. rewrite after_request_length.
    unfold after_request.
    cbn [snd self world net sent slept now_us disk_ok written out].
    rewrite <- ?app_assoc, ?app_nil_r. cbn [app]. split; [reflexivity|].
    split; [reflexivity | discriminate].
Qed.

(** Neither request of create_board is the score check's list query. *)
Lemma create_board_asks_no_list tid ts :
  emits any_event not_list_request (Fresh.create_board tid ts).
Proof.
  unfold Fresh.create_board, Fresh.request.
  emits; try exact I; auto with emits; unfold not_list_request; cbn;
    discriminate.
Qed.

(** The streaming step reaches the score check only past a board. *)
Lemma streaming_step_checks_after_board id (s : state Fresh.tester) :
  In (list_request (self s)) (new_requests (Fresh.streaming_step id) s) ->
  exists b,
    fst (Fresh.create_board id Fresh.default_board_timestamp s) =
      Ok (Some b) /\
    Py.truthy b = true.
Proof.
  intros Hin.
  destruct (create_board_asks_no_list id Fresh.default_board_timestamp s)
    as [rs [es [Hs [_ [HQ _]]]]].
  assert (Hstop :
    (forall b, fst (Fresh.create_board id Fresh.default_board_timestamp s) =
               Ok (Some b) -> Py.truthy b = false) ->
    sent (world (snd (Fresh.streaming_step id s))) = sent (world s) ++ rs).
  { intros Hb. unfold Fresh.streaming_step, try_except. unfold bind at 1.
    destruct (Fresh.create_board id Fresh.default_board_timestamp s)
      as [[[b|]|e] s1]; cbn [fst snd] in *; try exact Hs.
    rewrite (Hb b eq_refl). exact Hs. }
  destruct (Fresh.create_board id Fresh.default_board_timestamp s)
    as [[[b|]|e] s1] eqn:Hcb; cbn [fst snd] in *.
  - destruct (Py.truthy b) eqn:Hb; [eauto|].
    exfalso. rewrite (new_requests_eq _ _ rs) in Hin.
    + rewrite Forall_forall in HQ. apply (HQ _ Hin). reflexivity.
    + apply Hstop. intros b0 H0. now inversion H0; subst.
  - exfalso. rewrite (new_requests_eq _ _ rs) in Hin.
    + rewrite Forall_forall in HQ. apply (HQ _ Hin). reflexivity.
    + apply Hstop. discriminate.
  - exfalso. rewrite (new_requests_eq _ _ rs) in Hin.
    + rewrite Forall_forall in HQ. apply (HQ _ Hin). reflexivity.
    + apply Hstop. discriminate.
Qed.

(** C5 as stated fails: a tournament whose leaderboard chain reports five
    boards passes the check (a jump of five from a baseline of zero, which
    the exactly-one rule rejects); the check reads no baseline at all. *)
Lemma any_positive_total_counts_as_streamed :
  new_events Fresh.check_leaderboard_scores (demo_tester five_boards_service) =
    [EvStreamingSuccessful "active_tournament" 5] /\
  Fresh.streaming_verdict "active_tournament" 5 =
    EvStreamingSuccessful "active_tournament" 5 /\
  SpecModel.spec_converged 0 5 = false /\
  SpecModel.spec_converged 5 5 = false /\
  ~ (forall name baseline total_boards,
        0 <= baseline ->
        Fresh.streaming_verdict name total_boards =
          EvStreamingSuccessful name total_boards ->
        SpecModel.spec_converged baseline total_boards = true).
Proof.
  repeat split.
  intros H. specialize (H "active_tournament" 0 5).
  discriminate H; [lia | reflexivity].
Qed.

(** C5, amended. check_leaderboard_scores, which the validation run
    reaches only after create_board has returned a board for the active
    tournament, reads no pre-mutation baseline.  Once the main chain has
    listed the leaderboards, it asks the chain of each leaderboard of the
    tester in turn, as long as the replies can be read, and decides on the
    totalBoards of the entry picked from that chain's reply alone: it
    prints "streaming successful" for the tournament when that total is
    greater than zero and the no-boards warning when it is not, so that an
    increase by exactly one from a non-negative baseline passes, as does
    any other positive total.  Conversely every "streaming successful"
    line it prints bears the name of a leaderboard of the tester and the
    positive total of the entry picked from that leaderboard's chain. *)
Theorem streaming_check_requires_positive_total
        (s : state Fresh.tester) (status : Z) (d : data_obj)
        (all : list leaderboard) :
  next_response s = Http status (Some (mkEnvelope None (Some (DObject d)))) ->
  is_error_status status = false ->
  d_leaderboards d = Some all ->
  let call := Fresh.check_leaderboard_scores in
  let own := filter (fun lb => Py.truthy (lb_leaderboardId lb) &&
                               String.eqb (lb_host lb)
                                          (Fresh.username (self s))) all in
  let reply := fun i : nat =>
    net (world s) (S (List.length (sent (world s))) + i)%nat in
  (forall i lb st dd lbs details,
     nth_error own i = Some lb ->
     (forall j, (j < i)%nat -> exists x, chain_listing (reply j) = Ok x) ->
     reply i = Http st (Some (mkEnvelope None (Some (DObject dd)))) ->
     is_error_status st = false ->
     d_leaderboards dd = Some lbs ->
     Fresh.pick_leaderboard (lb_leaderboardId lb) lbs = Some details ->
     nth_error (new_requests call s) (S i) =
       Some (chain_request (self s) lb) /\
     (0 < lb_totalBoards details ->
      In (EvStreamingSuccessful (lb_name lb) (lb_totalBoards details))
         (new_events call s)) /\
     (lb_totalBoards details <= 0 ->
      In (EvNoBoardsRegistered (lb_name lb)) (new_events call s)) /\
     (forall baseline,
        0 <= baseline ->
        SpecModel.spec_converged baseline (lb_totalBoards details) = true ->
        In (EvStreamingSuccessful (lb_name lb) (lb_totalBoards details))
           (new_events call s))) /\
  (forall name total,
     In (EvStreamingSuccessful name total) (new_events call s) ->
     0 < total /\
     exists i lb st dd lbs details,
       nth_error own i = Some lb /\ lb_name lb = name /\
       reply i = Http st (Some (mkEnvelope None (Some (DObject dd)))) /\
       is_error_status st = false /\
       d_leaderboards dd = Some lbs /\
       Fresh.pick_leaderboard (lb_leaderboardId lb) lbs = Some details /\
       lb_totalBoards details = total) /\
  (forall id (s' : state Fresh.tester),
     In (list_request (self s'))
        (new_requests (Fresh.streaming_step id) s') ->
     exists b,
       fst (Fresh.create_board id Fresh.default_board_timestamp s') =
         Ok (Some b) /\
       Py.truthy b = true).
Proof.
  intros Hresp Hst Hall. cbv zeta.
  pose proof (check_leaderboard_scores_listed s status d all Hresp Hst Hall)
    as H.
  cbv zeta in H. unfold hosted_with_id in H.
  set (own := filter (fun lb => Py.truthy (lb_leaderboardId lb) &&
                                String.eqb (lb_host lb)
                                           (Fresh.username (self s))) all)
    in *.
  destruct H as [Hsent [Hlines Hnone]].
  apply new_requests_eq in Hsent.
  assert (Hfound : forall i lb st dd lbs details,
     nth_error own i = Some lb ->
     (forall j, (j < i)%nat ->
        exists x, chain_listing
                    (net (world s)
                         (S (List.length (sent (world s))) + j)%nat) = Ok x) ->
     net (world s) (S (List.length (sent (world s))) + i)%nat =
       Http st (Some (mkEnvelope None (Some (DObject dd)))) ->
     is_error_status st = false ->
     d_leaderboards dd = Some lbs ->
     Fresh.pick_leaderboard (lb_leaderboardId lb) lbs = Some details ->
     nth_error (new_requests Fresh.check_leaderboard_scores s) (S i) =
       Some (chain_request (self s) lb) /\
     In (Fresh.streaming_verdict (lb_name lb) (lb_totalBoards details))
        (new_events Fresh.check_leaderboard_scores s)).
  { intros i lb st dd lbs details Hi Hok Hr Hs Hd Hp.
    destruct (score_lines_reach (net (world s)) own
                (S (List.length (sent (world s)))) i lb Hi Hok)
      as [Hk Hincl].
    split.
    - rewrite Hsent. cbn [nth_error]. now apply nth_error_asked.
    - assert (Hne : own <> []) by (destruct own; [destruct i|]; discriminate).
      rewrite (new_events_eq _ _ _ (Hlines Hne)).
      apply Hincl. unfold chain_lines. rewrite Hr.
      destruct (chain_listing_listed st dd Hs) as [-> ->]. rewrite Hd, Hp.
      now left. }
  split; [|split].
  - intros i lb st dd lbs details Hi Hok Hr Hs Hd Hp.
    destruct (Hfound i lb st dd lbs details Hi Hok Hr Hs Hd Hp)
      as [Hreq Hev].
    unfold Fresh.streaming_verdict in Hev.
    split; [exact Hreq|].
    destruct (Z.ltb_spec 0 (lb_totalBoards details)) as [Hpos|Hneg].
    + split; [auto|]. split; [lia | auto].
    + split; [lia|]. split; [auto|].
      intros baseline Hb Hc. unfold SpecModel.spec_converged in Hc.
      apply Z.eqb_eq in Hc. lia.
  - intros name total Hin.
    destruct own as [|lb0 rest] eqn:Hown.
    + rewrite (new_events_eq _ _ _ (Hnone eq_refl)) in Hin.
      destruct Hin as [Hin|[]]. discriminate.
    + rewrite (new_events_eq _ _ _ (Hlines ltac:(discriminate))) in Hin.
      apply score_lines_success in Hin. exact Hin.
  - apply streaming_step_checks_after_board.
Qed.

Lemma streaming_check_requires_positive_total_witness :
  nth_error (new_requests Fresh.check_leaderboard_scores
                          (demo_tester five_boards_service)) 1 =
    Some (chain_request (self (demo_tester five_boards_service))
                        (active_with_boards 5)) /\
  In (EvStreamingSuccessful "active_tournament" 5)
     (new_events Fresh.check_leaderboard_scores
                 (demo_tester five_boards_service)).
Proof.
  destruct (proj1 (streaming_check_requires_positive_total
                     (demo_tester five_boards_service) 200
                     (mkData None None None None
                             (Some [active_with_boards 5]) None None)
                     [active_with_boards 5] eq_refl eq_refl eq_refl)
                  O (active_with_boards 5) 200
                  (mkData None None None None
                          (Some [active_with_boards 5]) None None)
                  [active_with_boards 5] (active_with_boards 5)
                  eq_refl
                  (fun j (H : (j < 0)%nat) =>
                     match Nat.nlt_0_r j H with end)
                  eq_refl eq_refl eq_refl eq_refl)
    as [Hreq [Hpos _]].
  split; [exact Hreq|]. apply Hpos. reflexivity.
Defined.

(** ** The Convergence Poller of the specification (C6) *)

Section Poller.
Context {State : Type} (predicate : State -> bool) (fetch : nat -> State).
Context (maxWait interval : Z).

(** More fuel does not change a result. *)
Lemma pollUntil_from_more_fuel fuel : forall extra n elapsed r,
  SpecModel.pollUntil_from fuel predicate fetch maxWait interval n elapsed
    = Some r ->
  SpecModel.pollUntil_from (fuel + extra) predicate fetch maxWait interval
                           n elapsed = Some r.
Proof.
  induction fuel as [|fuel IH]; intros extra n elapsed r H; [discriminate|].
  cbn [SpecModel.pollUntil_from Nat.add] in *.
  destruct (predicate (fetch n)); [exact H|].
  destruct (maxWait <? elapsed + interval); [exact H|].
  now apply IH.
Qed.

Hypothesis never_true : forall n, predicate (fetch n) = false.

(** With the deadline not yet passed and fuel for the sleeps that still
    fit before it, the poll ends in [DeadlineExceeded]. *)
Lemma pollUntil_from_deadline fuel : forall n elapsed,
  elapsed <= maxWait ->
  maxWait - elapsed < Z.of_nat fuel * interval ->
  exists r,
    SpecModel.pollUntil_from fuel predicate fetch maxWait interval n elapsed
      = Some r /\
    (n < SpecModel.evaluations r)%nat /\
    SpecModel.outcome_of r =
      SpecModel.DeadlineExceeded (fetch (pred (SpecModel.evaluations r))) /\
    maxWait < SpecModel.elapsed_at_return r <= maxWait + interval /\
    SpecModel.elapsed_at_return r - elapsed =
      Z.of_nat (SpecModel.evaluations r - n) * interval.
Proof.
  induction fuel as [|fuel IH]; intros n elapsed Hle Hfuel; [cbn in Hfuel; lia|].
  cbn [SpecModel.pollUntil_from]. rewrite never_true.
  destruct (Z.ltb_spec maxWait (elapsed + interval)) as [Hover|Hunder].
  - eexists. split; [reflexivity|].
    cbn [SpecModel.outcome_of SpecModel.evaluations
         SpecModel.elapsed_at_return pred].
    replace (S n - n)%nat with 1%nat by lia.
    repeat split; lia.
  - destruct (IH (S n) (elapsed + interval)) as [r [Hr [Hn [Ho [Hb He]]]]];
      [lia | lia |].
    exists r. split; [exact Hr|].
    replace (SpecModel.evaluations r - n)%nat
      with (S (SpecModel.evaluations r - S n))%nat by lia.
    repeat split; try lia; try exact Ho.
Qed.

End Poller.

(** C6. The Convergence Poller as the specification describes it, polling
    with a positive interval and a non-negative maxWait a predicate that
    never becomes true: given enough fuel (and the same for any larger
    amount) it returns a result, the result is DeadlineExceeded carrying
    the state of the last fetch, never Converged; it returns after at
    least one failed predicate evaluation, having slept once per
    evaluation, at an elapsed time beyond maxWait and no later than
    maxWait + interval. *)
Theorem pollUntil_deadline_exceeded
        {State : Type} (predicate : State -> bool) (fetch : nat -> State)
        (maxWait interval : Z) :
  0 < interval -> 0 <= maxWait ->
  (forall n, predicate (fetch n) = false) ->
  exists fuel r,
    (forall extra,
        SpecModel.pollUntil (fuel + extra) predicate fetch maxWait interval
          = Some r) /\
    (1 <= SpecModel.evaluations r)%nat /\
    SpecModel.outcome_of r =
      SpecModel.DeadlineExceeded (fetch (pred (SpecModel.evaluations r))) /\
    (forall s, SpecModel.outcome_of r <> SpecModel.Converged s) /\
    maxWait < SpecModel.elapsed_at_return r <= maxWait + interval /\
    SpecModel.elapsed_at_return r =
      Z.of_nat (SpecModel.evaluations r) * interval.
Proof.
  intros Hint Hmax Hnever.
  set (fuel := S (Z.to_nat (maxWait / interval))).
  assert (Hfuel : maxWait - 0 < Z.of_nat fuel * interval).
  { unfold fuel. rewrite Nat2Z.inj_succ, Z2Nat.id
      by (apply Z.div_pos; lia).
    pose proof (Z.mul_succ_div_gt maxWait interval Hint). lia. }
  destruct (pollUntil_from_deadline predicate fetch maxWait interval
              Hnever fuel 0%nat 0 Hmax Hfuel)
    as [r [Hr [Hn [Ho [Hb He]]]]].
  exists fuel, r. split; [|split; [lia|split; [exact Ho|split; [|split]]]].
  - intros extra. unfold SpecModel.pollUntil.
    now apply pollUntil_from_more_fuel.
  - intros s. rewrite Ho. discriminate.
  - exact Hb.
  - rewrite Nat.sub_0_r in He. lia.
Qed.

Lemma pollUntil_deadline_exceeded_witness :
  exists fuel r,
    (forall extra,
        SpecModel.pollUntil (fuel + extra) never counting_fetch 10 3 = Some r) /\
    (1 <= SpecModel.evaluations r)%nat /\
    SpecModel.outcome_of r =
      SpecModel.DeadlineExceeded
        (counting_fetch (pred (SpecModel.evaluations r))) /\
    (forall s, SpecModel.outcome_of r <> SpecModel.Converged s) /\
    10 < SpecModel.elapsed_at_return r <= 10 + 3 /\
    SpecModel.elapsed_at_return r = Z.of_nat (SpecModel.evaluations r) * 3.
Proof.
  apply (pollUntil_deadline_exceeded never counting_fetch 10 3).
  - lia.
  - lia.
  - reflexivity.
Defined.

Example pollUntil_run :
  SpecModel.pollUntil 5 never counting_fetch 10 3 =
  Some (SpecModel.mkReport (SpecModel.DeadlineExceeded 3%nat) 12 4).
Proof. reflexivity. Qed.

(** ** Board creation (C7) *)

Lemma next_response_after {Self} (s s' : state Self) r :
  net (world s') = net (world s) ->
  sent (world s') = sent (world s) ++ [r] ->
  next_response s' = second_response s.
Proof.
  intros Hn Hs. unfold next_response, second_response.
  rewrite Hn, Hs, length_app. cbn. f_equal. lia.
Qed.

(** create_board of test_tournaments_fresh.py, outcome by outcome. *)
Lemma fresh_create_board_cases tid ts (s : state Fresh.tester) :
  let r := Fresh.create_board tid ts s in
  match Fresh.player_chain_id (self s) with
  | Some chain =>
      if Py.truthy chain then
        match decode true (next_response s) with
        | Ok result =>
            if has_data result then
              sent (world (snd r)) =
                sent (world s) ++ [new_board_request (self s) chain tid ts;
                                   boards_query_request (self s) chain] /\
              match decode true (second_response s) with
              | Ok boards_result =>
                  match member_outcome "boards" d_boards boards_result with
                  | Ok (Some bs) =>
                      fst r = Ok (option_map bd_boardId
                                    (Fresh.find_board
                                       (Fresh.username (self s)) tid bs))
                  | Ok None => fst r = Ok None
                  | Raise e => fst r = Raise e
                  end
              | Raise e => fst r = Raise e
              end
            else
              fst r = Ok None /\
              sent (world (snd r)) =
                sent (world s) ++ [new_board_request (self s) chain tid ts]
        | Raise e =>
            fst r = Raise e /\
            sent (world (snd r)) =
              sent (world s) ++ [new_board_request (self s) chain tid ts]
        end
      else fst r = Ok None /\ sent (world (snd r)) = sent (world s)
  | None => fst r = Ok None /\ sent (world (snd r)) = sent (world s)
  end.
Proof.
  cbv zeta.
  remember (Fresh.create_board tid ts s) as r eqn:Hr.
  unfold Fresh.create_board, Fresh.request in Hr.
  unfold bind at 1 in Hr. cbn [get_self] in Hr.
  destruct (Fresh.player_chain_id (self s)) as [chain|] eqn:Hc;
    cbn [Py.truthy_opt] in Hr; [|subst r; cbn; auto].
  destruct (Py.truthy chain) eqn:Ht; cbn [negb] in Hr; [|subst r; cbn; auto].
  unfold bind at 1 in Hr. rewrite make_graphql_request_eq in Hr.
  destruct (decode true (next_response s)) as [result|e];
    [|subst r; cbn; auto].
  destruct (has_data result); [|subst r; cbn; auto].
  unfold bind at 1 in Hr. cbn [log] in Hr.
  unfold bind at 1 in Hr. cbn [sleep] in Hr.
  unfold bind at 1 in Hr. rewrite make_graphql_request_eq in Hr.
  match type of Hr with
  | context [decode true (next_response ?x)] =>
      rewrite (next_response_after s x
                 (new_board_request (self s) chain tid ts)) in Hr
        by reflexivity
  end.
  assert (Hsent : sent (world (snd r)) =
            sent (world s) ++ [new_board_request (self s) chain tid ts;
                               boards_query_request (self s) chain]).
  { subst r.
    destruct (decode true (second_response s)) as [boards_result|e]; cbn;
      [|rewrite <- app_assoc; reflexivity].
    rewrite bind_data_member.
    destruct (member_outcome "boards" d_boards boards_result) as [[bs|]|e];
      cbn;
      try destruct (Fresh.find_board (Fresh.username (self s)) tid bs); cbn;
      rewrite <- app_assoc; reflexivity. }
  split; [exact Hsent|]. clear Hsent.
  subst r.
  destruct (decode true (second_response s)) as [boards_result|e]; cbn;
    [|reflexivity].
  rewrite !bind_data_member.
  destruct (member_outcome "boards" d_boards boards_result) as [[bs|]|e];
    cbn; try reflexivity.
  destruct (Fresh.find_board (Fresh.username (self s)) tid bs);
    reflexivity.
Qed.

Lemma find_board_some user tid bs b :
  Fresh.find_board user tid bs = Some b ->
  In b bs /\ bd_player b = user /\ bd_leaderboardId b = tid.
Proof.
  intros H. apply find_some in H. destruct H as [Hin Hb].
  apply andb_true_iff in Hb. destruct Hb as [Hp Hl].
  apply String.eqb_eq in Hp, Hl. auto.
Qed.

(** A board id comes back only from a board found by the follow-up query. *)
Lemma fresh_create_board_confirmed tid ts (s : state Fresh.tester) board_id :
  fst (Fresh.create_board tid ts s) = Ok (Some board_id) ->
  exists chain errs d bs b,
    Fresh.player_chain_id (self s) = Some chain /\
    new_requests (Fresh.create_board tid ts) s =
      [new_board_request (self s) chain tid ts;
       boards_query_request (self s) chain] /\
    decode true (second_response s) =
      Ok (Some (mkEnvelope errs (Some (DObject d)))) /\
    d_boards d = Some bs /\
    In b bs /\
    bd_player b = Fresh.username (self s) /\
    bd_leaderboardId b = tid /\
    bd_boardId b = board_id.
Proof.
  intros H. pose proof (fresh_create_board_cases tid ts s) as C.
  cbv zeta in C.
  destruct (Fresh.player_chain_id (self s)) as [chain|];
    [|destruct C as [E _]; rewrite E in H; discriminate].
  destruct (Py.truthy chain);
    [|destruct C as [E _]; rewrite E in H; discriminate].
  destruct (decode true (next_response s)) as [result|e];
    [|destruct C as [E _]; rewrite E in H; discriminate].
  destruct (has_data result);
    [|destruct C as [E _]; rewrite E in H; discriminate].
  destruct C as [Hsent C].
  destruct (decode true (second_response s)) as [boards_result|e] eqn:Hdec;
    [|rewrite C in H; discriminate].
  destruct (member_outcome "boards" d_boards boards_result) as [[bs|]|e]
    eqn:Hm; try (rewrite C in H; discriminate).
  rewrite C in H.
  destruct (Fresh.find_board (Fresh.username (self s)) tid bs) as [b|] eqn:Hb;
    [|discriminate].
  cbn in H. inversion H; subst.
  destruct (find_board_some _ _ _ _ Hb) as [Hin [Hp Hl]].
  destruct (member_outcome_found _ _ _ _ Hm) as [e [d [-> [Hbs He]]]].
  pose proof (decode_shown_quiet _ _ Hdec) as Hq.
  destruct He as [->|He]; [|congruence].
  exists chain, None, d, bs, b.
  repeat split; auto. now apply new_requests_eq.
Qed.

(** What the mutation returned plays no part: two runs that differ only in
    the accepted mutation's reply end alike. *)
Lemma fresh_create_board_ignores_mutation tid ts (s s' : state Fresh.tester) :
  self s' = self s ->
  second_response s' = second_response s ->
  (exists r r', decode true (next_response s) = Ok r /\
                decode true (next_response s') = Ok r' /\
                has_data r = true /\ has_data r' = true) ->
  fst (Fresh.create_board tid ts s') = fst (Fresh.create_board tid ts s).
Proof.
  intros Hself Hsecond [r [r' [Hr [Hr' [Hd Hd']]]]].
  pose proof (fresh_create_board_cases tid ts s) as C.
  pose proof (fresh_create_board_cases tid ts s') as C'.
  cbv zeta in C, C'.
  rewrite Hself, Hsecond, Hr', Hd' in C'. rewrite Hr, Hd in C.
  destruct (Fresh.player_chain_id (self s)) as [chain|];
    [|destruct C as [E _], C' as [E' _]; congruence].
  destruct (Py.truthy chain);
    [|destruct C as [E _], C' as [E' _]; congruence].
  destruct C as [_ C], C' as [_ C'].
  destruct (decode true (second_response s)) as [boards_result|e];
    [|congruence].
  destruct (member_outcome "boards" d_boards boards_result) as [[bs|]|e];
    congruence.
Qed.

Lemma legacy_request_eq url op (s : state Legacy.tester) :
  exists evs,
    Legacy.make_graphql_request url op s =
    (legacy_outcome (next_response s),
     after_request (mkRequest url op 10) evs s).
Proof.
  unfold Legacy.make_graphql_request, bind, post, io_send, next_response,
    legacy_outcome, legacy_raises, legacy_decode, after_request.
  destruct (net (world s) (List.length (sent (world s))))
    as [|msg|status [[[errs|] d|v d| |str|items]|]|status a];
    cbn -[Py.contains];
    try destruct (is_error_status status); cbn -[Py.contains];
    try destruct (Py.contains "errors" str);
    try destruct (among "errors" items); cbn;
    try (eexists [_]; reflexivity);
    exists []; now rewrite app_nil_r.
Qed.

(** A result test_tournaments.py's transport hands back has data exactly
    when the response is one it accepts. *)
Lemma legacy_decode_has_data resp :
  has_data (legacy_decode resp) = legacy_accepts resp.
Proof.
  unfold legacy_decode, legacy_accepts.
  destruct resp as [|msg|status [e|]|status a]; try reflexivity.
  destruct (mentions_errors e); [reflexivity|].
  destruct (is_error_status status); cbn [negb andb];
    [now rewrite andb_false_r | now rewrite andb_true_r].
Qed.

(** create_board of test_tournaments.py: one request, and the result is
    whether its reply has data, unless the transport raises. *)
Lemma legacy_create_board_spec tid ts (s : state Legacy.tester) chain :
  Legacy.player_chain_id (self s) = Some chain ->
  Py.truthy chain = true ->
  fst (Legacy.create_board tid ts s) =
    match legacy_raises (next_response s) with
    | Some e => Raise e
    | None => Ok (legacy_accepts (next_response s))
    end /\
  new_requests (Legacy.create_board tid ts) s =
    [legacy_board_request (self s) chain tid ts].
Proof.
  intros Hc Ht.
  remember (Legacy.create_board tid ts s) as r eqn:Hr.
  assert (H : fst r = match legacy_raises (next_response s) with
                      | Some e => Raise e
                      | None => Ok (legacy_accepts (next_response s))
                      end /\
              sent (world (snd r)) =
                sent (world s) ++ [legacy_board_request (self s) chain tid ts]).
  { unfold Legacy.create_board in Hr.
    unfold bind at 1 in Hr. cbn [get_self] in Hr.
    rewrite Hc in Hr. cbn [Py.truthy_opt] in Hr.
    rewrite Ht in Hr. cbn [negb] in Hr.
    unfold bind at 1 in Hr.
    destruct (legacy_request_eq
                (endpoint (Legacy.base_url (self s)) chain
                          (Legacy.app_id (self s)))
                (OpNewBoard "hello" "hello" ts tid) s) as [evs E].
    rewrite E in Hr. unfold legacy_outcome in Hr.
    rewrite <- legacy_decode_has_data.
    destruct (legacy_raises (next_response s)) as [e|];
      [subst r; cbn; auto|].
    destruct (has_data (legacy_decode (next_response s)));
      subst r; cbn; auto. }
  destruct H as [Hf Hs]. split; [exact Hf|].
  subst r. now apply new_requests_eq.
Qed.




(** ** Board creation against the expired tournament (C2) *)

(** Rejections and transport failures alike decode to [None]. *)
Lemma decode_collapses resp :
  is_service_rejection resp = true \/ is_transport_failure resp = true ->
  decode true resp = Ok None.
Proof.
  destruct resp
    as [|msg|status [[[[|err errs]|] d|v d| |str|items]|]|status a];
    cbn -[Py.contains atom_truthy among];
    intros [H|H]; try discriminate; try reflexivity;
    try (apply andb_true_iff in H; destruct H as [H1 H2];
         apply negb_true_iff in H1; rewrite ?H1, ?H2);
    rewrite ?H; reflexivity.
Qed.

(** A transport failure gives [None] whether errors are shown or not. *)
Lemma decode_collapses_any show resp :
  is_transport_failure resp = true -> decode show resp = Ok None.
Proof.
  destruct show; [intros H; apply decode_collapses; auto|].
  destruct resp
    as [|msg|status [[[[|err errs]|] d|v d| |str|items]|]|status a];
    cbn -[Py.contains atom_truthy among];
    intros H; try discriminate; try reflexivity;
    try (apply andb_true_iff in H; destruct H as [H1 H2];
         apply negb_true_iff in H1; rewrite ?H1, ?H2);
    rewrite ?H; reflexivity.
Qed.

(** When the mutation's reply decodes to [None], create_board prints the
    transport's line and "Failed to create board", and returns [None]. *)
Lemma create_board_on_none tid ts (s : state Fresh.tester) chain :
  Fresh.player_chain_id (self s) = Some chain ->
  Py.truthy chain = true ->
  decode true (next_response s) = Ok None ->
  Fresh.create_board tid ts s =
  (Ok None,
   after_request (new_board_request (self s) chain tid ts)
                 (transport_events true (next_response s) ++
                  [EvBoardCreateFailed]) s).
Proof.
  intros Hc Ht Hd. unfold Fresh.create_board, Fresh.request.
  unfold bind at 1. cbn [get_self]. rewrite Hc. cbn [Py.truthy_opt].
  rewrite Ht. cbn [negb].
  unfold bind at 1. rewrite make_graphql_request_eq, Hd.
  cbn [has_data]. unfold bind, log, ret, io_log, after_request.
  cbn [self world net sent slept now_us disk_ok written out].
  rewrite <- app_assoc. reflexivity.
Qed.

Lemma past_attempt_on_none tid (s : state Fresh.tester) chain :
  Fresh.player_chain_id (self s) = Some chain ->
  Py.truthy chain = true ->
  decode true (next_response s) = Ok None ->
  fst (Fresh.past_attempt tid s) = Ok 0 /\
  new_events (Fresh.past_attempt tid) s =
    transport_events true (next_response s) ++
    [EvBoardCreateFailed; EvPastReturnedNone].
Proof.
  intros Hc Ht Hd.
  assert (E : Fresh.past_attempt tid s =
    (Ok 0,
     after_request
       (new_board_request (self s) chain tid Fresh.default_board_timestamp)
       (transport_events true (next_response s) ++
        [EvBoardCreateFailed; EvPastReturnedNone]) s)).
  { unfold Fresh.past_attempt, try_except. unfold bind at 1.
    rewrite (create_board_on_none _ _ _ _ Hc Ht Hd).
    cbn [Py.truthy_opt]. unfold bind, log, ret, io_log, after_request.
    cbn [self world net sent slept now_us disk_ok written out].
    rewrite <- !app_assoc. reflexivity. }
  split; [now rewrite E|].
  apply new_events_eq. rewrite E. reflexivity.
Qed.

(** The except block counts a success exactly when the message passes the
    substring test. *)
Lemma past_except_counts e (s : state Fresh.tester) :
  fst (Fresh.past_except e s) =
  Ok (if Fresh.is_validation_panic (Py.lower (Py.exn_msg e)) then 1 else 0).
Proof.
  unfold Fresh.past_except.
  destruct (Fresh.is_validation_panic (Py.lower (Py.exn_msg e))); reflexivity.
Qed.

Ltac in_wordings :=
  solve [unfold python_wordings, atom_types; cbn [map app In];
         repeat first [left; reflexivity | right]].

Lemma odd_errors_worded v : In (odd_errors_exn v) python_wordings.
Proof. destruct v as [[]|[]| |[]| |]; in_wordings. Qed.

Lemma not_iterable_worded a :
  In (Py.TypeError_not_iterable (atom_type a)) python_wordings.
Proof. destruct a; in_wordings. Qed.

Lemma decode_raises show resp e :
  decode show resp = Raise e -> In e python_wordings.
Proof.
  destruct resp
    as [|msg|status [[[[|err errs]|] d|v d| |str|items]|]|status a];
    destruct show; cbn -[Py.contains among atom_truthy python_wordings];
    repeat match goal with
           | |- context [if ?b then _ else _] => destruct b
           end;
    try discriminate; intros H; inversion H; subst; clear H;
    auto using odd_errors_worded, not_iterable_worded; in_wordings.
Qed.

Lemma data_outcome_raises result e :
  data_outcome result = Raise e -> In e python_wordings.
Proof.
  destruct result as [[errs [d|]|v [d|]| |str|items]|]; cbn;
    try discriminate; intros H; inversion H; subst; in_wordings.
Qed.

Lemma member_outcome_raises {A} key (field : data_obj -> option A) result e :
  member_outcome key field result = Raise e -> In e python_wordings.
Proof.
  unfold member_outcome. destruct (has_data result); [|discriminate].
  destruct (data_outcome result) as [[|str|o]|e1] eqn:Hd;
    try destruct (Py.contains key str); try discriminate;
    intros H; inversion H; subst; try in_wordings.
  now apply (data_outcome_raises result).
Qed.

(** None of these wordings passes either substring test of the
    validation step. *)
Lemma wordings_not_accepted :
  Forall (fun e =>
            Fresh.is_validation_panic (Py.lower (Py.exn_msg e)) = false /\
            Fresh.is_rejection_message (Py.lower (Py.exn_msg e)) = false /\
            (Py.contains "http error 500" (Py.lower (Py.exn_msg e)) &&
             Py.contains "runtime error" (Py.lower (Py.exn_msg e))) = false)
         python_wordings.
Proof. repeat constructor. Qed.

(** The exceptions create_board can end in. *)
Lemma create_board_raises tid ts (s : state Fresh.tester) e :
  fst (Fresh.create_board tid ts s) = Raise e -> In e python_wordings.
Proof.
  intros H. pose proof (fresh_create_board_cases tid ts s) as C.
  cbv zeta in C.
  destruct (Fresh.player_chain_id (self s)) as [chain|];
    [|destruct C as [E _]; rewrite E in H; discriminate].
  destruct (Py.truthy chain);
    [|destruct C as [E _]; rewrite E in H; discriminate].
  destruct (decode true (next_response s)) as [result|e1] eqn:Hd.
  - destruct (has_data result);
      [|destruct C as [E _]; rewrite E in H; discriminate].
    destruct C as [_ C].
    destruct (decode true (second_response s)) as [boards_result|e2] eqn:Hd2.
    + destruct (member_outcome "boards" d_boards boards_result)
        as [[bs|]|e2] eqn:Hm; rewrite C in H; try discriminate.
      inversion H; subst. now apply (member_outcome_raises _ _ _ _ Hm).
    + rewrite C in H. inversion H; subst.
      now apply (decode_raises true (second_response s)).
  - destruct C as [E _]. rewrite E in H. inversion H; subst.
    now apply (decode_raises true (next_response s)).
Qed.

(** None of them passes the substring test, so the expired tournament's
    attempt adds nothing to the success count, whatever the service does:
    the except block is never entered with a message it accepts. *)
Lemma past_attempt_never_counts tid (s : state Fresh.tester) :
  fst (Fresh.past_attempt tid s) = Ok 0.
Proof.
  unfold Fresh.past_attempt, try_except. unfold bind at 1.
  pose proof (create_board_raises tid Fresh.default_board_timestamp s) as Hr.
  destruct (Fresh.create_board tid Fresh.default_board_timestamp s)
    as [[board_id|e] s1]; cbn [fst] in Hr.
  - destruct (Py.truthy_opt board_id); reflexivity.
  - rewrite past_except_counts.
    pose proof wordings_not_accepted as Hw. rewrite Forall_forall in Hw.
    now rewrite (proj1 (Hw e (Hr e eq_refl))).
Qed.

(** C2 as stated fails: the service's explicit refusal of a board in the
    expired tournament and a timeout of the same request end in the same
    result and the same printed outcome, "returned None (unexpected)";
    neither is counted as a correct rejection. *)
Lemma rejection_and_timeout_are_conflated :
  is_service_rejection (next_response (demo_tester rejecting_service)) = true /\
  is_transport_failure (next_response (demo_tester silent_service)) = true /\
  fst (Fresh.past_attempt "T-past" (demo_tester rejecting_service)) = Ok 0 /\
  fst (Fresh.past_attempt "T-past" (demo_tester silent_service)) = Ok 0 /\
  new_events (Fresh.past_attempt "T-past") (demo_tester rejecting_service) =
    [EvGraphQLError "Tournament has expired";
     EvBoardCreateFailed; EvPastReturnedNone] /\
  new_events (Fresh.past_attempt "T-past") (demo_tester silent_service) =
    [EvTimedOut; EvBoardCreateFailed; EvPastReturnedNone] /\
  ~ (forall tid (s s' : state Fresh.tester),
        is_service_rejection (next_response s) = true ->
        is_transport_failure (next_response s') = true ->
        fst (Fresh.past_attempt tid s) <> fst (Fresh.past_attempt tid s')).
Proof.
  repeat split.
  intros H.
  apply (H "T-past" (demo_tester rejecting_service)
           (demo_tester silent_service)); reflexivity.
Qed.

(** C2, amended. For a board-creation attempt against the expired
    tournament, whatever create_board turns into None is reported as one
    and the same outcome: a service-reported rejection (a reply with
    GraphQL errors) and a transport failure (timeout, failed connection,
    HTTP error status) both make create_board return None, print "Failed
    to create board" and "returned None (unexpected)", and add nothing to
    the success count.  The except block counts the attempt as correctly
    rejected exactly when the lower-cased message of the exception
    contains "expired", "not active", "not found in cache", or both
    "http error 500" and "runtime error". *)
Theorem expired_attempt_classification
        (tid chain : string) (s : state Fresh.tester) (e : Py.exn) :
  (Fresh.player_chain_id (self s) = Some chain ->
   Py.truthy chain = true ->
   is_service_rejection (next_response s) = true \/
   is_transport_failure (next_response s) = true ->
   fst (Fresh.create_board tid Fresh.default_board_timestamp s) = Ok None /\
   fst (Fresh.past_attempt tid s) = Ok 0 /\
   new_events (Fresh.past_attempt tid) s =
     transport_events true (next_response s) ++
     [EvBoardCreateFailed; EvPastReturnedNone]) /\
  fst (Fresh.past_except e s) =
    Ok (if Fresh.is_validation_panic (Py.lower (Py.exn_msg e))
        then 1 else 0) /\
  Fresh.is_validation_panic (Py.lower (Py.exn_msg e)) =
    (Py.contains "http error 500" (Py.lower (Py.exn_msg e)) &&
     Py.contains "runtime error" (Py.lower (Py.exn_msg e))) ||
    Py.contains "expired" (Py.lower (Py.exn_msg e)) ||
    Py.contains "not active" (Py.lower (Py.exn_msg e)) ||
    Py.contains "not found in cache" (Py.lower (Py.exn_msg e)).
Proof.
  split; [|split; [apply past_except_counts | reflexivity]].
  intros Hc Ht Hresp. apply decode_collapses in Hresp.
  split.
  - now rewrite (create_board_on_none _ _ _ _ Hc Ht Hresp).
  - now apply past_attempt_on_none with (chain := chain).
Qed.

Lemma expired_attempt_classification_witness :
  fst (Fresh.create_board "T-past" Fresh.default_board_timestamp
         (demo_tester broken_service)) = Ok None /\
  fst (Fresh.past_attempt "T-past" (demo_tester broken_service)) = Ok 0 /\
  new_events (Fresh.past_attempt "T-past") (demo_tester broken_service) =
    transport_events true (next_response (demo_tester broken_service)) ++
    [EvBoardCreateFailed; EvPastReturnedNone].
Proof.
  apply (proj1 (expired_attempt_classification
                  "T-past" "player-chain" (demo_tester broken_service)
                  Py.IndexError_list)).
  - reflexivity.
  - reflexivity.
  - right. reflexivity.
Defined.

(** ** One scenario's failure and its siblings (C8) *)

(** Once the creation step has returned None, the run is over: it returns
    False in the state the creation step left. *)
Lemma run_stops_after_failed_creation (s : state Fresh.tester) :
  fst (Fresh.register_player s) = Ok true ->
  fst (Fresh.create_multiple_test_tournaments (after_registration s))
    = Ok None ->
  Fresh.run_tournament_validation_test s =
  (Ok false,
   snd (Fresh.create_multiple_test_tournaments (after_registration s))).
Proof.
  unfold after_registration, Fresh.run_tournament_validation_test.
  unfold bind.
  destruct (Fresh.register_player s) as [[b|e] s0]; cbn [fst];
    intros Hreg; inversion Hreg; subst.
  cbn [negb sleep fst snd].
  destruct (Fresh.create_multiple_test_tournaments _) as [[created|e] s1];
    cbn [fst snd]; intros Hc; inversion Hc; subst.
  reflexivity.
Qed.

(** An exception of the creation step is caught nowhere: it ends the
    run. *)
Lemma run_raises_after_unreadable_creation (s : state Fresh.tester) e :
  fst (Fresh.register_player s) = Ok true ->
  fst (Fresh.create_multiple_test_tournaments (after_registration s))
    = Raise e ->
  Fresh.run_tournament_validation_test s =
  (Raise e,
   snd (Fresh.create_multiple_test_tournaments (after_registration s))).
Proof.
  unfold after_registration, Fresh.run_tournament_validation_test.
  unfold bind.
  destruct (Fresh.register_player s) as [[b|x] s0]; cbn [fst];
    intros Hreg; inversion Hreg; subst.
  cbn [negb sleep fst snd].
  destruct (Fresh.create_multiple_test_tournaments _) as [[created|x] s1];
    cbn [fst snd]; intros Hc; inversion Hc; subst.
  reflexivity.
Qed.

(** The filtering report prints one visibility line per created
    tournament, in order, and then its verdict. *)
Lemma report_filtering_lines user mine (created : list Fresh.created_tournament) :
  forall (s : state Fresh.tester),
  for_fold created tt
           (fun _ tournament => log (Fresh.visibility_line user mine tournament))
           s =
  (Ok tt,
   mkState (self s)
           (mkIo (net (world s)) (sent (world s)) (slept (world s))
                 (now_us (world s)) (disk_ok (world s)) (written (world s))
                 (out (world s) ++
                  map (Fresh.visibility_line user mine) created))).
Proof.
  induction created as [|c created IH]; intros s; cbn [for_fold map].
  - cbn. now rewrite app_nil_r, io_eta, state_eta.
  - unfold bind. cbn [log]. rewrite IH. cbn.
    now rewrite <- app_assoc.
Qed.

Lemma report_filtering_spec d expected created (s : state Fresh.tester) :
  let user := Fresh.username (self s) in
  let mine := Fresh.my_tournaments user (Fresh.state_leaderboards d) in
  new_events (Fresh.report_filtering (Some d) expected created) s =
    map (Fresh.visibility_line user mine) created ++
    [filter_verdict user d expected created] /\
  new_requests (Fresh.report_filtering (Some d) expected created) s = [].
Proof.
  cbv zeta.
  assert (E : snd (Fresh.report_filtering (Some d) expected created s) =
    mkState (self s)
      (mkIo (net (world s)) (sent (world s)) (slept (world s))
            (now_us (world s)) (disk_ok (world s)) (written (world s))
            (out (world s) ++
             map (Fresh.visibility_line (Fresh.username (self s))
                    (Fresh.my_tournaments (Fresh.username (self s))
                                          (Fresh.state_leaderboards d)))
                 created ++
             [filter_verdict (Fresh.username (self s)) d expected created]))).
  { unfold Fresh.report_filtering.
    unfold bind at 1. cbn [get_self].
    unfold bind at 1. rewrite report_filtering_lines.
    unfold filter_verdict.
    destruct (_ =? expected); cbn; unfold io_log;
      cbn [net sent slept now_us disk_ok written out];
      rewrite <- app_assoc; reflexivity. }
  split; [apply new_events_eq | apply new_requests_eq]; rewrite E; cbn;
    rewrite ?app_nil_r; reflexivity.
Qed.




(** ** The state query and the steps of the verification *)

Lemma same_identity_refl t : same_identity t t.
Proof. repeat split. Qed.

Lemma same_identity_trans t1 t2 t3 :
  same_identity t1 t2 -> same_identity t2 t3 -> same_identity t1 t3.
Proof.
  unfold same_identity. intros H1 H2.
  repeat match goal with H : _ /\ _ |- _ => destruct H end.
  repeat split; congruence.
Qed.

Lemma same_identity_learn v t :
  same_identity t (Fresh.set_player_chain_id v t).
Proof. repeat split. Qed.

(** query_state, outcome by outcome. *)
Lemma query_state_cases (s : state Fresh.tester) :
  let r := Fresh.query_state s in
  sent (world (snd r)) = sent (world s) ++ [state_query_request (self s)] /\
  net (world (snd r)) = net (world s) /\
  same_identity (self s) (self (snd r)) /\
  match decode true (next_response s) with
  | Ok result =>
      if has_data result then
        match data_outcome result with
        | Ok (DObject d) =>
            Fresh.player_chain_id (self (snd r)) =
              match d_player d with
              | Some p => Some (pl_chainId p)
              | None => Fresh.player_chain_id (self s)
              end /\
            fst r = match d_leaderboards d with
                    | Some (_ :: _) => Ok (Some d)
                    | _ => Ok None
                    end
        | Ok (DScalar _) =>
            self (snd r) = self s /\
            fst r = Raise (Py.AttributeError_get "str")
        | Ok DNull =>
            self (snd r) = self s /\
            fst r = Raise (Py.AttributeError_get "NoneType")
        | Raise e => self (snd r) = self s /\ fst r = Raise e
        end
      else self (snd r) = self s /\ fst r = Ok None
  | Raise e => self (snd r) = self s /\ fst r = Raise e
  end.
Proof.
  cbv zeta. remember (Fresh.query_state s) as r eqn:Hr.
  unfold Fresh.query_state, Fresh.request in Hr.
  unfold bind at 1 in Hr. cbn [get_self] in Hr.
  unfold bind at 1 in Hr. rewrite make_graphql_request_eq in Hr.
  unfold state_query_request.
  destruct (decode true (next_response s)) as [result|e];
    [|subst r; cbn; auto using same_identity_refl].
  destruct (has_data result);
    [|subst r; cbn; auto using same_identity_refl].
  rewrite bind_data_of in Hr.
  destruct (data_outcome result) as [[|str|d]|e]; cbn in Hr;
    try solve [subst r; cbn; auto using same_identity_refl].
  destruct (d_player d) as [p|];
    destruct (d_leaderboards d) as [[|lb l]|]; cbn in Hr; subst r; cbn;
    auto 6 using same_identity_refl, same_identity_learn.
Qed.

Lemma force_stream_processing_eq created (s : state Fresh.tester) :
  Fresh.force_stream_processing created s =
  (Ok tt,
   mkState (self s)
     (if Fresh.is_some
           (find (fun c => String.eqb (Fresh.ct_name c) "eternal_tournament")
                 created) &&
         Py.truthy_opt (Fresh.player_chain_id (self s))
      then io_log (EvStreamTriggerFailed "'id'") (world s)
      else world s)).
Proof.
  unfold Fresh.force_stream_processing. unfold bind at 1. cbn [get_self].
  match goal with |- context [if ?b then _ else _] => destruct b end.
  - reflexivity.
  - cbn. now rewrite state_eta.
Qed.

Lemma report_filtering_sent st expected created (s : state Fresh.tester) :
  sent (world (snd (Fresh.report_filtering st expected created s))) =
  sent (world s).
Proof.
  unfold Fresh.report_filtering. unfold bind at 1. cbn [get_self].
  destruct st as [d|]; [|reflexivity].
  unfold bind at 1. rewrite report_filtering_lines.
  destruct (_ =? expected); reflexivity.
Qed.

(** ** Matching observations to scenarios (C1) *)

Lemma in_my_tournaments user lbs o :
  In o (Fresh.my_tournaments user lbs) <->
  In o lbs /\ Py.truthy (lb_leaderboardId o) = true /\ lb_host o = user.
Proof.
  unfold Fresh.my_tournaments, Fresh.all_tournaments.
  rewrite !filter_In, String.eqb_eq. tauto.
Qed.

Lemma matching_tournament_some user name lbs o :
  Fresh.matching_tournament user name (Fresh.my_tournaments user lbs) = Some o ->
  In o lbs /\ Py.truthy (lb_leaderboardId o) = true /\
  observed_key o = (name, user).
Proof.
  intros H. apply find_some in H. destruct H as [Hin Hb].
  apply in_my_tournaments in Hin. destruct Hin as [Hin [Hid Hhost]].
  apply andb_true_iff in Hb. destruct Hb as [Hn _].
  apply String.eqb_eq in Hn. unfold observed_key. now rewrite Hn, Hhost.
Qed.

Lemma matching_tournament_found user name lbs :
  Fresh.matching_tournament user name (Fresh.my_tournaments user lbs) <> None <->
  exists o, In o lbs /\ Py.truthy (lb_leaderboardId o) = true /\
            observed_key o = (name, user).
Proof.
  split.
  - destruct (Fresh.matching_tournament user name
                (Fresh.my_tournaments user lbs)) as [o|] eqn:H;
      [|congruence].
    intros _. exists o. now apply matching_tournament_some.
  - intros [o [Hin [Hid Hkey]]] Hnone. unfold observed_key in Hkey.
    inversion Hkey; subst.
    eapply find_none in Hnone.
    + rewrite !String.eqb_refl in Hnone. discriminate.
    + apply in_my_tournaments. auto.
Qed.

Lemma find_by_name_some user name lbs o :
  Fresh.find_by_name name (Fresh.my_tournaments user lbs) = Some o ->
  In o lbs /\ Py.truthy (lb_leaderboardId o) = true /\
  observed_key o = (name, user).
Proof.
  intros H. apply find_some in H. destruct H as [Hin Hn].
  apply in_my_tournaments in Hin. destruct Hin as [Hin [Hid Hhost]].
  apply String.eqb_eq in Hn. unfold observed_key. now rewrite Hn, Hhost.
Qed.

(** query_state hands back the data object of the reply, and leaves the
    user name alone. *)
Lemma query_state_some (s : state Fresh.tester) d :
  fst (Fresh.query_state s) = Ok (Some d) ->
  (exists errs,
      decode true (next_response s) =
      Ok (Some (mkEnvelope errs (Some (DObject d))))) /\
  Fresh.username (self (snd (Fresh.query_state s))) = Fresh.username (self s).
Proof.
  remember (Fresh.query_state s) as r eqn:Hr.
  unfold Fresh.query_state, Fresh.request in Hr.
  unfold bind at 1 in Hr. cbn [get_self] in Hr.
  unfold bind at 1 in Hr. rewrite make_graphql_request_eq in Hr.
  destruct (decode true (next_response s)) as [result|e] eqn:Hdec;
    [|subst r; cbn; discriminate].
  destruct (has_data result); [|subst r; cbn; discriminate].
  rewrite bind_data_of in Hr.
  destruct (data_outcome result) as [[|str|d']|e] eqn:Hdo;
    try (subst r; cbn; discriminate).
  rewrite (shown_data _ _ _ Hdec Hdo).
  destruct (d_player d') as [p|];
    (destruct (d_leaderboards d') as [[|lb l]|] eqn:Hl; cbn in Hr; subst r; cbn;
     try discriminate; intros H; inversion H; subst; eauto).
Qed.

Lemma get_tournament_id_by_name_some name (s : state Fresh.tester) id :
  fst (Fresh.get_tournament_id_by_name name s) = Ok (Some id) ->
  exists errs d o,
    decode true (next_response s) =
      Ok (Some (mkEnvelope errs (Some (DObject d)))) /\
    In o (Fresh.state_leaderboards d) /\
    lb_leaderboardId o = id /\
    observed_key o = (name, Fresh.username (self s)).
Proof.
  unfold Fresh.get_tournament_id_by_name. unfold bind at 1.
  pose proof (query_state_some s) as Hq.
  destruct (Fresh.query_state s) as [[[d|]|e] s1]; cbn [fst snd] in *;
    try (cbn; discriminate).
  destruct (Hq d eq_refl) as [[errs Hd] Hu].
  unfold bind at 1. cbn [get_self]. rewrite Hu.
  destruct (Fresh.find_by_name name
              (Fresh.my_tournaments (Fresh.username (self s))
                                    (Fresh.state_leaderboards d)))
    as [o|] eqn:Hf; cbn; [|discriminate].
  intros H. inversion H; subst.
  apply find_by_name_some in Hf. destruct Hf as [Hin [_ Hkey]].
  exists errs, d, o. auto.
Qed.

Lemma find_map {A B} (q : B -> bool) (g : A -> B) (l : list A) :
  find q (map g l) = option_map g (find (fun a => q (g a)) l).
Proof.
  induction l as [|a l IH]; cbn; [reflexivity|].
  destruct (q (g a)); [reflexivity | exact IH].
Qed.

(** Attribution reads the name and the host, not the identifier: replacing
    the identifiers (keeping empty ones empty) relabels the match and
    nothing else. *)
Lemma matching_ignores_identifiers user name lbs f :
  (forall o, Py.truthy (f o) = Py.truthy (lb_leaderboardId o)) ->
  Fresh.matching_tournament user name
    (Fresh.my_tournaments user (map (relabel f) lbs)) =
  option_map (relabel f)
    (Fresh.matching_tournament user name (Fresh.my_tournaments user lbs)).
Proof.
  intros Hf.
  unfold Fresh.matching_tournament, Fresh.my_tournaments, Fresh.all_tournaments.
  rewrite !filter_map_swap, find_map. cbn [relabel lb_leaderboardId lb_host lb_name].
  rewrite (filter_ext (fun a => Py.truthy (f a))
                      (fun a => Py.truthy (lb_leaderboardId a)) Hf).
  reflexivity.
Qed.

(** query_state's result, read off the reply. *)
Lemma query_state_outcome (s : state Fresh.tester) :
  fst (Fresh.query_state s) = state_outcome (next_response s).
Proof.
  pose proof (query_state_cases s) as H. cbv zeta in H.
  destruct H as [_ [_ [_ H]]]. unfold state_outcome.
  destruct (decode true (next_response s)) as [result|e]; [|tauto].
  destruct (has_data result); [|tauto].
  destruct (data_outcome result) as [[|str|d]|e]; tauto.
Qed.

Lemma query_state_prints (s : state Fresh.tester) :
  exists evs,
    out (world (snd (Fresh.query_state s))) = out (world s) ++ evs.
Proof.
  assert (H : emits any_event any_request Fresh.query_state)
    by (unfold Fresh.query_state, Fresh.request; emits_any).
  destruct (H s) as [rs [es [_ [Ho _]]]]. eauto.
Qed.

(** The outcome of the filtering report: the tally against the expected
    count. *)
Lemma report_filtering_state d expected created (s : state Fresh.tester) :
  let user := Fresh.username (self s) in
  let mine := Fresh.my_tournaments user (Fresh.state_leaderboards d) in
  Fresh.report_filtering (Some d) expected created s =
  (Ok (filter_tally user d created =? expected),
   mkState (self s)
     (mkIo (net (world s)) (sent (world s)) (slept (world s))
           (now_us (world s)) (disk_ok (world s)) (written (world s))
           (out (world s) ++
            map (Fresh.visibility_line user mine) created ++
            [filter_verdict user d expected created]))).
Proof.
  cbv zeta. unfold Fresh.report_filtering.
  unfold bind at 1. cbn [get_self].
  unfold bind at 1. rewrite report_filtering_lines.
  unfold filter_verdict, filter_tally.
  destruct (_ =? expected); cbn; unfold io_log;
    cbn [net sent slept now_us disk_ok written out];
    rewrite <- app_assoc; reflexivity.
Qed.

(** verify_active_tournaments, in terms of the replies to its two state
    queries: its verdict is the tally over the second. *)
Lemma verify_active_tournaments_eq expected created (s : state Fresh.tester) :
  let verify := Fresh.verify_active_tournaments expected created in
  let user := Fresh.username (self s) in
  fst (verify s) =
    match state_outcome (next_response s) with
    | Raise e => Raise e
    | Ok _ =>
        match state_outcome (second_response s) with
        | Raise e => Raise e
        | Ok (Some d) => Ok (filter_tally user d created =? expected)
        | Ok None => Ok false
        end
    end /\
  (forall d,
     (exists x, state_outcome (next_response s) = Ok x) ->
     state_outcome (second_response s) = Ok (Some d) ->
     exists before,
       new_events verify s =
         before ++
         map (Fresh.visibility_line
                user (Fresh.my_tournaments user (Fresh.state_leaderboards d)))
             created ++
         [filter_verdict user d expected created]).
Proof.
  cbv zeta.
  remember (Fresh.verify_active_tournaments expected created s) as r eqn:Hr.
  assert (Hev : forall l,
            out (world (snd r)) = out (world s) ++ l ->
            new_events (Fresh.verify_active_tournaments expected created) s
            = l).
  { intros l Hl. apply new_events_eq. now rewrite <- Hr. }
  unfold Fresh.verify_active_tournaments in Hr.
  unfold bind at 1 in Hr. cbn [sleep] in Hr.
  set (s0 := mkState (self s) (io_sleep 1 (world s))) in Hr.
  pose proof (query_state_cases s0) as C0. cbv zeta in C0.
  destruct C0 as [Hs0 [Hn0 [Hid0 _]]].
  pose proof (query_state_outcome s0) as O0.
  change (next_response s0) with (next_response s) in O0.
  destruct (query_state_prints s0) as [es0 Ho0].
  unfold bind at 1 in Hr.
  destruct (Fresh.query_state s0) as [[st|e] s1]; cbn [fst snd] in *;
    rewrite <- O0.
  2: { subst r. split; [reflexivity|]. intros d [x Hx]. discriminate. }
  unfold bind at 1 in Hr. rewrite force_stream_processing_eq in Hr.
  unfold bind at 1 in Hr. cbn [sleep self world] in Hr.
  match type of Hr with
  | context [bind Fresh.query_state _ ?x] => set (s2 := x) in Hr
  end.
  assert (Hsent2 : sent (world s2) = sent (world s1)).
  { subst s2. cbn [world].
    match goal with |- context [if ?b then _ else _] => destruct b end;
      reflexivity. }
  assert (Hnet2 : net (world s2) = net (world s1)).
  { subst s2. cbn [world].
    match goal with |- context [if ?b then _ else _] => destruct b end;
      reflexivity. }
  assert (Hout2 : exists es, out (world s2) = out (world s1) ++ es).
  { subst s2. cbn [world].
    match goal with |- context [if ?b then _ else _] => destruct b end;
      cbn; [eexists; reflexivity | exists []; now rewrite app_nil_r]. }
  destruct Hout2 as [es1 Ho1].
  assert (Hnext2 : next_response s2 = second_response s).
  { unfold next_response, second_response.
    rewrite Hnet2, Hsent2, Hn0, Hs0, length_app. cbn.
    now rewrite Nat.add_1_r. }
  pose proof (query_state_cases s2) as C2. cbv zeta in C2.
  destruct C2 as [Hs2 [Hn2 [Hid2 _]]].
  pose proof (query_state_outcome s2) as O2. rewrite Hnext2 in O2.
  destruct (query_state_prints s2) as [es2 Ho2].
  assert (Huser : forall s3, same_identity (self s2) (self s3) ->
                  Fresh.username (self s3) = Fresh.username (self s)).
  { intros s3 [_ [_ [_ [_ [Hu3 _]]]]].
    destruct Hid0 as [_ [_ [_ [_ [Hu0 _]]]]].
    unfold s2 in Hu3. unfold s0 in Hu0. cbn [self] in Hu3, Hu0.
    congruence. }
  unfold bind at 1 in Hr.
  destruct (Fresh.query_state s2) as [[st2|e2] s3]; cbn [fst snd] in *;
    rewrite <- O2.
  - destruct st2 as [d|].
    + rewrite report_filtering_state in Hr. rewrite (Huser s3 Hid2) in Hr.
      subst r. cbn [fst snd world out]. split; [reflexivity|].
      intros d0 _ Hd0. inversion Hd0; subst d0.
      exists (es0 ++ es1 ++ es2). apply Hev.
      cbn [snd world out]. rewrite Ho2, Ho1, Ho0. cbn [s0 world io_sleep out].
      now rewrite <- !app_assoc.
    + subst r. split; [reflexivity|]. intros d0 _ Hd0. discriminate.
  - subst r. split; [reflexivity|]. intros d0 _ Hd0. discriminate.
Qed.

(** What the tally counts: the listed tournaments with an id whose host is
    the tester and whose name is a created tournament's. *)
Lemma counted_by_name_and_host user lbs
      (created : list Fresh.created_tournament) o :
  In o (Fresh.my_new_tournaments (Fresh.my_tournaments user lbs) created) <->
  In o lbs /\ Py.truthy (lb_leaderboardId o) = true /\
  exists c, In c created /\ observed_key o = (Fresh.ct_name c, user).
Proof.
  unfold Fresh.my_new_tournaments, observed_key.
  rewrite filter_In, in_my_tournaments, existsb_exists. split.
  - intros [[Hin [Hid Hhost]] [c [Hc Hn]]]. apply String.eqb_eq in Hn.
    repeat split; auto. exists c. split; [exact Hc | congruence].
  - intros [Hin [Hid [c [Hc Hkey]]]]. inversion Hkey; subst.
    repeat split; auto. exists c. split; [exact Hc|].
    now apply String.eqb_eq.
Qed.

(** The tally and the visibility lines read no identifier. *)
Lemma tally_ignores_identifiers user lbs
      (created : list Fresh.created_tournament) f :
  (forall o, Py.truthy (f o) = Py.truthy (lb_leaderboardId o)) ->
  List.length (Fresh.my_new_tournaments
                 (Fresh.my_tournaments user (map (relabel f) lbs)) created) =
  List.length (Fresh.my_new_tournaments
                 (Fresh.my_tournaments user lbs) created) /\
  map (Fresh.visibility_line
         user (Fresh.my_tournaments user (map (relabel f) lbs))) created =
  map (Fresh.visibility_line user (Fresh.my_tournaments user lbs)) created.
Proof.
  intros Hf. split.
  - unfold Fresh.my_new_tournaments, Fresh.my_tournaments,
      Fresh.all_tournaments.
    rewrite !filter_map_swap, length_map.
    cbn [relabel lb_leaderboardId lb_host lb_name].
    rewrite (filter_ext (fun a => Py.truthy (f a))
                        (fun a => Py.truthy (lb_leaderboardId a)) Hf).
    reflexivity.
  - apply map_ext. intros c. unfold Fresh.visibility_line.
    rewrite (matching_ignores_identifiers user (Fresh.ct_name c) lbs f Hf).
    now destruct (Fresh.matching_tournament _ _ _).
Qed.

(** The lookup of the score check on a leaderboard's chain. *)
Lemma pick_leaderboard_by_id id lbs hit :
  find (fun lb => String.eqb (lb_leaderboardId lb) id) lbs = Some hit ->
  Fresh.pick_leaderboard id lbs = Some hit.
Proof. intros H. unfold Fresh.pick_leaderboard. now rewrite H. Qed.

Lemma pick_leaderboard_only id only :
  Fresh.pick_leaderboard id [only] = Some only.
Proof.
  unfold Fresh.pick_leaderboard. cbn [find].
  destruct (String.eqb (lb_leaderboardId only) id); reflexivity.
Qed.

(** C1 as stated fails for the score check of the same validation run.
    check_leaderboard_scores looks a tournament up on its chain by id
    and, finding none, takes the chain's only entry (or the first with a
    name or a host), whatever its name and host: the total of another
    host's leaderboard is so reported as that of the tester's
    "active_tournament". *)
Lemma score_check_attributes_another_hosts_total :
  let run := Fresh.run_tournament_validation_test in
  let s := new_tester crossed_chain_service in
  fst (run s) = Ok true /\
  In (EvStreamingSuccessful "active_tournament" 7) (new_events run s) /\
  Fresh.pick_leaderboard "T-active" [foreign_on_chain] =
    Some foreign_on_chain /\
  observed_key foreign_on_chain <> ("active_tournament", "test_abc123") /\
  ~ (forall (lb details : leaderboard) (lbs : list leaderboard),
        Fresh.pick_leaderboard (lb_leaderboardId lb) lbs = Some details ->
        observed_key details = observed_key lb).
Proof.
  cbv zeta. split; [vm_compute; reflexivity|].
  split; [vm_compute; tauto|].
  split; [reflexivity|]. split; [discriminate|].
  intros H.
  specialize (H (active_with_boards 0) foreign_on_chain [foreign_on_chain]
                eq_refl).
  discriminate.
Qed.



(** * Further properties of the scripts *)

(** ** The transport *)





(** ** The state query of test_tournaments_fresh.py *)

(** X3. query_state issues one request, the state query on the main chain
    for the tester's own user name, and changes nothing of the tester but
    the player chain.  It hands the reply's data back only when the reply
    lists at least one leaderboard; the player chain named in the reply is
    stored all the same, also when the result is None because no
    leaderboard is listed, and is left as it was when the reply names no
    player. *)
Theorem query_state_learns_the_player_chain (s : state Fresh.tester) :
  let r := Fresh.query_state s in
  new_requests Fresh.query_state s = [state_query_request (self s)] /\
  same_identity (self s) (self (snd r)) /\
  (forall d, fst r = Ok (Some d) ->
     exists lb l, d_leaderboards d = Some (lb :: l)) /\
  (forall status d,
     next_response s = Http status (Some (mkEnvelope None (Some (DObject d)))) ->
     is_error_status status = false ->
     (forall p, d_player d = Some p ->
        Fresh.player_chain_id (self (snd r)) = Some (pl_chainId p)) /\
     (d_player d = None ->
        Fresh.player_chain_id (self (snd r)) = Fresh.player_chain_id (self s)) /\
     (d_leaderboards d = None \/ d_leaderboards d = Some [] ->
        fst r = Ok None)).
Proof.
  cbv zeta. pose proof (query_state_cases s) as C. cbv zeta in C.
  destruct C as [Hsent [Hnet [Hid C]]].
  split; [now apply new_requests_eq|].
  remember (Fresh.query_state s) as r eqn:Hr. clear Hr.
  split; [exact Hid|]. split.
  - intros d Hd.
    destruct (decode true (next_response s)) as [result|e];
      [destruct (has_data result);
       [destruct (data_outcome result) as [[|str|d']|e]|]|];
      destruct C as [C1 C2]; rewrite C2 in Hd; try discriminate.
    destruct (d_leaderboards d') as [[|lb l]|] eqn:Hl; try discriminate.
    inversion Hd; subst. eauto.
  - intros status d Hresp Hst. rewrite Hresp in C. cbn [decode] in C.
    rewrite Hst in C. cbn [has_data data_outcome] in C.
    destruct C as [C1 C2]. repeat split.
    + intros p Hp. now rewrite C1, Hp.
    + intros Hp. now rewrite C1, Hp.
    + intros [Hl|Hl]; now rewrite C2, Hl.
Qed.

Lemma query_state_learns_the_player_chain_witness :
  Fresh.player_chain_id
    (self (snd (Fresh.query_state (new_tester player_only_service)))) =
    Some "player-chain" /\
  fst (Fresh.query_state (new_tester player_only_service)) = Ok None.
Proof.
  pose proof (proj2 (proj2 (proj2
    (query_state_learns_the_player_chain (new_tester player_only_service))))
    200 _ eq_refl eq_refl) as H.
  split.
  - apply (proj1 H (mkPlayer "test_abc123" "player-chain" false)).
    reflexivity.
  - apply (proj2 (proj2 H)). right. reflexivity.
Defined.

(** ** Looking a leaderboard up on its own chain *)

Lemma pick_leaderboard_some id lbs lb :
  Fresh.pick_leaderboard id lbs = Some lb ->
  In lb lbs /\
  (lb_leaderboardId lb = id \/
   (forall x, In x lbs -> lb_leaderboardId x <> id) /\
   (lbs = [lb] \/ Py.truthy (lb_name lb) || Py.truthy (lb_host lb) = true)).
Proof.
  unfold Fresh.pick_leaderboard.
  destruct (find (fun x => String.eqb (lb_leaderboardId x) id) lbs)
    as [hit|] eqn:Hf.
  - intros H. inversion H; subst. apply find_some in Hf.
    destruct Hf as [Hin Heq]. apply String.eqb_eq in Heq. auto.
  - assert (Hno : forall x, In x lbs -> lb_leaderboardId x <> id).
    { intros x Hx Heq. apply (find_none _ _ Hf) in Hx.
      apply String.eqb_neq in Hx. contradiction. }
    destruct lbs as [|a [|b rest]].
    + discriminate.
    + intros H. inversion H; subst. split; [now left | auto].
    + intros H. apply find_some in H. destruct H as [Hin Ht]. auto.
Qed.

Lemma pick_leaderboard_exact id lbs x :
  In x lbs -> lb_leaderboardId x = id ->
  exists lb, Fresh.pick_leaderboard id lbs = Some lb /\
             lb_leaderboardId lb = id.
Proof.
  intros Hin Hid. unfold Fresh.pick_leaderboard.
  destruct (find (fun y => String.eqb (lb_leaderboardId y) id) lbs)
    as [hit|] eqn:Hf.
  - exists hit. split; [reflexivity|]. apply find_some in Hf.
    now apply String.eqb_eq.
  - apply (find_none _ _ Hf) in Hin. apply String.eqb_neq in Hin.
    contradiction.
Qed.

Lemma query_leaderboard_chain_eq id chain (s : state Fresh.tester) :
  let url := endpoint (Fresh.base_url (self s)) chain (Fresh.app_id (self s)) in
  sent (world (snd (Fresh.query_leaderboard_chain id chain s))) =
    sent (world s) ++
    [mkRequest url (OpQueryLeaderboards Fresh.chain_fields) 10] /\
  self (snd (Fresh.query_leaderboard_chain id chain s)) = self s /\
  net (world (snd (Fresh.query_leaderboard_chain id chain s))) = net (world s) /\
  fst (Fresh.query_leaderboard_chain id chain s) =
    match decode true (next_response s) with
    | Ok result =>
        match member_outcome "leaderboards" d_leaderboards result with
        | Ok (Some lbs) => Ok (Fresh.pick_leaderboard id lbs)
        | Ok None => Ok None
        | Raise e => Raise e
        end
    | Raise e => Raise e
    end.
Proof.
  cbv zeta.
  remember (Fresh.query_leaderboard_chain id chain s) as r eqn:Hr.
  assert (Hs : sent (world (snd r)) =
               sent (world s) ++
               [mkRequest (endpoint (Fresh.base_url (self s)) chain
                                    (Fresh.app_id (self s)))
                          (OpQueryLeaderboards Fresh.chain_fields) 10] /\
               self (snd r) = self s /\
               net (world (snd r)) = net (world s) /\
               fst r =
               match decode true (next_response s) with
               | Ok result =>
                   match member_outcome "leaderboards" d_leaderboards
                                        result with
                   | Ok (Some lbs) => Ok (Fresh.pick_leaderboard id lbs)
                   | Ok None => Ok None
                   | Raise e => Raise e
                   end
               | Raise e => Raise e
               end).
  { unfold Fresh.query_leaderboard_chain, Fresh.request in Hr.
    unfold bind at 1 in Hr. cbn [get_self] in Hr.
    unfold bind at 1 in Hr. rewrite make_graphql_request_eq in Hr.
    destruct (decode true (next_response s)) as [result|e];
      [|subst r; cbn; auto].
    rewrite bind_data_member in Hr.
    destruct (member_outcome "leaderboards" d_leaderboards result)
      as [[lbs|]|e]; subst r; cbn; auto. }
  destruct Hs as [Hs [Hself [Hnet Hf]]].
  subst r. auto.
Qed.

(** X4. query_leaderboard_chain asks the given chain once and returns an
    entry of the chain's own list, chosen by three lookups in turn.  The
    first entry bearing the requested id is returned when there is one.
    When no entry bears it, a list of exactly one entry yields that entry
    whatever its id, and a list of two or more yields the first entry
    that has a name or a host (None when there is none, as for the empty
    list): the leaderboard returned need not be the one asked for. *)
Theorem leaderboard_chain_lookup_falls_back
        (leaderboard_id chain_id : string) (s : state Fresh.tester)
        (status : Z) (d : data_obj) (lbs : list leaderboard) :
  next_response s = Http status (Some (mkEnvelope None (Some (DObject d)))) ->
  is_error_status status = false ->
  d_leaderboards d = Some lbs ->
  let call := Fresh.query_leaderboard_chain leaderboard_id chain_id in
  let by_id := find (fun lb => String.eqb (lb_leaderboardId lb) leaderboard_id)
                    lbs in
  new_requests call s =
    [mkRequest (endpoint (Fresh.base_url (self s)) chain_id
                         (Fresh.app_id (self s)))
               (OpQueryLeaderboards Fresh.chain_fields) 10] /\
  (forall lb, fst (call s) = Ok (Some lb) ->
     In lb lbs /\
     (lb_leaderboardId lb = leaderboard_id \/
      (forall x, In x lbs -> lb_leaderboardId x <> leaderboard_id) /\
      (lbs = [lb] \/
       Py.truthy (lb_name lb) || Py.truthy (lb_host lb) = true))) /\
  (forall x, In x lbs -> lb_leaderboardId x = leaderboard_id ->
     exists lb, fst (call s) = Ok (Some lb) /\
                lb_leaderboardId lb = leaderboard_id) /\
  (forall hit, by_id = Some hit -> fst (call s) = Ok (Some hit)) /\
  (forall only, lbs = [only] -> fst (call s) = Ok (Some only)) /\
  (by_id = None -> (List.length lbs <> 1)%nat ->
   fst (call s) =
     Ok (find (fun lb => Py.truthy (lb_name lb) || Py.truthy (lb_host lb))
              lbs)).
Proof.
  intros Hresp Hst Hl. cbv zeta.
  destruct (query_leaderboard_chain_eq leaderboard_id chain_id s)
    as [Hreq [_ [_ Hf]]].
  rewrite Hresp in Hf. cbn [decode] in Hf. rewrite Hst in Hf.
  unfold member_outcome in Hf. cbn [has_data data_outcome] in Hf.
  rewrite Hl in Hf.
  split; [now apply new_requests_eq|]. rewrite Hf.
  split; [|split; [|split; [|split]]].
  - intros lb H. inversion H as [Hp]. now apply pick_leaderboard_some.
  - intros x Hin Hid.
    destruct (pick_leaderboard_exact _ _ _ Hin Hid) as [lb [Hp Hlb]].
    exists lb. now rewrite Hp.
  - intros hit Hh. unfold Fresh.pick_leaderboard. now rewrite Hh.
  - intros only ->. now rewrite pick_leaderboard_only.
  - intros Hn Hlen. unfold Fresh.pick_leaderboard. rewrite Hn.
    destruct lbs as [|a0 [|b0 rest]]; try reflexivity.
    exfalso. apply Hlen. reflexivity.
Qed.

Lemma leaderboard_chain_lookup_falls_back_witness :
  fst (Fresh.query_leaderboard_chain "T-other" "lb-chain"
         (demo_tester five_boards_service)) =
    Ok (Some (active_with_boards 5)) /\
  lb_leaderboardId (active_with_boards 5) <> "T-other".
Proof.
  split; [|discriminate].
  apply (proj1 (proj2 (proj2 (proj2 (proj2
    (leaderboard_chain_lookup_falls_back "T-other" "lb-chain"
       (demo_tester five_boards_service) 200
       (mkData None None None None (Some [active_with_boards 5]) None None)
       [active_with_boards 5] eq_refl eq_refl eq_refl)))))).
  reflexivity.
Defined.

(** ** Forcing stream processing during verification *)

(** X5. The step of verify_active_tournaments that is to force stream
    processing never asks for a board: reading ['id'] of the stored
    tournament, which has no such key, raises before create_board is
    called, and the except block prints the board-creation-failed warning
    with the message ['id'].  So the step sends nothing, and the whole
    verification issues only state queries: two of them, or one when the
    first query raises. *)
Theorem verification_never_creates_a_board
        (expected : Z) (created : list Fresh.created_tournament)
        (s : state Fresh.tester) :
  let force := Fresh.force_stream_processing created in
  let verify := Fresh.verify_active_tournaments expected created in
  let q := state_query_request (self s) in
  fst (force s) = Ok tt /\
  self (snd (force s)) = self s /\
  new_requests force s = [] /\
  new_events force s =
    (if Fresh.is_some
          (find (fun c => String.eqb (Fresh.ct_name c) "eternal_tournament")
                created) &&
        Py.truthy_opt (Fresh.player_chain_id (self s))
     then [EvStreamTriggerFailed "'id'"] else []) /\
  (new_requests verify s = [q; q] \/
   new_requests verify s = [q] /\ exists e, fst (verify s) = Raise e).
Proof.
  cbv zeta. rewrite force_stream_processing_eq. cbn [fst snd self].
  split; [reflexivity|]. split; [reflexivity|]. split; [|split].
  - apply new_requests_eq. rewrite force_stream_processing_eq.
    cbn [snd world].
    match goal with |- context [if ?b then _ else _] => destruct b end;
      cbn; now rewrite app_nil_r.
  - apply new_events_eq. rewrite force_stream_processing_eq.
    cbn [snd world].
    match goal with |- context [if ?b then _ else _] => destruct b end;
      cbn; now rewrite ?app_nil_r.
  - remember (Fresh.verify_active_tournaments expected created s) as r eqn:Hr.
    assert (H : sent (world (snd r)) =
                  sent (world s) ++ [state_query_request (self s);
                                     state_query_request (self s)] \/
                sent (world (snd r)) =
                  sent (world s) ++ [state_query_request (self s)] /\
                exists e, fst r = Raise e).
    { unfold Fresh.verify_active_tournaments in Hr.
      unfold bind at 1 in Hr. cbn [sleep] in Hr.
      set (s0 := mkState (self s) (io_sleep 1 (world s))) in Hr.
      pose proof (query_state_cases s0) as C0. cbv zeta in C0.
      destruct C0 as [Hs0 [_ [Hid0 _]]].
      unfold bind at 1 in Hr.
      destruct (Fresh.query_state s0) as [[st|e] s1]; cbn [fst snd] in *.
      - left. unfold bind at 1 in Hr.
        rewrite force_stream_processing_eq in Hr.
        unfold bind at 1 in Hr. cbn [sleep self world] in Hr.
        match type of Hr with
        | context [bind Fresh.query_state _ ?x] => set (s2 := x) in Hr
        end.
        pose proof (query_state_cases s2) as C2. cbv zeta in C2.
        destruct C2 as [Hs2 _].
        assert (Hsent2 : sent (world s2) = sent (world s1)).
        { subst s2. cbn [world].
          match goal with |- context [if ?b then _ else _] => destruct b end;
          reflexivity. }
        assert (Hq : state_query_request (self s2) =
                     state_query_request (self s)).
        { subst s2. cbn [self]. unfold state_query_request.
          destruct Hid0 as [_ [_ [_ [Hu [Hv _]]]]]. cbn [self] in Hu, Hv.
          now rewrite Hu, Hv. }
        unfold bind at 1 in Hr.
        destruct (Fresh.query_state s2) as [[st2|e2] s3];
          cbn [fst snd] in *; subst r; cbn [snd].
        + rewrite report_filtering_sent, Hs2, Hsent2, Hs0, Hq.
          cbn [world sent io_sleep self]. now rewrite <- app_assoc.
        + rewrite Hs2, Hsent2, Hs0, Hq.
          cbn [world sent io_sleep self]. now rewrite <- app_assoc.
      - right. subst r. cbn [fst snd]. split; [exact Hs0 | eauto]. }
    subst r. destruct H as [H|[H He]].
    + left. now apply new_requests_eq.
    + right. split; [now apply new_requests_eq | exact He].
Qed.

(** ** The board creation validation step *)

Lemma get_tournament_id_by_name_cases name (s : state Fresh.tester) :
  snd (Fresh.get_tournament_id_by_name name s) = snd (Fresh.query_state s) /\
  fst (Fresh.get_tournament_id_by_name name s) =
    match fst (Fresh.query_state s) with
    | Ok (Some d) =>
        Ok (option_map lb_leaderboardId
              (Fresh.find_by_name name
                 (Fresh.my_tournaments (Fresh.username (self s))
                                       (Fresh.state_leaderboards d))))
    | Ok None => Ok None
    | Raise e => Raise e
    end.
Proof.
  remember (Fresh.get_tournament_id_by_name name s) as r eqn:Hr.
  unfold Fresh.get_tournament_id_by_name in Hr. unfold bind at 1 in Hr.
  destruct (query_state_cases s) as [_ [_ [Hid _]]].
  destruct Hid as [_ [_ [_ [_ [Hu _]]]]].
  destruct (Fresh.query_state s) as [[[d|]|e] s1]; cbn [fst snd] in *;
    try (subst r; split; reflexivity).
  unfold bind in Hr. cbn [get_self] in Hr. rewrite Hu in Hr.
  destruct (Fresh.find_by_name _ _); subst r; split; reflexivity.
Qed.

(** The id handed back is that of a listed tournament, so it is not
    empty. *)
Lemma get_tournament_id_by_name_truthy name (s : state Fresh.tester) id :
  fst (Fresh.get_tournament_id_by_name name s) = Ok (Some id) ->
  Py.truthy id = true.
Proof.
  destruct (get_tournament_id_by_name_cases name s) as [_ Hf].
  rewrite Hf.
  destruct (fst (Fresh.query_state s)) as [[d|]|e]; try discriminate.
  destruct (Fresh.find_by_name _ _) as [o|] eqn:Hfind; [|discriminate].
  cbn. intros H. inversion H; subst.
  apply find_by_name_some in Hfind. tauto.
Qed.

(** The except block of the active attempt is never entered with a
    message it accepts. *)
Lemma active_attempt_counts tid (s : state Fresh.tester) :
  fst (Fresh.active_attempt tid s) =
  Ok (match fst (Fresh.create_board tid Fresh.default_board_timestamp s) with
      | Ok (Some b) => if Py.truthy b then 1 else 0
      | _ => 0
      end).
Proof.
  unfold Fresh.active_attempt, try_except. unfold bind at 1.
  pose proof (create_board_raises tid Fresh.default_board_timestamp s) as Hr.
  destruct (Fresh.create_board tid Fresh.default_board_timestamp s)
    as [[[b|]|e] s1]; cbn [fst] in *.
  - destruct (Py.truthy b); reflexivity.
  - reflexivity.
  - pose proof wordings_not_accepted as Hw. rewrite Forall_forall in Hw.
    destruct (Hw e (Hr e eq_refl)) as [_ [_ H5]].
    unfold Fresh.active_except. cbv zeta. rewrite H5. reflexivity.
Qed.

Lemma active_attempt_bound tid (s : state Fresh.tester) :
  exists n, fst (Fresh.active_attempt tid s) = Ok n /\ (n = 0 \/ n = 1).
Proof.
  rewrite active_attempt_counts.
  destruct (fst (Fresh.create_board tid Fresh.default_board_timestamp s))
    as [[b|]|e]; try destruct (Py.truthy b); eauto.
Qed.

(** An attempt on the expired tournament is a test that cannot succeed. *)
Lemma expired_listed_blocks_validation
        (created : list Fresh.created_tournament) (s : state Fresh.tester)
        (id : string) :
  fst (Fresh.get_tournament_id_by_name "past_tournament" s) = Ok (Some id) ->
  fst (Fresh.test_board_creation_validation created s) <> Ok true.
Proof.
  intros Hid. pose proof (get_tournament_id_by_name_truthy _ _ _ Hid) as Ht.
  unfold Fresh.test_board_creation_validation. unfold bind at 1.
  destruct (Fresh.get_tournament_id_by_name "past_tournament" s)
    as [[past|e] s1]; cbn [fst] in Hid; inversion Hid; subst.
  unfold bind at 1.
  destruct (Fresh.get_tournament_id_by_name "active_tournament" s1)
    as [[active|e] s2]; [|cbn; discriminate].
  rewrite Ht. unfold bind at 1. unfold bind at 1.
  pose proof (past_attempt_never_counts id s2) as Hp.
  destruct (Fresh.past_attempt id s2) as [[n|e] s3]; cbn [fst] in Hp;
    inversion Hp; subst.
  cbn [ret]. unfold bind at 1.
  assert (Ha : forall s4, exists s5 n t,
    match active with
    | Some id0 =>
        if Py.truthy id0
        then n0 <- Fresh.active_attempt id0 ;; ret (n0, 1)
        else log EvActiveSkipped ;; ret (0, 0)
    | None => log EvActiveSkipped ;; ret (0, 0)
    end s4 = (Ok (n, t), s5) /\ n <= t /\ 0 <= t).
  { intros s4. destruct active as [id0|].
    - destruct (Py.truthy id0).
      + unfold bind. destruct (active_attempt_bound id0 s4) as [n [Hn Hb]].
        destruct (Fresh.active_attempt id0 s4) as [[m|e] s5];
          cbn [fst] in Hn; inversion Hn; subst.
        exists s5, n, 1. split; [reflexivity | lia].
      + eexists _, 0, 0. split; [reflexivity | lia].
    - eexists _, 0, 0. split; [reflexivity | lia]. }
  destruct (Ha s3) as [s5 [n [t [E [Hle Ht0]]]]]. rewrite E.
  cbv [fst snd].
  match goal with
  | |- context [?a <? ?b] => destruct (a <? b) eqn:Hpos
  end.
  - unfold bind, log, ret. intros H.
    assert (Heq : (0 + n =? 1 + t) = true) by congruence.
    apply Z.eqb_eq in Heq. lia.
  - apply Z.ltb_ge in Hpos. lia.
Qed.

(** X6. Once the expired tournament is listed among the player's own,
    test_board_creation_validation cannot return True: the attempt on it
    counts as a test, and neither a returned board id, nor None, nor any
    exception create_board can raise is counted as a success, since the
    messages the except block accepts are none of theirs. *)
Theorem validation_cannot_pass_once_expired_is_listed
        (created : list Fresh.created_tournament) (s : state Fresh.tester)
        (id : string) :
  fst (Fresh.get_tournament_id_by_name "past_tournament" s) = Ok (Some id) ->
  fst (Fresh.test_board_creation_validation created s) <> Ok true.
Proof. apply expired_listed_blocks_validation. Qed.

Lemma validation_cannot_pass_once_expired_is_listed_witness :
  fst (Fresh.test_board_creation_validation []
         (demo_tester expired_listed_service)) <> Ok true.
Proof.
  apply (validation_cannot_pass_once_expired_is_listed []
           (demo_tester expired_listed_service) "T-past").
  reflexivity.
Defined.

(** When the state query's reply decodes to None, query_state prints the
    transport's line and "Failed to query state", and returns a false
    state. *)
Lemma query_state_on_none (s : state Fresh.tester) :
  decode true (next_response s) = Ok None ->
  Fresh.query_state s =
  (Ok None,
   after_request (state_query_request (self s))
                 (transport_events true (next_response s) ++
                  [EvStateQueryFailed]) s).
Proof.
  intros Hd. unfold Fresh.query_state, Fresh.request.
  unfold bind at 1. cbn [get_self].
  unfold bind at 1. rewrite make_graphql_request_eq, Hd.
  cbn [has_data]. unfold bind, log, ret, io_log, after_request.
  cbn [self world net sent slept now_us disk_ok written out].
  rewrite <- app_assoc. reflexivity.
Qed.

Lemma get_tournament_id_by_name_on_none name (s : state Fresh.tester) :
  decode true (next_response s) = Ok None ->
  Fresh.get_tournament_id_by_name name s =
  (Ok None,
   after_request (state_query_request (self s))
                 (transport_events true (next_response s) ++
                  [EvStateQueryFailed]) s).
Proof.
  intros Hd. unfold Fresh.get_tournament_id_by_name. unfold bind at 1.
  rewrite (query_state_on_none s Hd). reflexivity.
Qed.

(** X7. When neither state query of test_board_creation_validation gets
    through (a timeout, a failed connection, an HTTP error status), no
    tournament is found, no board is asked for, both tests are skipped,
    and the step returns True: with an unreachable service the validation
    passes, having run no test. *)
Theorem validation_passes_when_no_test_ran
        (created : list Fresh.created_tournament) (s : state Fresh.tester) :
  is_transport_failure (next_response s) = true ->
  is_transport_failure (second_response s) = true ->
  let call := Fresh.test_board_creation_validation created in
  fst (call s) = Ok true /\
  new_requests call s =
    [state_query_request (self s); state_query_request (self s)] /\
  new_events call s =
    transport_events true (next_response s) ++ [EvStateQueryFailed] ++
    transport_events true (second_response s) ++
    [EvStateQueryFailed; EvPastSkipped; EvActiveSkipped;
     EvNoValidationTests].
Proof.
  intros H1 H2. cbv zeta.
  pose proof (decode_collapses _ (or_intror H1)) as D1.
  pose proof (decode_collapses _ (or_intror H2)) as D2.
  set (q := state_query_request (self s)).
  set (s1 := after_request q (transport_events true (next_response s) ++
                              [EvStateQueryFailed]) s).
  assert (N : next_response s1 = second_response s).
  { apply (next_response_after s s1 q); reflexivity. }
  assert (E : Fresh.test_board_creation_validation created s =
    (Ok true,
     after_request q
       (transport_events true (second_response s) ++
        [EvStateQueryFailed; EvPastSkipped; EvActiveSkipped;
         EvNoValidationTests]) s1)).
  { unfold Fresh.test_board_creation_validation. unfold bind at 1.
    rewrite (get_tournament_id_by_name_on_none _ s D1). fold q. fold s1.
    unfold bind at 1.
    rewrite (get_tournament_id_by_name_on_none _ s1); [|now rewrite N].
    rewrite N. change (state_query_request (self s1)) with q.
    unfold bind, log, ret, io_log, after_request.
    cbn [self world net sent slept now_us disk_ok written out fst snd].
    cbn [Z.add Z.ltb Z.compare].
    cbn [self world net sent slept now_us disk_ok written out fst snd].
    rewrite <- !app_assoc. reflexivity. }
  rewrite E. split; [reflexivity|]. split.
  - apply new_requests_eq. rewrite E. unfold s1, after_request.
    cbn [snd self world sent]. now rewrite <- app_assoc.
  - apply new_events_eq. rewrite E. unfold s1, after_request.
    cbn [snd self world out]. now rewrite <- !app_assoc.
Qed.

Lemma validation_passes_when_no_test_ran_witness :
  fst (Fresh.test_board_creation_validation []
         (demo_tester silent_service)) = Ok true.
Proof.
  apply (validation_passes_when_no_test_ran [] (demo_tester silent_service));
    reflexivity.
Defined.

Lemma emits_create_board (P : event -> Prop) tid ts :
  allows_transport P ->
  P EvNoPlayerChain -> P EvBoardSubmitted -> P EvBoardNotFound ->
  P EvBoardsQueryFailed -> P EvBoardCreateFailed ->
  (forall b, P (EvBoardFound b)) ->
  emits P any_request (Fresh.create_board tid ts).
Proof.
  intros Ht H1 H2 H3 H4 H5 H6.
  unfold Fresh.create_board, Fresh.request. emits; try exact I; auto with emits.
Qed.

Lemma active_attempt_eq tid (s : state Fresh.tester) :
  let r := Fresh.create_board tid Fresh.default_board_timestamp s in
  let verdict :=
    match fst r with
    | Ok (Some b) =>
        if Py.truthy b then (1, EvActiveAccepted b)
        else (0, EvActiveReturnedNone)
    | Ok None => (0, EvActiveReturnedNone)
    | Raise e => (0, EvActiveUnexpectedError (Py.exn_msg e))
    end in
  Fresh.active_attempt tid s =
  (Ok (fst verdict),
   mkState (self (snd r)) (io_log (snd verdict) (world (snd r)))).
Proof.
  cbv zeta. unfold Fresh.active_attempt, try_except. unfold bind at 1.
  pose proof (create_board_raises tid Fresh.default_board_timestamp s) as Hr.
  destruct (Fresh.create_board tid Fresh.default_board_timestamp s)
    as [[[b|]|e] s1]; cbn [fst snd] in *.
  - destruct (Py.truthy b); reflexivity.
  - reflexivity.
  - pose proof wordings_not_accepted as Hw. rewrite Forall_forall in Hw.
    destruct (Hw e (Hr e eq_refl)) as [_ [_ H5]].
    unfold Fresh.active_except. cbv zeta. rewrite H5. reflexivity.
Qed.

(** X8. The attempt on the active tournament adds one to the success
    count exactly when create_board returns a non-empty board id.  An
    exception out of create_board is never counted: none of the exceptions
    it can raise carries the "HTTP Error 500 ... runtime error" message
    the except block accepts, so the attempt ends in the unexpected-error
    line and the cache-sync line is never printed. *)
Theorem active_attempt_counts_only_returned_boards
        (tid : string) (s : state Fresh.tester) :
  let board := fst (Fresh.create_board tid Fresh.default_board_timestamp s) in
  let attempt := Fresh.active_attempt tid in
  (fst (attempt s) = Ok 1 <->
   exists b, board = Ok (Some b) /\ Py.truthy b = true) /\
  (fst (attempt s) = Ok 1 \/ fst (attempt s) = Ok 0) /\
  (forall e, board = Raise e ->
     fst (attempt s) = Ok 0 /\
     exists lines,
       new_events attempt s = lines ++ [EvActiveUnexpectedError (Py.exn_msg e)]) /\
  ~ In EvActiveCacheSync (new_events attempt s).
Proof.
  cbv zeta. pose proof (active_attempt_eq tid s) as E. cbv zeta in E.
  assert (Hc : emits (fun e => e <> EvActiveCacheSync) any_request
                     (Fresh.create_board tid Fresh.default_board_timestamp)).
  { apply emits_create_board; repeat split; intros; discriminate. }
  destruct (Hc s) as [rs [es [_ [Ho [_ HP]]]]].
  remember (Fresh.create_board tid Fresh.default_board_timestamp s) as r
    eqn:Hr. clear Hr.
  split; [|split; [|split]].
  - rewrite E. cbn [fst]. split.
    + destruct (fst r) as [[b|]|e]; try discriminate.
      destruct (Py.truthy b) eqn:Hb; [eauto | discriminate].
    + intros [b [-> Hb]]. now rewrite Hb.
  - rewrite E. cbn [fst].
    destruct (fst r) as [[b|]|e]; try destruct (Py.truthy b); auto.
  - intros e He. rewrite E, He. cbn [fst snd]. split; [reflexivity|].
    exists es. apply new_events_eq. rewrite E, He.
    cbn [fst snd world io_log out]. now rewrite Ho, <- app_assoc.
  - assert (Hn : new_events (Fresh.active_attempt tid) s =
                 es ++ [snd match fst r with
                            | Ok (Some b) =>
                                if Py.truthy b then (1, EvActiveAccepted b)
                                else (0, EvActiveReturnedNone)
                            | Ok None => (0, EvActiveReturnedNone)
                            | Raise e =>
                                (0, EvActiveUnexpectedError (Py.exn_msg e))
                            end]).
    { apply new_events_eq. rewrite E.
      cbn [fst snd world io_log out]. now rewrite Ho, <- app_assoc. }
    rewrite Hn. intros Hin. apply in_app_or in Hin. destruct Hin as [Hin|Hin].
    + rewrite Forall_forall in HP. now apply (HP _ Hin).
    + destruct Hin as [Hin|[]].
      destruct (fst r) as [[b|]|e]; try destruct (Py.truthy b);
        discriminate.
Qed.

Lemma active_attempt_counts_only_returned_boards_witness :
  fst (Fresh.active_attempt "T-active" (demo_tester empty_errors_service)) =
    Ok 0 /\
  exists lines,
    new_events (Fresh.active_attempt "T-active")
               (demo_tester empty_errors_service) =
    lines ++ [EvActiveUnexpectedError "list index out of range"].
Proof.
  apply (proj1 (proj2 (proj2
    (active_attempt_counts_only_returned_boards "T-active"
       (demo_tester empty_errors_service)))) Py.IndexError_list).
  reflexivity.
Defined.

(** ** The numbered tournaments of run_full_test *)

Lemma create_numbered_step_eq count i (s : state Fresh.tester) :
  let r := Fresh.create_numbered_step count i s in
  sent (world (snd r)) = sent (world s) ++ [numbered_request (self s) i] /\
  net (world (snd r)) = net (world s) /\
  match created_id (next_response s) with
  | Some id =>
      fst r = Ok None /\
      self (snd r) =
        Fresh.set_tournaments (Fresh.tournaments (self s) ++ [id]) (self s)
  | None =>
      self (snd r) = self s /\
      (fst r = Ok (Some false) \/ exists e, fst r = Raise e)
  end.
Proof.
  cbv zeta.
  remember (Fresh.create_numbered_step count i s) as r eqn:Hr.
  unfold Fresh.create_numbered_step, Fresh.create_tournament,
    Fresh.create_tournament_with_time, Fresh.request in Hr.
  unfold bind at 1 2 in Hr. cbn [get_self] in Hr.
  unfold bind at 1 in Hr. rewrite make_graphql_request_eq in Hr.
  unfold created_id, numbered_request.
  change (Py.str 0) with "0" in Hr.
  destruct (decode true (next_response s)) as [result|e].
  - destruct (has_data result); cbn [ret] in Hr.
    + rewrite bind_data_of in Hr.
      destruct (data_outcome_cases result) as [[d [Hd Hf]]|[e [Hd Hf]]];
        rewrite Hd in Hr; rewrite Hf.
      * cbn [ret] in Hr.
        destruct (scalar_payload d_leaderboardAction d) as [id|].
        -- destruct (Py.truthy id).
           ++ destruct (i <? count); subst r; cbn; auto.
           ++ subst r; cbn; auto.
        -- subst r; cbn; auto.
      * subst r; cbn; eauto 6.
    + subst r; cbn; auto.
  - subst r; cbn; eauto 6.
Qed.

Lemma create_numbered_loop count (l : list Z) :
  forall (s : state Fresh.tester),
  let r := for_each l (Fresh.create_numbered_step count) s in
  let ids := accepted_ids (net (world s)) (List.length (sent (world s)))
                          (List.length l) in
  sent (world (snd r)) =
    sent (world s) ++
    map (numbered_request (self s)) (firstn (S (List.length ids)) l) /\
  self (snd r) =
    Fresh.set_tournaments (Fresh.tournaments (self s) ++ ids) (self s) /\
  (if Nat.eqb (List.length ids) (List.length l)
   then fst r = Ok None
   else fst r = Ok (Some false) \/ exists e, fst r = Raise e).
Proof.
  induction l as [|i rest IH]; intros s; cbv zeta;
    cbn [for_each List.length accepted_ids].
  - cbn. rewrite !app_nil_r. destruct s as [[] w]; auto.
  - unfold bind.
    pose proof (create_numbered_step_eq count i s) as [Hsent [Hnet Hres]].
    unfold next_response in Hres.
    destruct (created_id (net (world s) (List.length (sent (world s)))))
      as [id|] eqn:Hacc.
    + destruct Hres as [Hfst Hself].
      destruct (Fresh.create_numbered_step count i s) as [o s1].
      cbn [fst snd] in *. subst o.
      specialize (IH s1). cbv zeta in IH.
      destruct IH as [IHsent [IHself IHres]].
      rewrite Hnet, Hsent, length_app in IHsent, IHself, IHres.
      cbn [List.length] in IHsent, IHself, IHres.
      rewrite Nat.add_1_r in IHsent, IHself, IHres.
      rewrite Hself in IHsent, IHself.
      cbn [List.length firstn map Nat.eqb].
      split; [|split].
      * rewrite IHsent, <- app_assoc. reflexivity.
      * rewrite IHself. unfold Fresh.set_tournaments.
        cbn. now rewrite <- app_assoc.
      * exact IHres.
    + destruct Hres as [Hself Hfst].
      destruct (Fresh.create_numbered_step count i s) as [o s1].
      cbn [fst snd] in *.
      cbn [List.length firstn map Nat.eqb]. rewrite app_nil_r.
      destruct Hfst as [->|[e ->]]; cbn [fst snd ret];
        rewrite Hsent, Hself; destruct s as [[] w]; cbn; eauto.
Qed.

Lemma one_to_length count : List.length (Fresh.one_to count) = Z.to_nat count.
Proof. unfold Fresh.one_to. now rewrite length_map, range_length. Qed.

(** X9. create_multiple_tournaments asks for the tournaments
    tournament_1, tournament_2, ... in order, each with the open window
    "0".."0", up to and including the first whose creation does not yield
    a non-empty id, and for none after it.  The ids of the creations
    accepted so far are appended to self.tournaments, also when the loop
    then fails; the result is True exactly when every creation was
    accepted, which for a count below one means True without a single
    request. *)
Theorem numbered_tournaments_stop_at_first_failure
        (count : Z) (s : state Fresh.tester) :
  let call := Fresh.create_multiple_tournaments count in
  let ids := accepted_ids (net (world s)) (List.length (sent (world s)))
                          (Z.to_nat count) in
  new_requests call s =
    map (numbered_request (self s))
        (firstn (S (List.length ids)) (Fresh.one_to count)) /\
  Fresh.tournaments (self (snd (call s))) = Fresh.tournaments (self s) ++ ids /\
  (List.length ids = Z.to_nat count -> fst (call s) = Ok true) /\
  ((List.length ids < Z.to_nat count)%nat ->
   fst (call s) = Ok false \/ exists e, fst (call s) = Raise e) /\
  (count <= 0 -> fst (call s) = Ok true /\ new_requests call s = []).
Proof.
  cbv zeta.
  pose proof (create_numbered_loop count (Fresh.one_to count) s) as H.
  cbv zeta in H. rewrite one_to_length in H.
  destruct H as [Hsent [Hself Hres]].
  remember (accepted_ids (net (world s)) (List.length (sent (world s)))
                         (Z.to_nat count)) as ids eqn:Hids.
  assert (E : Fresh.create_multiple_tournaments count s =
              (match fst (for_each (Fresh.one_to count)
                                   (Fresh.create_numbered_step count) s) with
               | Ok (Some b) => Ok b
               | Ok None => Ok true
               | Raise e => Raise e
               end,
               snd (for_each (Fresh.one_to count)
                             (Fresh.create_numbered_step count) s))).
  { unfold Fresh.create_multiple_tournaments, bind.
    destruct (for_each _ _ s) as [[[b|]|e] s1]; reflexivity. }
  assert (Hreq : new_requests (Fresh.create_multiple_tournaments count) s =
                 map (numbered_request (self s))
                     (firstn (S (List.length ids)) (Fresh.one_to count))).
  { apply new_requests_eq. rewrite E. exact Hsent. }
  split; [exact Hreq|]. split; [|split; [|split]].
  - rewrite E. cbn [snd]. now rewrite Hself.
  - intros Hlen. rewrite E. cbn [fst].
    rewrite Hlen, Nat.eqb_refl in Hres. now rewrite Hres.
  - intros Hlen. rewrite E. cbn [fst].
    apply Nat.lt_neq, Nat.eqb_neq in Hlen. rewrite Hlen in Hres.
    destruct Hres as [->|[e ->]]; eauto.
  - intros Hc. assert (Hz : Z.to_nat count = O) by lia.
    rewrite Hz in Hids. cbn in Hids. subst ids.
    rewrite Hz in Hres. cbn in Hres. split.
    + rewrite E. cbn [fst]. now rewrite Hres.
    + rewrite Hreq. unfold Fresh.one_to, Py.range. now rewrite Hz.
Qed.

Lemma numbered_tournaments_stop_at_first_failure_witness :
  fst (Fresh.create_multiple_tournaments 2 (demo_tester numbering_service)) =
    Ok true /\
  (fst (Fresh.create_multiple_tournaments 2 (demo_tester failing_second)) =
     Ok false \/
   exists e,
     fst (Fresh.create_multiple_tournaments 2 (demo_tester failing_second)) =
       Raise e) /\
  fst (Fresh.create_multiple_tournaments 0 (demo_tester silent_service)) =
    Ok true /\
  new_requests (Fresh.create_multiple_tournaments 0)
               (demo_tester silent_service) = [].
Proof.
  split; [|split].
  - apply (proj1 (proj2 (proj2
      (numbered_tournaments_stop_at_first_failure 2
         (demo_tester numbering_service))))).
    reflexivity.
  - apply (proj1 (proj2 (proj2 (proj2
      (numbered_tournaments_stop_at_first_failure 2
         (demo_tester failing_second)))))).
    vm_compute. lia.
  - apply (proj2 (proj2 (proj2 (proj2
      (numbered_tournaments_stop_at_first_failure 0
         (demo_tester silent_service)))))).
    lia.
Defined.

(** ** Moves on the stored boards *)

Lemma reader_outcome_readable resp :
  reader_raises resp = false -> exists b, reader_outcome resp = Ok b.
Proof.
  unfold reader_raises. destruct (reader_outcome resp); [eauto|discriminate].
Qed.

Lemma make_moves_eq board_id n (s : state Fresh.tester) chain :
  Fresh.player_chain_id (self s) = Some chain ->
  Py.truthy chain = true ->
  Fresh.make_moves board_id n s =
  (reader_outcome (next_response s),
   after_request (move_request (self s) chain board_id n)
     (transport_events true (next_response s) ++
      match reader_outcome (next_response s) with
      | Ok true => [EvMovesOk]
      | Ok false => [EvMovesFailed]
      | Raise _ => []
      end) s).
Proof.
  intros Hc Ht. unfold Fresh.make_moves, Fresh.request.
  unfold bind at 1. cbn [get_self]. rewrite Hc, Ht. cbn [negb].
  unfold bind at 1. rewrite make_graphql_request_eq.
  unfold move_request, reader_outcome.
  destruct (decode true (next_response s)) as [r|e].
  - destruct (has_data r); [rewrite bind_data_of; destruct (data_outcome r)|];
      unfold bind, log, ret, io_log, after_request;
      cbn [self world net sent slept now_us disk_ok written out];
      rewrite <- ?app_assoc, ?app_nil_r; reflexivity.
  - now rewrite app_nil_r.
Qed.

(** One pass over a list of boards, [n] moves each, a second's pause after
    every board. *)
Lemma moves_pass n chain (l : list Fresh.board_info) :
  forall (s : state Fresh.tester),
  Fresh.player_chain_id (self s) = Some chain ->
  Py.truthy chain = true ->
  replies_readable (net (world s)) ->
  let r := for_fold l tt (fun _ board_info =>
             _ <- Fresh.make_moves (Fresh.bi_board_id board_info) n ;;
             sleep 1) s in
  fst r = Ok tt /\
  self (snd r) = self s /\
  net (world (snd r)) = net (world s) /\
  sent (world (snd r)) =
    sent (world s) ++
    map (fun b => move_request (self s) chain (Fresh.bi_board_id b) n) l /\
  slept (world (snd r)) = slept (world s) + Z.of_nat (List.length l).
Proof.
  induction l as [|b rest IH]; intros s Hc Ht Hne; cbv zeta;
    cbn [for_fold map List.length].
  - cbn. rewrite app_nil_r. repeat split; lia.
  - destruct (reader_outcome_readable _ (Hne (List.length (sent (world s)))))
      as [res Hres].
    set (s1 := mkState (self s)
           (io_sleep 1
              (world (after_request
                        (move_request (self s) chain (Fresh.bi_board_id b) n)
                        (transport_events true (next_response s) ++
                         (if res then [EvMovesOk]
                          else [EvMovesFailed])) s)))).
    match goal with
    | |- fst (?c s) = _ /\ _ =>
        assert (E : c s =
                    for_fold rest tt (fun _ board_info =>
                      _ <- Fresh.make_moves (Fresh.bi_board_id board_info) n ;;
                      sleep 1) s1)
    end.
    { unfold bind at 1. unfold bind at 1.
      rewrite (make_moves_eq _ _ _ _ Hc Ht).
      unfold next_response. rewrite Hres. destruct res; reflexivity. }
    rewrite E.
    specialize (IH s1 Hc Ht Hne). cbv zeta in IH.
    destruct IH as [Hf [Hself [Hnet [Hsent Hslept]]]].
    split; [exact Hf|]. split; [exact Hself|]. split; [exact Hnet|]. split.
    + rewrite Hsent. subst s1. cbn [self world sent after_request io_sleep].
      now rewrite <- app_assoc.
    + rewrite Hslept. subst s1. cbn [self world slept after_request io_sleep].
      lia.
Qed.

Lemma trigger_round_eq round_num chain (s : state Fresh.tester) :
  Fresh.player_chain_id (self s) = Some chain ->
  Py.truthy chain = true ->
  replies_readable (net (world s)) ->
  let r := Fresh.trigger_round round_num s in
  fst r = Ok tt /\
  self (snd r) = self s /\
  net (world (snd r)) = net (world s) /\
  sent (world (snd r)) =
    sent (world s) ++ pass_requests (self s) chain (8 + round_num * 3) /\
  slept (world (snd r)) =
    slept (world s) + Z.of_nat (List.length (Fresh.boards (self s))) + 1 +
    (if round_num <? 2 then 1 else 0).
Proof.
  intros Hc Ht Hne. cbv zeta.
  pose proof (moves_pass (8 + round_num * 3) chain (Fresh.boards (self s))
                         s Hc Ht Hne) as H.
  cbv zeta in H. destruct H as [Hf [Hself [Hnet [Hsent Hslept]]]].
  remember (Fresh.trigger_round round_num s) as r eqn:Hr.
  unfold Fresh.trigger_round in Hr. unfold bind at 1 in Hr.
  cbn [get_self] in Hr. unfold bind at 1 in Hr.
  destruct (for_fold (Fresh.boards (self s)) tt _ s) as [o s1].
  cbn [fst snd] in *. subst o.
  unfold bind, sleep, when in Hr.
  unfold pass_requests.
  destruct (round_num <? 2); subst r; cbn [fst snd self world io_sleep
    net sent slept ret]; rewrite ?Hself, ?Hnet, ?Hsent, ?Hslept;
    repeat split; lia.
Qed.



(** ** Every step of test_tournaments_fresh.py only adds requests and lines *)

Lemma emits_weaken {Self A} (P P' : event -> Prop) (Q Q' : request -> Prop)
      (c : M Self A) :
  (forall e, P e -> P' e) -> (forall r, Q r -> Q' r) ->
  emits P Q c -> emits P' Q' c.
Proof.
  intros HP HQ Hc s. destruct (Hc s) as [rs [es [Hs [Ho [Hq Hp]]]]].
  exists rs, es. repeat split; auto; eapply Forall_impl; eauto.
Qed.

Lemma emits_make_moves b n :
  emits any_event any_request (Fresh.make_moves b n).
Proof. unfold Fresh.make_moves, Fresh.request. emits_any. Qed.

Lemma emits_query_state : emits any_event any_request Fresh.query_state.
Proof. unfold Fresh.query_state, Fresh.request. emits_any. Qed.

Lemma emits_any_create_board tid ts :
  emits any_event any_request (Fresh.create_board tid ts).
Proof. apply emits_create_board; repeat split. Qed.

Lemma emits_get_tournament_id name :
  emits any_event any_request (Fresh.get_tournament_id_by_name name).
Proof.
  unfold Fresh.get_tournament_id_by_name. pose proof emits_query_state.
  emits_any.
Qed.

Lemma emits_any_check_leaderboard_scores :
  emits any_event any_request Fresh.check_leaderboard_scores.
Proof.
  apply (emits_weaken positive_total any_event any_request any_request);
    [intros; exact I | auto | apply emits_check_leaderboard_scores].
Qed.

Lemma emits_create_multiple_tournaments count :
  emits any_event any_request (Fresh.create_multiple_tournaments count).
Proof.
  unfold Fresh.create_multiple_tournaments, Fresh.create_numbered_step,
    Fresh.create_tournament, Fresh.create_tournament_with_time, Fresh.request.
  emits_any.
Qed.

Lemma emits_create_multiple_test_tournaments :
  emits any_event any_request Fresh.create_multiple_test_tournaments.
Proof.
  unfold Fresh.create_multiple_test_tournaments, Fresh.create_scenario_step,
    Fresh.create_tournament_with_time, Fresh.request.
  emits_any.
Qed.

Lemma emits_trigger_tournament_update :
  emits any_event any_request Fresh.trigger_tournament_update.
Proof. unfold Fresh.trigger_tournament_update, Fresh.request. emits_any. Qed.

Lemma emits_verify_active_tournaments expected created :
  emits any_event any_request
        (Fresh.verify_active_tournaments expected created).
Proof.
  unfold Fresh.verify_active_tournaments, Fresh.force_stream_processing,
    Fresh.report_filtering.
  pose proof emits_query_state. pose proof emits_any_create_board.
  emits_any.
Qed.

Lemma emits_test_board_creation_validation created :
  emits any_event any_request (Fresh.test_board_creation_validation created).
Proof.
  unfold Fresh.test_board_creation_validation, Fresh.past_attempt,
    Fresh.past_except, Fresh.active_attempt, Fresh.active_except.
  pose proof emits_get_tournament_id. pose proof emits_any_create_board.
  emits_any.
Qed.

Lemma emits_streaming_step id :
  emits any_event any_request (Fresh.streaming_step id).
Proof.
  unfold Fresh.streaming_step.
  pose proof emits_any_create_board. pose proof emits_make_moves.
  pose proof emits_any_check_leaderboard_scores.
  emits_any.
Qed.

Lemma emits_test_board_creation_and_moves :
  emits any_event any_request Fresh.test_board_creation_and_moves.
Proof.
  unfold Fresh.test_board_creation_and_moves, Fresh.board_and_moves_step.
  pose proof emits_query_state. pose proof emits_any_create_board.
  pose proof emits_make_moves.
  emits_any.
Qed.

Lemma emits_test_additional_moves :
  emits any_event any_request Fresh.test_additional_moves.
Proof.
  unfold Fresh.test_additional_moves. pose proof emits_make_moves. emits_any.
Qed.

Lemma emits_test_trigger_cycle_verification :
  emits any_event any_request Fresh.test_trigger_cycle_verification.
Proof.
  unfold Fresh.test_trigger_cycle_verification, Fresh.trigger_round.
  pose proof emits_make_moves. emits_any.
Qed.

(** ** The command line of test_tournaments_fresh.py *)

Lemma register_player_eq (s : state Fresh.tester) :
  Fresh.register_player s =
  (reader_outcome (next_response s),
   after_request (player_registration (self s))
     (transport_events true (next_response s) ++
      match decode true (next_response s) with
      | Ok r => if has_data r then [EvPlayerRegistered]
                else [EvPlayerRegisterFailed]
      | Raise _ => []
      end) s).
Proof.
  unfold Fresh.register_player, Fresh.request.
  unfold bind at 1. cbn [get_self].
  unfold bind at 1. rewrite make_graphql_request_eq.
  unfold player_registration, reader_outcome.
  destruct (decode true (next_response s)) as [r|e].
  - destruct (has_data r);
      [unfold bind at 1; cbn [log]; rewrite bind_data_of;
       destruct (data_outcome r)|];
      unfold bind, log, ret, io_log, after_request;
      cbn [self world net sent slept now_us disk_ok written out];
      rewrite <- app_assoc; reflexivity.
  - now rewrite app_nil_r.
Qed.

(** A run that starts with the registration and gives up when it is
    refused. *)
Lemma registers_first (k : bool -> M Fresh.tester bool) (s : state Fresh.tester) :
  (forall b, emits any_event any_request (k b)) ->
  k false = ret false ->
  (exists rest,
      sent (world (snd (bind Fresh.register_player k s))) =
      sent (world s) ++ player_registration (self s) :: rest) /\
  (fst (Fresh.register_player s) = Ok false ->
   bind Fresh.register_player k s = (Ok false, snd (Fresh.register_player s))).
Proof.
  intros Hk Hfalse. unfold bind. rewrite register_player_eq.
  destruct (reader_outcome (next_response s)) as [b|e]; cbn [fst snd].
  - match goal with
    | |- context [k b ?x] => set (s1 := x)
    end.
    destruct (Hk b s1) as [l [es [Hl _]]].
    split.
    + rewrite Hl. subst s1. cbn [after_request world sent].
      rewrite <- app_assoc. cbn. eauto.
    + intros Hb. inversion Hb as [Hb']. rewrite Hfalse. reflexivity.
  - split; [|discriminate]. cbn. exists []. reflexivity.
Qed.

(** Both runs begin with the registration, and end there with False when
    it is not accepted. *)
Lemma fresh_runs_register_first count (s : state Fresh.tester) :
  forall run,
  run = Fresh.run_full_test count \/ run = Fresh.run_tournament_validation_test ->
  (exists rest, sent (world (snd (run s))) =
                sent (world s) ++ player_registration (self s) :: rest) /\
  (fst (Fresh.register_player s) = Ok false ->
   run s = (Ok false, snd (Fresh.register_player s))).
Proof.
  intros run [->| ->].
  - unfold Fresh.run_full_test. apply registers_first; [|reflexivity].
    intros b.
    pose proof emits_create_multiple_tournaments.
    pose proof emits_query_state.
    pose proof emits_test_board_creation_and_moves.
    pose proof emits_test_additional_moves.
    pose proof emits_test_trigger_cycle_verification.
    pose proof emits_any_check_leaderboard_scores.
    emits_any.
  - unfold Fresh.run_tournament_validation_test.
    apply registers_first; [|reflexivity].
    intros b.
    pose proof emits_create_multiple_test_tournaments.
    pose proof emits_trigger_tournament_update.
    pose proof emits_verify_active_tournaments.
    pose proof emits_test_board_creation_validation.
    pose proof emits_get_tournament_id.
    pose proof emits_streaming_step.
    repeat first [emits_step | progress cbv zeta];
      try exact I; auto with emits.
Qed.

Lemma exit_after_run count (s : state Fresh.tester) run :
  run = Fresh.run_full_test count \/ run = Fresh.run_tournament_validation_test ->
  exists rest,
    sent (snd (Fresh.exit_after (run s))) =
      sent (world s) ++ player_registration (self s) :: rest /\
    (is_transport_failure (next_response s) = true ->
     rest = [] /\ fst (Fresh.exit_after (run s)) = Fresh.Exit 1).
Proof.
  intros Hrun.
  destruct (fresh_runs_register_first count s run Hrun) as [[rest Hrest] Hstop].
  assert (Hsent : sent (snd (Fresh.exit_after (run s))) =
                  sent (world (snd (run s)))).
  { unfold Fresh.exit_after. destruct (run s) as [[b|e] s1]; reflexivity. }
  exists rest. split; [now rewrite Hsent|].
  intros Hfail.
  pose proof (decode_collapses _ (or_intror Hfail)) as Hd.
  assert (Hreg : Fresh.register_player s =
                 (Ok false,
                  after_request (player_registration (self s))
                    (transport_events true (next_response s) ++
                     [EvPlayerRegisterFailed]) s)).
  { rewrite register_player_eq. unfold reader_outcome. rewrite Hd.
    reflexivity. }
  rewrite Hreg in Hstop. cbn [fst snd] in Hstop.
  specialize (Hstop eq_refl). rewrite Hstop in Hrest |- *.
  cbn [snd after_request world sent] in Hrest. split; [|reflexivity].
  apply app_inv_head in Hrest. now inversion Hrest.
Qed.

(** X11. main() of test_tournaments_fresh.py decides on its arguments
    before it touches the network.  With fewer than two arguments, or with
    a third argument that is not the word validation (in any letter case)
    and is not an integer of at least one, it exits with code 1 and leaves
    the world as it was.  With two arguments and either no third, or the
    word validation, or an integer of at least one, it runs the test
    chosen (the full test with that count, three by default, or the
    validation test), and the first request it sends registers the player
    test_<suffix> on the main chain at http://localhost:8088; when that
    request does not get through it is the only request and the exit code
    is 1. *)
Theorem fresh_main_checks_arguments_first
        (py_int : string -> option Z) (argv : list string) (suffix : string)
        (w : io) :
  let r := Fresh.main py_int argv suffix w in
  ((List.length argv < 3)%nat -> r = (Fresh.Exit 1, w)) /\
  (forall third,
     nth_error argv 3 = Some third -> wants_validation third = false ->
     (py_int third = None \/ exists n, py_int third = Some n /\ n < 1) ->
     r = (Fresh.Exit 1, w)) /\
  (forall chain_id app_id,
     nth_error argv 1 = Some chain_id -> nth_error argv 2 = Some app_id ->
     let s0 := mkState (main_tester chain_id app_id suffix) w in
     (nth_error argv 3 = None ->
      r = Fresh.exit_after (Fresh.run_full_test 3 s0)) /\
     (forall third, nth_error argv 3 = Some third ->
        wants_validation third = true ->
        r = Fresh.exit_after (Fresh.run_tournament_validation_test s0)) /\
     (forall third n, nth_error argv 3 = Some third ->
        wants_validation third = false -> py_int third = Some n -> 1 <= n ->
        r = Fresh.exit_after (Fresh.run_full_test n s0)) /\
     ((forall third, nth_error argv 3 = Some third ->
         wants_validation third = true \/
         exists n, py_int third = Some n /\ 1 <= n) ->
      exists rest,
        sent (snd r) =
          sent w ++
          player_registration (main_tester chain_id app_id suffix) :: rest /\
        (is_transport_failure (net w (List.length (sent w))) = true ->
         rest = [] /\ fst r = Fresh.Exit 1))).
Proof.
  cbv zeta. split; [|split].
  - intros Hlen. destruct argv as [|a0 [|a1 [|a2 rest]]]; try reflexivity.
    cbn in Hlen. lia.
  - intros third Hthird Hval Hint.
    destruct argv as [|a0 [|a1 [|a2 [|a3 rest]]]]; try discriminate.
    cbn in Hthird. inversion Hthird; subst a3.
    unfold Fresh.main. unfold wants_validation in Hval. rewrite Hval.
    destruct Hint as [->|[n [-> Hn]]]; [reflexivity|].
    apply Z.ltb_lt in Hn. now rewrite Hn.
  - intros chain_id app_id Hc Ha.
    destruct argv as [|a0 [|a1 [|a2 rest]]]; try discriminate.
    cbn in Hc, Ha. inversion Hc; inversion Ha; subst a1 a2.
    unfold Fresh.main, main_tester, wants_validation.
    set (s0 := mkState (Fresh.init chain_id app_id "http://localhost:8088"
                                   suffix) w).
    destruct rest as [|third rest]; cbn [nth_error].
    + split; [reflexivity|]. split; [discriminate|]. split; [discriminate|].
      intros _. apply (exit_after_run 3 s0). now left.
    + split; [discriminate|]. split; [|split].
      * intros t Ht Hv. inversion Ht; subst t. now rewrite Hv.
      * intros t n Ht Hv Hn Hge. inversion Ht; subst t. rewrite Hv, Hn.
        apply Z.ltb_ge in Hge. now rewrite Hge.
      * intros Hok. destruct (Hok third eq_refl) as [Hv|[n [Hn Hge]]].
        -- rewrite Hv. apply (exit_after_run 3 s0). now right.
        -- destruct (String.eqb (Py.lower third) "validation").
           ++ apply (exit_after_run 3 s0). now right.
           ++ rewrite Hn. apply Z.ltb_ge in Hge. rewrite Hge.
              apply (exit_after_run n s0). now left.
Qed.

Lemma fresh_main_checks_arguments_first_witness :
  Fresh.main demo_int ["prog"; "chain"] "abc123"
             (fresh_io silent_service 0 true) =
    (Fresh.Exit 1, fresh_io silent_service 0 true) /\
  Fresh.main demo_int ["prog"; "chain"; "app"; "0"] "abc123"
             (fresh_io silent_service 0 true) =
    (Fresh.Exit 1, fresh_io silent_service 0 true) /\
  Fresh.main demo_int ["prog"; "chain"; "app"; "5"] "abc123"
             (fresh_io silent_service 0 true) =
    Fresh.exit_after
      (Fresh.run_full_test 5
         (mkState (main_tester "chain" "app" "abc123")
                  (fresh_io silent_service 0 true))) /\
  exists rest,
    sent (snd (Fresh.main demo_int ["prog"; "chain"; "app"; "5"] "abc123"
                          (fresh_io silent_service 0 true))) =
      [] ++ player_registration (main_tester "chain" "app" "abc123") :: rest /\
    (is_transport_failure (silent_service 0) = true ->
     rest = [] /\
     fst (Fresh.main demo_int ["prog"; "chain"; "app"; "5"] "abc123"
                     (fresh_io silent_service 0 true)) = Fresh.Exit 1).
Proof.
  split; [|split; [|split]].
  - apply (proj1 (fresh_main_checks_arguments_first demo_int
                    ["prog"; "chain"] "abc123"
                    (fresh_io silent_service 0 true))).
    cbn. lia.
  - apply (proj1 (proj2 (fresh_main_checks_arguments_first demo_int
                    ["prog"; "chain"; "app"; "0"] "abc123"
                    (fresh_io silent_service 0 true))) "0").
    + reflexivity.
    + reflexivity.
    + right. exists 0. split; [reflexivity | lia].
  - apply (proj1 (proj2 (proj2 (proj2 (proj2
             (fresh_main_checks_arguments_first demo_int
                ["prog"; "chain"; "app"; "5"] "abc123"
                (fresh_io silent_service 0 true))) "chain" "app"
             eq_refl eq_refl))) "5" 5); try reflexivity. lia.
  - apply (proj2 (proj2 (proj2 (proj2 (proj2
             (fresh_main_checks_arguments_first demo_int
                ["prog"; "chain"; "app"; "5"] "abc123"
                (fresh_io silent_service 0 true))) "chain" "app"
             eq_refl eq_refl)))).
    intros third Ht. inversion Ht; subst third.
    right. exists 5. split; [reflexivity | lia].
Defined.

(** ** The coordinator: collecting, saving and checking the configuration *)

Lemma query_tournament_details_cases (s : state Coordinator.coordinator) :
  let r := Coordinator.query_tournament_details s in
  let c := self s in
  sent (world (snd r)) = sent (world s) ++ [details_request c] /\
  net (world (snd r)) = net (world s) /\
  disk_ok (world (snd r)) = disk_ok (world s) /\
  written (world (snd r)) = written (world s) /\
  match decode true (next_response s) with
  | Ok result =>
      match member_outcome "leaderboards" d_leaderboards result with
      | Ok (Some all) =>
          match hosted_by c all with
          | _ :: _ =>
              fst r = Ok true /\
              self (snd r) =
                Coordinator.set_config
                  (Coordinator.mkTestConfig
                     (Some (map Coordinator.details_of (hosted_by c all)))
                     (Some (Coordinator.coordinator_username c,
                            Coordinator.coordinator_password c))
                     (Some (Coordinator.base_url c, Coordinator.main_chain_id c,
                            Coordinator.app_id c, Coordinator.main_url c))
                     (Coordinator.tc_stress_test (Coordinator.config c))) c
          | [] => fst r = Ok false /\ self (snd r) = c
          end
      | Ok None => fst r = Ok false /\ self (snd r) = c
      | Raise e => fst r = Raise e /\ self (snd r) = c
      end
  | Raise e => fst r = Raise e /\ self (snd r) = c
  end.
Proof.
  cbv zeta.
  remember (Coordinator.query_tournament_details s) as r eqn:Hr.
  unfold Coordinator.query_tournament_details, Coordinator.request in Hr.
  unfold bind at 1 in Hr. cbn [get_self] in Hr.
  unfold bind at 1 in Hr. rewrite make_graphql_request_eq in Hr.
  unfold details_request, hosted_by.
  destruct (decode true (next_response s)) as [result|e];
    [|subst r; cbn; auto 6].
  rewrite bind_data_member in Hr.
  destruct (member_outcome "leaderboards" d_leaderboards result)
    as [[all|]|e]; try solve [subst r; cbn; auto 6].
  cbn in Hr.
  destruct (filter _ all) as [|lb rest]; subst r; cbn; auto 6.
Qed.



(** With errors not shown, the transport raises only on a true atom. *)
Lemma decode_quiet resp :
  match true_atom resp with
  | Some a =>
      decode false resp = Raise (Py.TypeError_not_iterable (atom_type a)) /\
      transport_events false resp = []
  | None =>
      exists x, decode false resp = Ok x /\
                has_data x = answers_with_data resp
  end.
Proof.
  destruct resp
    as [|msg|status [[[[|err errs]|] [d|]|v [d|]| |str|items]|]|status a];
    cbn -[Py.contains among];
    try destruct (atom_truthy a);
    try destruct (is_error_status status);
    cbn -[Py.contains among]; rewrite ?andb_true_r, ?andb_false_r; eauto.
Qed.

Lemma no_true_atom service : forall n base,
  (forall i, (i < n)%nat -> true_atom (service (base + i)%nat) = None) ->
  first_true_atom service base n = None.
Proof.
  induction n as [|n IH]; intros base H; cbn [first_true_atom];
    [reflexivity|].
  pose proof (H O ltac:(lia)) as H0. rewrite Nat.add_0_r in H0. rewrite H0.
  rewrite IH; [reflexivity|].
  intros i Hi. rewrite Nat.add_succ_comm. apply H. lia.
Qed.

Lemma earliest_true_atom service a : forall n base i,
  (i < n)%nat ->
  true_atom (service (base + i)%nat) = Some a ->
  (forall j, (j < i)%nat -> true_atom (service (base + j)%nat) = None) ->
  first_true_atom service base n = Some (i, a).
Proof.
  induction n as [|n IH]; intros base i Hi Ha Hbefore; [lia|].
  cbn [first_true_atom]. destruct i as [|i].
  - rewrite Nat.add_0_r in Ha. now rewrite Ha.
  - pose proof (Hbefore O ltac:(lia)) as H0. rewrite Nat.add_0_r in H0.
    rewrite H0. rewrite (IH (S base) i); [reflexivity|lia| |].
    + now rewrite Nat.add_succ_comm.
    + intros j Hj. rewrite Nat.add_succ_comm. apply Hbefore. lia.
Qed.

(** The loop of verify_tournament_accessibility. *)
Lemma access_loop (c : Coordinator.coordinator)
      (l : list Coordinator.tournament_details) :
  forall acc (s : state Coordinator.coordinator),
  let r := for_fold l acc (fun acc t =>
             result <- Coordinator.request
                         (endpoint (Coordinator.base_url c)
                                   (Coordinator.td_chainId t)
                                   (Coordinator.app_id c))
                         (OpQueryLeaderboards Coordinator.accessibility_fields)
                         false ;;
             if has_data result
             then log (EvAccessible (Coordinator.td_name t)) ;; ret acc
             else log (EvNotAccessible (Coordinator.td_name t)) ;; ret false)
           s in
  self (snd r) = self s /\
  net (world (snd r)) = net (world s) /\
  written (world (snd r)) = written (world s) /\
  match first_true_atom (net (world s)) (List.length (sent (world s)))
                        (List.length l) with
  | None =>
      fst r = Ok (acc && all_answer (net (world s))
                                    (List.length (sent (world s)))
                                    (List.length l)) /\
      sent (world (snd r)) = sent (world s) ++ map (access_request c) l
  | Some (i, a) =>
      fst r = Raise (Py.TypeError_not_iterable (atom_type a)) /\
      sent (world (snd r)) =
        sent (world s) ++ map (access_request c) (firstn (S i) l)
  end.
Proof.
  induction l as [|t rest IH]; intros acc s; cbv zeta;
    cbn [for_fold map List.length all_answer first_true_atom].
  - cbn. rewrite app_nil_r, andb_true_r. auto.
  - pose proof (decode_quiet (next_response s)) as Hq.
    unfold next_response in Hq.
    destruct (true_atom (net (world s) (List.length (sent (world s)))))
      as [a|] eqn:Ha.
    + destruct Hq as [Hd Hev].
      match goal with
      | |- self (snd (?f s)) = _ /\ _ =>
          assert (E : f s =
            (Raise (Py.TypeError_not_iterable (atom_type a)),
             after_request (access_request c t)
               (transport_events false (next_response s)) s))
      end.
      { unfold bind at 1. unfold bind at 1. unfold Coordinator.request.
        rewrite make_graphql_request_eq. unfold next_response at 1.
        rewrite Hd. reflexivity. }
      rewrite E. cbn [fst snd after_request self world net written sent].
      cbn [firstn map]. auto.
    + destruct Hq as [x [Hx Hd]].
      set (ev := if has_data x then EvAccessible (Coordinator.td_name t)
                 else EvNotAccessible (Coordinator.td_name t)).
      set (s1 := after_request (access_request c t)
                   (transport_events false (next_response s) ++ [ev]) s).
      match goal with
      | |- self (snd (?f s)) = _ /\ _ =>
          assert (E : f s =
            for_fold rest (if has_data x then acc else false)
              (fun acc t =>
                 result <- Coordinator.request
                             (endpoint (Coordinator.base_url c)
                                       (Coordinator.td_chainId t)
                                       (Coordinator.app_id c))
                             (OpQueryLeaderboards
                                Coordinator.accessibility_fields) false ;;
                 if has_data result
                 then log (EvAccessible (Coordinator.td_name t)) ;; ret acc
                 else log (EvNotAccessible (Coordinator.td_name t)) ;;
                      ret false) s1)
      end.
      { unfold bind at 1. unfold bind at 1. unfold Coordinator.request.
        rewrite make_graphql_request_eq. unfold next_response at 1.
        rewrite Hx. subst s1 ev. unfold access_request.
        destruct (has_data x); unfold bind, log, ret, io_log, after_request;
          cbn [self world net sent slept now_us disk_ok written out];
          rewrite <- app_assoc; reflexivity. }
      rewrite E. specialize (IH (if has_data x then acc else false) s1).
      cbv zeta in IH. destruct IH as [Hself [Hnet [Hw IH]]].
      split; [exact Hself|]. split; [exact Hnet|]. split; [exact Hw|].
      assert (Hlen : List.length (sent (world s1)) =
                     S (List.length (sent (world s)))).
      { subst s1. cbn [after_request world sent].
        rewrite length_app. cbn [List.length]. lia. }
      assert (Hn1 : net (world s1) = net (world s)) by reflexivity.
      rewrite Hlen, Hn1 in IH.
      destruct (first_true_atom (net (world s))
                  (S (List.length (sent (world s)))) (List.length rest))
        as [[i a]|]; cbn [option_map fst snd].
      * destruct IH as [Hf Hsent]. split; [exact Hf|].
        rewrite Hsent. subst s1. cbn [after_request world sent].
        rewrite <- app_assoc. reflexivity.
      * destruct IH as [Hf Hsent]. split.
        -- rewrite Hf, <- Hd.
           destruct (has_data x); cbn [andb]; [reflexivity|].
           now rewrite andb_false_r.
        -- rewrite Hsent. subst s1. cbn [after_request world sent].
           now rewrite <- app_assoc.
Qed.

Lemma verify_tournament_accessibility_eq (s : state Coordinator.coordinator) :
  let r := Coordinator.verify_tournament_accessibility s in
  let ts := configured (self s) in
  self (snd r) = self s /\
  written (world (snd r)) = written (world s) /\
  match first_true_atom (net (world s)) (List.length (sent (world s)))
                        (List.length ts) with
  | None =>
      fst r = Ok (match ts with
                  | [] => false
                  | _ :: _ => all_answer (net (world s))
                                         (List.length (sent (world s)))
                                         (List.length ts)
                  end) /\
      sent (world (snd r)) = sent (world s) ++ map (access_request (self s)) ts
  | Some (i, a) =>
      fst r = Raise (Py.TypeError_not_iterable (atom_type a)) /\
      sent (world (snd r)) =
        sent (world s) ++ map (access_request (self s)) (firstn (S i) ts)
  end.
Proof.
  cbv zeta.
  remember (Coordinator.verify_tournament_accessibility s) as r eqn:Hr.
  unfold Coordinator.verify_tournament_accessibility in Hr.
  unfold bind at 1 in Hr. cbn [get_self] in Hr. unfold configured.
  destruct (Coordinator.tc_tournaments (Coordinator.config (self s)))
    as [[|t rest]|]; try (subst r; cbn; rewrite app_nil_r; auto).
  pose proof (access_loop (self s) (t :: rest) true s) as H. cbv zeta in H.
  destruct H as [Hself [_ [Hw H]]].
  unfold bind at 1 in Hr.
  destruct (for_fold (t :: rest) true _ s) as [[b|e] s1];
    cbn [fst snd] in *; subst r; cbn [fst snd ret];
    (split; [exact Hself|]); (split; [exact Hw|]);
    destruct (first_true_atom _ _ _) as [[i a]|]; exact H.
Qed.

(** X13. verify_tournament_accessibility queries the configured
    tournaments in order, each on its own chain, and changes neither the
    coordinator nor the files written.  Its requests are made with
    show_error off, and still a reply whose body is a true boolean or
    number makes it raise the TypeError of ["errors" in data]: the check
    stops at the first such reply.  When no reply is of that kind it sends
    one query per tournament and returns True exactly when there is at
    least one configured tournament and every reply has a success status
    and a body with a data key; a reply that also reports GraphQL errors
    still counts as accessible. *)
Theorem accessibility_check_outcome (s : state Coordinator.coordinator) :
  let check := Coordinator.verify_tournament_accessibility in
  let r := check s in
  let ts := configured (self s) in
  let reply := fun i => net (world s) (List.length (sent (world s)) + i)%nat in
  self (snd r) = self s /\
  written (world (snd r)) = written (world s) /\
  ((forall i, (i < List.length ts)%nat -> true_atom (reply i) = None) ->
   new_requests check s = map (access_request (self s)) ts /\
   exists b, fst r = Ok b /\
     (b = true <->
      ts <> [] /\
      forall i, (i < List.length ts)%nat ->
                answers_with_data (reply i) = true)) /\
  (forall i a,
     (i < List.length ts)%nat ->
     true_atom (reply i) = Some a ->
     (forall j, (j < i)%nat -> true_atom (reply j) = None) ->
     fst r = Raise (Py.TypeError_not_iterable (atom_type a)) /\
     new_requests check s =
       map (access_request (self s)) (firstn (S i) ts)) /\
  (forall status errs d,
     is_error_status status = false ->
     answers_with_data (Http status (Some (mkEnvelope errs (Some d)))) = true).
Proof.
  cbv zeta. pose proof (verify_tournament_accessibility_eq s) as H.
  cbv zeta in H. destruct H as [Hself [Hw H]].
  split; [exact Hself|]. split; [exact Hw|]. split; [|split].
  - intros Hnone.
    rewrite (no_true_atom _ _ _ Hnone) in H. destruct H as [Hf Hsent].
    split; [now apply new_requests_eq|].
    eexists. split; [exact Hf|].
    assert (Hall : forall service n base,
              all_answer service base n = true <->
              forall i, (i < n)%nat ->
                        answers_with_data (service (base + i)%nat) = true).
    { intros service n. induction n as [|n IH]; intros base; cbn.
      - split; [intros _ i Hi; lia | reflexivity].
      - rewrite andb_true_iff, IH. split.
        + intros [H0 Hn] [|i] Hi.
          * now rewrite Nat.add_0_r.
          * rewrite <- Nat.add_succ_comm. apply Hn. lia.
        + intros Hn. split.
          * specialize (Hn O). rewrite Nat.add_0_r in Hn. apply Hn. lia.
          * intros i Hi. rewrite Nat.add_succ_comm. apply Hn. lia. }
    destruct (configured (self s)) as [|t rest] eqn:Hts.
    + split; [discriminate | intros [Hne _]; contradiction].
    + rewrite Hall. split; [intros Hn; split; [discriminate | exact Hn]|].
      intros [_ Hn]. exact Hn.
  - intros i a Hi Ha Hbefore.
    rewrite (earliest_true_atom _ _ _ _ _ Hi Ha Hbefore) in H.
    destruct H as [Hf Hsent]. split; [exact Hf|]. now apply new_requests_eq.
  - intros status errs d Hst. cbn. now rewrite Hst.
Qed.

Lemma accessibility_check_outcome_witness :
  fst (Coordinator.verify_tournament_accessibility numbered_coordinator) =
    Raise (Py.TypeError_not_iterable "int") /\
  new_requests Coordinator.verify_tournament_accessibility
               numbered_coordinator =
    map (access_request (self numbered_coordinator))
        (firstn 1 (configured (self numbered_coordinator))).
Proof.
  apply (proj1 (proj2 (proj2 (proj2
    (accessibility_check_outcome numbered_coordinator)))) 0%nat (JInt 5)).
  - cbn. lia.
  - reflexivity.
  - intros j Hj. lia.
Defined.

Lemma save_test_config_eq file (s : state Coordinator.coordinator) :
  let c := self s in
  let n := Coordinator.tournament_count (Coordinator.config c) in
  let c' := Coordinator.set_config
              (Coordinator.mkTestConfig
                 (Coordinator.tc_tournaments (Coordinator.config c))
                 (Coordinator.tc_coordinator (Coordinator.config c))
                 (Coordinator.tc_api (Coordinator.config c))
                 (Some (Coordinator.mkStress 60 2 30 15 n (60 / Z.max n 1))))
              c in
  Coordinator.save_test_config file s =
  (Ok (disk_ok (world s)),
   mkState c' (if disk_ok (world s)
               then mkIo (net (world s)) (sent (world s)) (slept (world s))
                         (now_us (world s)) (disk_ok (world s))
                         (written (world s) ++ [file]) (out (world s))
               else world s)).
Proof.
  cbv zeta. unfold Coordinator.save_test_config.
  unfold bind, get_self, set_self, write_file, io_write, ret.
  cbn [self world]. destruct (disk_ok (world s)); reflexivity.
Qed.

Lemma details_true_nonempty (s : state Coordinator.coordinator) :
  fst (Coordinator.query_tournament_details s) = Ok true ->
  configured (self (snd (Coordinator.query_tournament_details s))) <> [].
Proof.
  pose proof (query_tournament_details_cases s) as C. cbv zeta in C.
  destruct C as [_ [_ [_ [_ C]]]]. intros Htrue.
  destruct (decode true (next_response s)) as [result|e];
    [|destruct C as [C _]; rewrite C in Htrue; discriminate].
  destruct (member_outcome "leaderboards" d_leaderboards result)
    as [[all|]|e];
    try (destruct C as [C _]; rewrite C in Htrue; discriminate).
  destruct (hosted_by (self s) all) as [|lb rest];
    [destruct C as [C _]; rewrite C in Htrue; discriminate|].
  destruct C as [_ Hself]. rewrite Hself. discriminate.
Qed.

(** What a successful setup has done. *)
Lemma successful_setup_facts
        (num_tournaments shard_count : Z) (output_file : string)
        (s : state Coordinator.coordinator) :
  let r := Coordinator.run_coordinator_setup num_tournaments shard_count
                                             output_file s in
  fst r = Ok true ->
  In output_file (written (world (snd r))) /\
  (exists k,
     List.length (configured (self (snd r))) = k /\ (0 < k)%nat /\
     Coordinator.tc_stress_test (Coordinator.config (self (snd r))) =
       Some (Coordinator.mkStress 60 2 30 15 (Z.of_nat k)
                                  (60 / Z.of_nat k)) /\
     Z.of_nat k * (60 / Z.of_nat k) <= 60) /\
  (exists lines, out (world (snd r)) = lines ++ [EvSetupComplete]).
Proof.
  cbv zeta. intros Htrue.
  remember (Coordinator.run_coordinator_setup num_tournaments shard_count
                                              output_file s) as r eqn:Hr.
  unfold Coordinator.run_coordinator_setup in Hr.
  unfold bind at 1 in Hr.
  destruct (Coordinator.register_coordinator s) as [[[|]|e] s1];
    cbn [negb] in Hr; try (subst r; discriminate).
  unfold bind at 1 in Hr. cbn [sleep] in Hr. unfold bind at 1 in Hr.
  destruct (Coordinator.create_stress_test_tournaments _ _ _) as [[[|]|e] s2];
    cbn [negb] in Hr; try (subst r; discriminate).
  unfold bind at 1 in Hr. cbn [sleep] in Hr. unfold bind at 1 in Hr.
  match type of Hr with
  | context [Coordinator.query_tournament_details ?x] => set (s3 := x) in Hr
  end.
  pose proof (details_true_nonempty s3) as Hne.
  destruct (Coordinator.query_tournament_details s3) as [[[|]|e] s4];
    cbn [negb fst snd] in Hr, Hne; try (subst r; discriminate).
  specialize (Hne eq_refl).
  unfold bind at 1 in Hr. rewrite save_test_config_eq in Hr.
  destruct (disk_ok (world s4)) eqn:Hdisk; cbn [negb] in Hr;
    [|subst r; discriminate].
  unfold bind at 1 in Hr.
  match type of Hr with
  | context [Coordinator.verify_tournament_accessibility ?x] =>
      set (s5 := x) in Hr
  end.
  pose proof (verify_tournament_accessibility_eq s5) as V. cbv zeta in V.
  destruct V as [Vself [Vw _]].
  destruct (Coordinator.verify_tournament_accessibility s5) as [[b|e] s6];
    cbn [fst snd] in *; [|subst r; discriminate].
  subst r. cbn [bind log ret fst snd]. unfold bind, log, ret.
  cbn [fst snd self world io_log written out].
  rewrite Vself, Vw. subst s5. cbn [self world written].
  split; [apply in_or_app; right; now left|]. split; [|eauto].
  assert (Hcfg : configured
            (Coordinator.set_config
               (Coordinator.mkTestConfig
                  (Coordinator.tc_tournaments (Coordinator.config (self s4)))
                  (Coordinator.tc_coordinator (Coordinator.config (self s4)))
                  (Coordinator.tc_api (Coordinator.config (self s4)))
                  (Some (Coordinator.mkStress 60 2 30 15
                     (Coordinator.tournament_count (Coordinator.config (self s4)))
                     (60 / Z.max (Coordinator.tournament_count
                                    (Coordinator.config (self s4))) 1))))
               (self s4)) = configured (self s4)) by reflexivity.
  exists (List.length (configured (self s4))).
  rewrite Hcfg. split; [reflexivity|].
  assert (Hpos : (0 < List.length (configured (self s4)))%nat).
  { destruct (configured (self s4)); [contradiction | cbn; lia]. }
  split; [exact Hpos|].
  assert (Hcount : Coordinator.tournament_count (Coordinator.config (self s4)) =
                   Z.of_nat (List.length (configured (self s4)))).
  { unfold Coordinator.tournament_count, configured.
    destruct (Coordinator.tc_tournaments (Coordinator.config (self s4)));
      reflexivity. }
  split.
  - cbn [Coordinator.set_config Coordinator.config Coordinator.tc_stress_test].
    rewrite Hcount. do 2 f_equal. f_equal. lia.
  - apply Z.mul_div_le. lia.
Qed.

(** The first three steps of the setup send no accessibility query. *)
Lemma no_check_among (rs : list request) :
  Forall (fun q => is_access_check q = false) rs ->
  ~ In accessibility_check (map rq_op rs).
Proof.
  intros H Hin. apply in_map_iff in Hin. destruct Hin as [q [Hq Hin]].
  rewrite Forall_forall in H. specialize (H q Hin).
  unfold is_access_check in H. rewrite Hq in H.
  unfold accessibility_check in H. cbn in H. discriminate.
Qed.

Lemma setup_steps_before_check n sc :
  emits any_event (fun q => is_access_check q = false)
        Coordinator.register_coordinator /\
  emits any_event (fun q => is_access_check q = false)
        (Coordinator.create_stress_test_tournaments n sc) /\
  emits any_event (fun q => is_access_check q = false)
        Coordinator.query_tournament_details.
Proof.
  assert (Ha : allows_transport any_event) by apply allows_any.
  repeat split;
    unfold Coordinator.register_coordinator,
      Coordinator.create_stress_test_tournaments, Coordinator.create_step,
      Coordinator.query_tournament_details, Coordinator.request;
    emits; try exact I; auto with emits; reflexivity.
Qed.

(** Once an accessibility query has gone out, the file is written and the
    setup no longer fails. *)
Lemma check_comes_last
        (num_tournaments shard_count : Z) (output_file : string)
        (s : state Coordinator.coordinator) :
  let run := Coordinator.run_coordinator_setup num_tournaments shard_count
                                               output_file in
  In accessibility_check (map rq_op (new_requests run s)) ->
  In output_file (written (world (snd (run s)))) /\
  fst (run s) <> Ok false.
Proof.
  cbv zeta.
  destruct (setup_steps_before_check num_tournaments shard_count)
    as [E1 [E2 E3]].
  remember (Coordinator.run_coordinator_setup num_tournaments shard_count
                                              output_file s) as r eqn:Hr.
  assert (Hnew : forall rs,
             sent (world (snd r)) = sent (world s) ++ rs ->
             new_requests
               (Coordinator.run_coordinator_setup num_tournaments shard_count
                                                  output_file) s = rs).
  { intros rs H. apply new_requests_eq. now rewrite <- Hr. }
  unfold Coordinator.run_coordinator_setup in Hr.
  unfold bind at 1 in Hr.
  destruct (E1 s) as [rs1 [es1 [Hs1 [_ [HQ1 _]]]]].
  destruct (Coordinator.register_coordinator s) as [[[|]|e] s1];
    cbn [negb fst snd] in Hr, Hs1;
    try (intros Hin; exfalso; apply (no_check_among rs1 HQ1);
         rewrite <- (Hnew rs1); [exact Hin | subst r; exact Hs1]).
  unfold bind at 1 in Hr. cbn [sleep] in Hr. unfold bind at 1 in Hr.
  match type of Hr with
  | context [Coordinator.create_stress_test_tournaments _ _ ?x] =>
      set (s1' := x) in Hr
  end.
  destruct (E2 s1') as [rs2 [es2 [Hs2 [_ [HQ2 _]]]]].
  assert (Hs12 : sent (world (snd (Coordinator.create_stress_test_tournaments
                                    num_tournaments shard_count s1'))) =
                 sent (world s) ++ rs1 ++ rs2).
  { rewrite Hs2. subst s1'. cbn [world io_sleep sent].
    now rewrite Hs1, <- app_assoc. }
  assert (HQ12 : Forall (fun q => is_access_check q = false) (rs1 ++ rs2))
    by (apply Forall_app; auto).
  clear Hs2.
  destruct (Coordinator.create_stress_test_tournaments _ _ s1')
    as [[[|]|e] s2];
    cbn [negb fst snd] in Hr, Hs12;
    try (intros Hin; exfalso; apply (no_check_among _ HQ12);
         rewrite <- (Hnew (rs1 ++ rs2)); [exact Hin | subst r; exact Hs12]).
  unfold bind at 1 in Hr. cbn [sleep] in Hr. unfold bind at 1 in Hr.
  match type of Hr with
  | context [Coordinator.query_tournament_details ?x] => set (s3 := x) in Hr
  end.
  destruct (E3 s3) as [rs3 [es3 [Hs3 [_ [HQ3 _]]]]].
  assert (Hs123 : sent (world (snd (Coordinator.query_tournament_details s3))) =
                  sent (world s) ++ (rs1 ++ rs2) ++ rs3).
  { rewrite Hs3. subst s3. cbn [world io_sleep sent].
    now rewrite Hs12, <- app_assoc. }
  assert (HQ123 : Forall (fun q => is_access_check q = false)
                         ((rs1 ++ rs2) ++ rs3))
    by (apply Forall_app; auto).
  clear Hs3.
  destruct (Coordinator.query_tournament_details s3) as [[[|]|e] s4];
    cbn [negb fst snd] in Hr, Hs123;
    try (intros Hin; exfalso; apply (no_check_among _ HQ123);
         rewrite <- (Hnew ((rs1 ++ rs2) ++ rs3));
         [exact Hin | subst r; exact Hs123]).
  unfold bind at 1 in Hr. rewrite save_test_config_eq in Hr.
  destruct (disk_ok (world s4)) eqn:Hdisk; cbn [negb] in Hr;
    [|intros Hin; exfalso; apply (no_check_among _ HQ123);
      rewrite <- (Hnew ((rs1 ++ rs2) ++ rs3));
      [exact Hin | subst r; exact Hs123]].
  intros _.
  unfold bind at 1 in Hr.
  match type of Hr with
  | context [Coordinator.verify_tournament_accessibility ?x] =>
      set (s5 := x) in Hr
  end.
  pose proof (verify_tournament_accessibility_eq s5) as V. cbv zeta in V.
  destruct V as [_ [Vw _]].
  destruct (Coordinator.verify_tournament_accessibility s5) as [[b|e] s6];
    cbn [fst snd] in *; subst r; cbn [bind log ret fst snd];
    unfold bind, log, ret; cbn [fst snd self world io_log written];
    rewrite Vw; subst s5; cbn [self world written];
    (split; [apply in_or_app; right; now left | discriminate]).
Qed.



(** ** One result per tournament *)

Lemma results_set_fresh key v (d : results) :
  ~ In key (map fst d) -> results_set key v d = d ++ [(key, v)].
Proof.
  induction d as [|[k old] r IH]; intros Hnot; cbn; [reflexivity|].
  destruct (String.eqb_spec k key) as [->|Hne].
  - exfalso. apply Hnot. now left.
  - rewrite IH; [reflexivity|]. intros Hin. apply Hnot. now right.
Qed.

Lemma lacks_uint c d :
  no_numeral_char c = true -> lacks c (NilEmpty.string_of_uint d) = true.
Proof.
  unfold no_numeral_char. cbn [lacks]. intros H.
  repeat (apply andb_true_iff in H; destruct H as [? H]).
  induction d; cbn [NilEmpty.string_of_uint lacks]; auto;
    rewrite IHd, andb_true_r; assumption.
Qed.

Lemma lacks_str c z : no_numeral_char c = true -> lacks c (Py.str z) = true.
Proof.
  intros H. unfold Py.str.
  assert (Hminus : negb (Ascii.eqb "-" c) = true).
  { unfold no_numeral_char in H. cbn [lacks] in H.
    apply andb_true_iff in H. tauto. }
  destruct z as [|p|p].
  - change (lacks c "0" = true). cbn [lacks].
    unfold no_numeral_char in H. cbn [lacks] in H.
    apply andb_true_iff in H. destruct H as [_ H].
    apply andb_true_iff in H. destruct H as [H _]. now rewrite H.
  - cbn. destruct (Pos.to_uint p) eqn:E;
      [exfalso; now apply (DecimalPos.Unsigned.to_uint_nonnil p) | ..];
      apply (lacks_uint c _ H).
  - change (NilZero.string_of_int (Z.to_int (Z.neg p)))
      with (String "-" (NilZero.string_of_uint (Pos.to_uint p))).
    cbn [lacks]. rewrite Hminus. cbn [andb].
    destruct (Pos.to_uint p) eqn:E;
      [exfalso; now apply (DecimalPos.Unsigned.to_uint_nonnil p) | ..];
      apply (lacks_uint c _ H).
Qed.

(** Two texts without [c], each followed by [c], that start the same
    string are the same text. *)
Lemma lacks_cancel c x : forall y r r',
  lacks c x = true -> lacks c y = true ->
  (x ++ String c r)%string = (y ++ String c r')%string -> x = y.
Proof.
  induction x as [|a x IH]; intros [|b y] r r' Hx Hy E; cbn in *.
  - reflexivity.
  - inversion E; subst. rewrite Ascii.eqb_refl in Hy. discriminate.
  - inversion E; subst. rewrite Ascii.eqb_refl in Hx. discriminate.
  - inversion E; subst. f_equal.
    apply andb_true_iff in Hx, Hy. eapply IH; [tauto | tauto | eassumption].
Qed.

Lemma str_inj a b : Py.str a = Py.str b -> a = b.
Proof.
  intros H. pose proof (int_of_str_str a) as Ha.
  rewrite H, int_of_str_str in Ha. now inversion Ha.
Qed.

Lemma fresh_keys_differ len i j (lb lb' : leaderboard) :
  0 <= i < len -> 0 <= j < len -> i <> j ->
  fresh_key len (i, lb) <> fresh_key len (j, lb').
Proof.
  intros Hi Hj Hne. unfold fresh_key, Fresh.result_key, Fresh.position_label.
  cbn [fst snd].
  destruct (Z.eqb_spec i 0) as [Hi0|Hi0];
    destruct (Z.eqb_spec j 0) as [Hj0|Hj0]; try lia;
    destruct (Z.eqb_spec i (len - 1)) as [Hil|Hil];
    destruct (Z.eqb_spec j (len - 1)) as [Hjl|Hjl]; try lia;
    try (cbn; discriminate).
  intros E. cbn in E.
  repeat (injection E as E).
  rewrite !append_assoc in E. cbn [append] in E.
  apply lacks_cancel in E; try (apply lacks_str; reflexivity).
  apply str_inj in E. lia.
Qed.

Lemma legacy_keys_differ len i j (lb lb' : leaderboard) :
  0 <= i < len -> 0 <= j < len -> i <> j ->
  legacy_key len (i, lb) <> legacy_key len (j, lb').
Proof.
  intros Hi Hj Hne. unfold legacy_key, Legacy.result_key, Legacy.position_label.
  cbn [fst snd].
  destruct (Z.eqb_spec i 0) as [Hi0|Hi0];
    destruct (Z.eqb_spec j 0) as [Hj0|Hj0]; try lia;
    destruct (Z.eqb_spec i (len - 1)) as [Hil|Hil];
    destruct (Z.eqb_spec j (len - 1)) as [Hjl|Hjl]; try lia;
    try (cbn; discriminate).
  intros E. cbn in E.
  repeat (injection E as E).
  rewrite ?append_assoc in E. cbn [append] in E.
  apply lacks_cancel in E; try (apply lacks_str; reflexivity).
  apply str_inj in E. lia.
Qed.

(** A loop that stores one result per enumerated tournament under keys
    that differ from index to index ends with one entry per tournament, in
    order. *)
Lemma results_loop {Self} (len : Z) (key : Z * leaderboard -> string)
      (step : results -> Z * leaderboard -> M Self results) :
  (forall acc p s acc' s',
     step acc p s = (Ok acc', s') ->
     exists v, acc' = results_set (key p) v acc) ->
  (forall i j lb lb', 0 <= i < len -> 0 <= j < len -> i <> j ->
     key (i, lb) <> key (j, lb')) ->
  forall l i acc s res s',
    0 <= i -> i + Z.of_nat (List.length l) <= len ->
    Forall (fun k => exists j lb, 0 <= j < i /\ k = key (j, lb))
           (map fst acc) ->
    for_fold (Py.enumerate i l) acc step s = (Ok res, s') ->
    map fst res = map fst acc ++ map key (Py.enumerate i l).
Proof.
  intros Hstep Hkeys. induction l as [|lb rest IH];
    intros i acc s res s' Hi Hlen Hacc Hrun;
    cbn [Py.enumerate for_fold map] in *.
  - inversion Hrun; subst. now rewrite app_nil_r.
  - unfold bind in Hrun.
    destruct (step acc (i, lb) s) as [[acc1|e] s1] eqn:Hs; [|discriminate].
    destruct (Hstep _ _ _ _ _ Hs) as [v ->].
    assert (Hfresh : ~ In (key (i, lb)) (map fst acc)).
    { intros Hin. rewrite Forall_forall in Hacc.
      destruct (Hacc _ Hin) as [j [lb' [Hj Hk]]].
      cbn [List.length] in Hlen.
      apply (Hkeys i j lb lb'); [lia | lia | lia | exact Hk]. }
    rewrite (results_set_fresh _ _ _ Hfresh) in Hrun.
    apply IH in Hrun.
    + rewrite Hrun, map_app, <- app_assoc. reflexivity.
    + lia.
    + cbn [List.length] in Hlen. lia.
    + rewrite map_app. apply Forall_app. split.
      * eapply Forall_impl; [|exact Hacc].
        intros k [j [lb' [Hj Hk]]]. exists j, lb'. split; [lia | exact Hk].
      * cbn. constructor; [|constructor]. exists i, lb. split; [lia|reflexivity].
Qed.

Lemma board_and_moves_step_sets len acc p (s : state Fresh.tester) acc' s' :
  Fresh.board_and_moves_step len acc p s = (Ok acc', s') ->
  exists v, acc' = results_set (fresh_key len p) v acc.
Proof.
  destruct p as [idx lb]. unfold Fresh.board_and_moves_step, fresh_key.
  cbn [fst snd]. unfold bind at 1.
  destruct (Fresh.create_board _ _ s) as [[[b|]|e] s1]; [| |discriminate].
  - unfold bind at 1. unfold bind at 1. cbn [get_self].
    unfold bind at 1. cbn [set_self]. unfold bind at 1. cbn [sleep].
    unfold bind at 1.
    destruct (Fresh.make_moves b 8 _) as [[m|e] s2]; [|discriminate].
    cbn [ret]. unfold bind at 1.
    destruct (idx <? len - 1); cbn; intros H; inversion H; eauto.
  - unfold bind at 1. cbn [ret]. unfold bind at 1.
    destruct (idx <? len - 1); cbn; intros H; inversion H; eauto.
Qed.

Lemma enumerate_bounds {A} (l : list A) : forall i j x,
  In (j, x) (Py.enumerate i l) -> i <= j < i + Z.of_nat (List.length l).
Proof.
  induction l as [|a rest IH]; intros i j x Hin; cbn [Py.enumerate] in Hin.
  - contradiction.
  - cbn [List.length]. destruct Hin as [Hin|Hin].
    + inversion Hin; subst. lia.
    + apply IH in Hin. lia.
Qed.

Lemma keys_nodup (len : Z) (key : Z * leaderboard -> string) :
  (forall i j lb lb', 0 <= i < len -> 0 <= j < len -> i <> j ->
     key (i, lb) <> key (j, lb')) ->
  forall l i, 0 <= i -> i + Z.of_nat (List.length l) <= len ->
  NoDup (map key (Py.enumerate i l)).
Proof.
  intros Hkeys. induction l as [|lb rest IH]; intros i Hi Hlen;
    cbn [Py.enumerate map].
  - constructor.
  - cbn [List.length] in Hlen. constructor.
    + intros Hin. apply in_map_iff in Hin. destruct Hin as [[j lb'] [Hk Hin]].
      apply enumerate_bounds in Hin.
      apply (Hkeys j i lb' lb); [lia | lia | lia | exact Hk].
    + apply IH; lia.
Qed.

(** X15. test_board_creation_and_moves goes through the tournaments of the
    queried state that have an id and are hosted by the tester, and when
    it returns, its results hold exactly one entry per such tournament, in
    the state's order: the keys "FIRST - name", "MIDDLE (#k) - name",
    "LAST - name" differ from one position to the next whatever the names
    are, so no tournament's result overwrites another's.  When the state
    query yields no state the results are empty. *)
Theorem every_own_tournament_gets_its_own_result
        (s : state Fresh.tester) (res : results) :
  fst (Fresh.test_board_creation_and_moves s) = Ok res ->
  match fst (Fresh.query_state s) with
  | Ok (Some d) =>
      let lbs := own_tournaments (Fresh.username (self s)) d in
      map fst res =
        map (fresh_key (Z.of_nat (List.length lbs))) (Py.enumerate 0 lbs) /\
      List.length res = List.length lbs /\
      NoDup (map fst res)
  | _ => res = []
  end.
Proof.
  unfold Fresh.test_board_creation_and_moves. unfold bind at 1.
  destruct (query_state_cases s) as [_ [_ [Hid _]]].
  destruct Hid as [_ [_ [_ [_ [Hu _]]]]].
  destruct (Fresh.query_state s) as [[[d|]|e] s1]; cbn [fst snd] in *;
    [| intros H; now inversion H | discriminate].
  unfold bind at 1. cbn [get_self]. rewrite Hu.
  fold (own_tournaments (Fresh.username (self s)) d).
  destruct (own_tournaments (Fresh.username (self s)) d) as [|lb rest] eqn:Hl.
  - intros H. inversion H; subst. cbn. repeat split. constructor.
  - set (lbs := lb :: rest).
    set (len := Z.of_nat (List.length lbs)).
    destruct (for_fold (Py.enumerate 0 lbs) [] _ s1) as [[out|e] s2] eqn:Hrun;
      [|discriminate].
    intros H. cbn [fst] in H. inversion H; subst out.
    assert (Hkeys : map fst res = map (fresh_key len) (Py.enumerate 0 lbs)).
    { apply (results_loop len (fresh_key len)
               (Fresh.board_and_moves_step len)
               (board_and_moves_step_sets len)
               (fresh_keys_differ len) lbs 0 [] s1 res s2);
        [lia | subst len; lia | constructor | exact Hrun]. }
    split; [exact Hkeys|]. split.
    + rewrite <- (length_map fst res), Hkeys, length_map, enumerate_length.
      reflexivity.
    + rewrite Hkeys. apply (keys_nodup len); [apply fresh_keys_differ | lia |].
      subst len. lia.
Qed.

Lemma every_own_tournament_gets_its_own_result_witness :
  map fst (match fst (Fresh.test_board_creation_and_moves
                        (demo_tester listing_service)) with
           | Ok res => res
           | Raise _ => []
           end) =
    ["FIRST - active_tournament"; "LAST - eternal_tournament"].
Proof.
  apply (every_own_tournament_gets_its_own_result
           (demo_tester listing_service)
           (match fst (Fresh.test_board_creation_and_moves
                         (demo_tester listing_service)) with
            | Ok res => res
            | Raise _ => []
            end)).
  reflexivity.
Defined.

(** ** test_tournaments.py: boards in every listed tournament *)

Lemma legacy_create_board_cases tid ts (s : state Legacy.tester) chain :
  Legacy.player_chain_id (self s) = Some chain ->
  Py.truthy chain = true ->
  let r := Legacy.create_board tid ts s in
  fst r = match legacy_raises (next_response s) with
          | Some e => Raise e
          | None => Ok (legacy_accepts (next_response s))
          end /\
  self (snd r) = self s /\
  net (world (snd r)) = net (world s) /\
  sent (world (snd r)) =
    sent (world s) ++ [legacy_board_request (self s) chain tid ts].
Proof.
  intros Hc Ht. cbv zeta.
  remember (Legacy.create_board tid ts s) as r eqn:Hr.
  unfold Legacy.create_board in Hr.
  unfold bind at 1 in Hr. cbn [get_self] in Hr.
  rewrite Hc in Hr. cbn [Py.truthy_opt] in Hr.
  rewrite Ht in Hr. cbn [negb] in Hr.
  unfold bind at 1 in Hr.
  destruct (legacy_request_eq
              (endpoint (Legacy.base_url (self s)) chain (Legacy.app_id (self s)))
              (OpNewBoard "hello" "hello" ts tid) s) as [evs E].
  rewrite E in Hr. unfold legacy_board_request. unfold legacy_outcome in Hr.
  rewrite <- legacy_decode_has_data.
  destruct (legacy_raises (next_response s)) as [e|];
    [subst r; cbn; auto|].
  destruct (has_data (legacy_decode (next_response s))); subst r; cbn; auto.
Qed.

(** A body test_tournaments.py's transport hands back does not mention
    errors. *)
Lemma legacy_decode_quiet resp e :
  legacy_decode resp = Some e -> mentions_errors e = false.
Proof.
  unfold legacy_decode.
  destruct resp as [|msg|status [body|]|status a]; try discriminate.
  destruct (mentions_errors body) eqn:Hm; [discriminate|].
  destruct (is_error_status status); [discriminate|].
  intros H. now inversion H; subst.
Qed.

Lemma legacy_data resp d :
  data_outcome (legacy_decode resp) = Ok d ->
  legacy_decode resp = Some (mkEnvelope None (Some d)).
Proof.
  intros Hdo.
  destruct (legacy_decode resp) as [[[errs|] [d0|]|v [d0|]| |str|items]|]
    eqn:Hd; cbn in Hdo; try discriminate;
    try (apply legacy_decode_quiet in Hd; discriminate).
  now inversion Hdo.
Qed.

Lemma legacy_decode_raises_none resp e :
  legacy_decode resp = Some e -> legacy_raises resp = None.
Proof.
  unfold legacy_decode, legacy_raises.
  destruct resp as [|msg|status [body|]|status a]; try discriminate.
  destruct (mentions_errors body) eqn:Hm; [discriminate|].
  destruct (is_error_status status); [discriminate|].
  intros _. destruct body; try reflexivity; cbn in Hm; now rewrite Hm.
Qed.

Lemma legacy_query_state_cases (s : state Legacy.tester) :
  let r := Legacy.query_state s in
  sent (world (snd r)) = sent (world s) ++ [legacy_state_request (self s)] /\
  net (world (snd r)) = net (world s) /\
  Legacy.base_url (self (snd r)) = Legacy.base_url (self s) /\
  Legacy.app_id (self (snd r)) = Legacy.app_id (self s) /\
  Legacy.main_url (self (snd r)) = Legacy.main_url (self s) /\
  (forall d, fst r = Ok (Some d) ->
     legacy_raises (next_response s) = None /\
     legacy_decode (next_response s) =
       Some (mkEnvelope None (Some (DObject d))) /\
     Legacy.player_chain_id (self (snd r)) =
       match d_player d with
       | Some p => Some (pl_chainId p)
       | None => Legacy.player_chain_id (self s)
       end).
Proof.
  cbv zeta. remember (Legacy.query_state s) as r eqn:Hr.
  unfold Legacy.query_state in Hr.
  unfold bind at 1 in Hr. cbn [get_self] in Hr. unfold bind at 1 in Hr.
  destruct (legacy_request_eq (Legacy.main_url (self s))
                              (OpQueryState "hello") s) as [evs E].
  rewrite E in Hr. unfold legacy_state_request. unfold legacy_outcome in Hr.
  destruct (legacy_raises (next_response s)) as [x|];
    [subst r; cbn; repeat apply conj; auto; discriminate|].
  destruct (has_data (legacy_decode (next_response s)));
    [|subst r; cbn; repeat apply conj; auto; discriminate].
  rewrite bind_data_of in Hr.
  destruct (data_outcome (legacy_decode (next_response s)))
    as [[|str|d]|e] eqn:Hdo; cbn in Hr;
    try solve [subst r; cbn; repeat apply conj; auto; discriminate].
  apply legacy_data in Hdo.
  destruct (d_player d) as [p|] eqn:Hp;
    destruct (d_leaderboards d) as [[|lb l]|]; cbn in Hr; subst r; cbn;
    repeat apply conj; auto; try discriminate;
    intros d0 H0; inversion H0; subst; repeat (split; [auto|]);
    now rewrite ?Hp.
Qed.

Lemma legacy_board_step_cases len acc p (s : state Legacy.tester) chain :
  Legacy.player_chain_id (self s) = Some chain ->
  Py.truthy chain = true ->
  let r := Legacy.board_step len acc p s in
  fst r = match legacy_raises (next_response s) with
          | Some e => Raise e
          | None => Ok (results_set (legacy_key len p)
                                    (legacy_accepts (next_response s)) acc)
          end /\
  self (snd r) = self s /\
  net (world (snd r)) = net (world s) /\
  sent (world (snd r)) = sent (world s) ++ [legacy_step_request (self s) chain p].
Proof.
  intros Hc Ht. cbv zeta. destruct p as [idx lb].
  pose proof (legacy_create_board_cases (lb_leaderboardId lb)
                (Legacy.timestamp_at idx) s chain Hc Ht) as H.
  cbv zeta in H. destruct H as [Hf [Hself [Hnet Hsent]]].
  remember (Legacy.board_step len acc (idx, lb) s) as r eqn:Hr.
  unfold Legacy.board_step in Hr. unfold bind at 1 in Hr.
  unfold legacy_step_request, legacy_key. cbn [fst snd].
  destruct (Legacy.create_board _ _ s) as [[b|e] s1]; cbn [fst snd] in *;
    destruct (legacy_raises (next_response s)) as [x|];
    try discriminate.
  - inversion Hf; subst b. unfold bind, when, sleep, ret in Hr.
    destruct (idx <? len - 1); subst r; cbn; auto.
  - inversion Hf; subst x. subst r. cbn. auto.
Qed.

(** The loop with the player chain known: a board request per tournament,
    up to and including the first on whose reply the transport raises. *)
Lemma legacy_board_loop len chain (l : list leaderboard) :
  forall i acc (s : state Legacy.tester),
  Legacy.player_chain_id (self s) = Some chain ->
  Py.truthy chain = true ->
  let r := for_fold (Py.enumerate i l) acc (Legacy.board_step len) s in
  exists k, (k <= List.length l)%nat /\
    sent (world (snd r)) =
      sent (world s) ++
      map (legacy_step_request (self s) chain) (firstn k (Py.enumerate i l)) /\
    ((exists res, fst r = Ok res) -> k = List.length l) /\
    ((forall n, legacy_raises (net (world s) n) = None) ->
     exists res, fst r = Ok res).
Proof.
  induction l as [|lb rest IH]; intros i acc s Hc Ht; cbv zeta;
    cbn [Py.enumerate for_fold map].
  - exists 0%nat. cbn. rewrite app_nil_r. repeat split; eauto.
  - pose proof (legacy_board_step_cases len acc (i, lb) s chain Hc Ht) as H.
    cbv zeta in H. destruct H as [Hf [Hself [Hnet Hsent]]].
    unfold bind.
    destruct (Legacy.board_step len acc (i, lb) s) as [[acc1|e] s1];
      cbn [fst snd] in *.
    + assert (Hc1 : Legacy.player_chain_id (self s1) = Some chain)
        by now rewrite Hself.
      specialize (IH (i + 1) acc1 s1 Hc1 Ht). cbv zeta in IH.
      destruct IH as [k [Hk [Hs [Hall Hquiet]]]].
      exists (S k). cbn [firstn map List.length]. split; [lia|].
      split; [|split].
      * rewrite Hs, Hsent, Hself, <- app_assoc. reflexivity.
      * intros Hres. f_equal. auto.
      * intros Hno. apply Hquiet. now rewrite Hnet.
    + exists 1%nat. cbn [firstn map List.length]. split; [lia|].
      split; [|split].
      * rewrite Hsent. destruct (Py.enumerate (i + 1) rest); reflexivity.
      * intros [res Hres]. discriminate.
      * intros Hno. unfold next_response in Hf. rewrite Hno in Hf.
        discriminate.
Qed.

Lemma results_set_false key (acc : results) :
  Forall (fun kv => snd kv = false) acc ->
  Forall (fun kv => snd kv = false) (results_set key false acc).
Proof.
  induction acc as [|[k old] r IH]; intros H; cbn [results_set].
  - repeat constructor.
  - inversion H; subst.
    destruct (String.eqb k key); constructor; auto.
Qed.

(** The loop without a player chain: no request, and False for every
    tournament. *)
Lemma legacy_board_loop_no_chain len (l : list leaderboard) :
  forall i acc (s : state Legacy.tester),
  Py.truthy_opt (Legacy.player_chain_id (self s)) = false ->
  Forall (fun kv => snd kv = false) acc ->
  let r := for_fold (Py.enumerate i l) acc (Legacy.board_step len) s in
  sent (world (snd r)) = sent (world s) /\
  exists res, fst r = Ok res /\ Forall (fun kv => snd kv = false) res.
Proof.
  induction l as [|lb rest IH]; intros i acc s Hc Hacc; cbv zeta;
    cbn [Py.enumerate for_fold].
  - cbn. eauto.
  - assert (E : exists s1,
               Legacy.board_step len acc (i, lb) s =
               (Ok (results_set (legacy_key len (i, lb)) false acc), s1) /\
               self s1 = self s /\ sent (world s1) = sent (world s)).
    { unfold Legacy.board_step, Legacy.create_board.
      unfold bind at 1. unfold bind at 1. cbn [get_self]. rewrite Hc.
      cbn [negb]. unfold bind, log, ret, when, sleep.
      destruct (i <? len - 1); eexists; repeat split. }
    destruct E as [s1 [E [Hself Hsent]]].
    unfold bind. rewrite E.
    assert (Hc1 : Py.truthy_opt (Legacy.player_chain_id (self s1)) = false)
      by now rewrite Hself.
    specialize (IH (i + 1) _ s1 Hc1
                   (results_set_false (legacy_key len (i, lb)) acc Hacc)).
    cbv zeta in IH. destruct IH as [Hs Hres].
    split; [now rewrite Hs|exact Hres].
Qed.

Lemma legacy_board_step_sets len acc p (s : state Legacy.tester) acc' s' :
  Legacy.board_step len acc p s = (Ok acc', s') ->
  exists v, acc' = results_set (legacy_key len p) v acc.
Proof.
  destruct p as [idx lb]. unfold Legacy.board_step, legacy_key.
  cbn [fst snd]. unfold bind at 1.
  destruct (Legacy.create_board _ _ s) as [[b|e] s1]; [|discriminate].
  unfold bind, when, sleep, ret.
  destruct (idx <? len - 1); intros H; inversion H; eauto.
Qed.



(** ** test_tournaments.py: the registration and the command line *)

Lemma emits_legacy_request url op :
  emits any_event any_request (Legacy.make_graphql_request url op).
Proof.
  intros s. destruct (legacy_request_eq url op s) as [evs E].
  exists [mkRequest url op 10], evs. rewrite E. cbn.
  repeat split; auto; apply Forall_forall; intros; exact I.
Qed.

Lemma emits_legacy_create_tournaments count :
  emits any_event any_request (Legacy.create_multiple_tournaments count).
Proof.
  unfold Legacy.create_multiple_tournaments, Legacy.create_numbered_step,
    Legacy.create_tournament, Legacy.subscript.
  pose proof emits_legacy_request. emits_any.
Qed.

Lemma emits_legacy_query_state :
  emits any_event any_request Legacy.query_state.
Proof.
  unfold Legacy.query_state. pose proof emits_legacy_request. emits_any.
Qed.

Lemma emits_legacy_test_board_creation :
  emits any_event any_request Legacy.test_board_creation.
Proof.
  unfold Legacy.test_board_creation, Legacy.board_step, Legacy.create_board.
  pose proof emits_legacy_request. pose proof emits_legacy_query_state.
  emits_any.
Qed.

Lemma legacy_register_player_cases username password (s : state Legacy.tester) :
  let r := Legacy.register_player username password s in
  let reg := mkRequest (Legacy.main_url (self s))
                       (OpRegisterPlayer username password) 10 in
  sent (world (snd r)) = sent (world s) ++ [reg] /\
  match legacy_raises (next_response s) with
  | Some e => fst r = Raise e
  | None =>
      if has_data (legacy_decode (next_response s))
      then
        (exists lines, out (world (snd r)) = lines ++ [EvPlayerRegistered]) /\
        fst r = match data_outcome (legacy_decode (next_response s)) with
                | Ok (DObject o) =>
                    match d_registerPlayer o with
                    | Some _ => Ok true
                    | None => Raise (Py.KeyError "registerPlayer")
                    end
                | Ok DNull => Raise Legacy.TypeError_none_subscript
                | Ok (DScalar _) => Raise Py.TypeError_str_index
                | Raise e => Raise e
                end
      else fst r = Ok false
  end.
Proof.
  cbv zeta. remember (Legacy.register_player username password s) as r eqn:Hr.
  unfold Legacy.register_player in Hr.
  unfold bind at 1 in Hr. cbn [get_self] in Hr. unfold bind at 1 in Hr.
  destruct (legacy_request_eq (Legacy.main_url (self s))
                              (OpRegisterPlayer username password) s)
    as [evs E].
  rewrite E in Hr. unfold legacy_outcome in Hr.
  destruct (legacy_raises (next_response s)) as [x|];
    [subst r; cbn; split; reflexivity|].
  destruct (has_data (legacy_decode (next_response s)));
    [|subst r; cbn; split; reflexivity].
  unfold bind at 1 in Hr. unfold log at 1 in Hr. rewrite bind_data_of in Hr.
  destruct (data_outcome (legacy_decode (next_response s)))
    as [[|str|o]|e]; cbn in Hr;
    try solve [subst r; cbn; split; [reflexivity|];
               split; [eexists; reflexivity | reflexivity]].
  destruct (d_registerPlayer o); subst r; cbn;
    (split; [reflexivity|]; split; [eexists; reflexivity | reflexivity]).
Qed.



(** ** The filtering tally and the visibility lines *)

(** Keeping some of the entries keeps their names distinct. *)
Lemma kept_names_distinct {X} (name : X -> string) (keep : X -> bool) :
  forall entries,
    NoDup (map name entries) -> NoDup (map name (filter keep entries)).
Proof.
  induction entries as [|e entries IH]; cbn; intros Hnd; [constructor|].
  apply NoDup_cons_iff in Hnd. destruct Hnd as [Hfresh Hnd].
  destruct (keep e); cbn; [|now apply IH].
  constructor; [|now apply IH].
  intros Hin. apply Hfresh. apply in_map_iff in Hin.
  destruct Hin as [y [Hy Hin]]. apply filter_In in Hin.
  apply in_map_iff. exists y. tauto.
Qed.

Lemma tally_names user lbs (created : list Fresh.created_tournament) :
  let mine := Fresh.my_tournaments user lbs in
  incl (map Fresh.ct_name (visible_created user mine created))
       (map lb_name (Fresh.my_new_tournaments mine created)) /\
  incl (map lb_name (Fresh.my_new_tournaments mine created))
       (map Fresh.ct_name (visible_created user mine created)).
Proof.
  cbv zeta. split; intros name Hin; apply in_map_iff in Hin;
    apply in_map_iff.
  - destruct Hin as [c [Hname Hc]]. unfold visible_created in Hc.
    apply filter_In in Hc. destruct Hc as [Hc Hvis].
    destruct (Fresh.matching_tournament user (Fresh.ct_name c)
                (Fresh.my_tournaments user lbs)) as [t|] eqn:Hm;
      [|discriminate].
    apply find_some in Hm. destruct Hm as [Ht Hb].
    apply andb_true_iff in Hb. destruct Hb as [Hn _].
    apply String.eqb_eq in Hn.
    exists t. split; [congruence|].
    unfold Fresh.my_new_tournaments. apply filter_In. split; [exact Ht|].
    apply existsb_exists. exists c. split; [exact Hc|].
    apply String.eqb_eq. congruence.
  - destruct Hin as [t [Hname Ht]]. unfold Fresh.my_new_tournaments in Ht.
    apply filter_In in Ht. destruct Ht as [Ht Hex].
    apply existsb_exists in Hex. destruct Hex as [c [Hc Hn]].
    apply String.eqb_eq in Hn.
    exists c. split; [congruence|].
    unfold visible_created. apply filter_In. split; [exact Hc|].
    destruct (Fresh.matching_tournament user (Fresh.ct_name c)
                (Fresh.my_tournaments user lbs)) as [t'|] eqn:Hm;
      [reflexivity|].
    exfalso. pose proof (proj1 (in_my_tournaments user lbs t) Ht) as Hmine.
    destruct Hmine as [_ [_ Hhost]].
    apply (find_none _ _ Hm) in Ht.
    apply andb_false_iff in Ht. destruct Ht as [Hf|Hf];
      apply String.eqb_neq in Hf; congruence.
Qed.

(** X18. report_filtering counts the player's listed tournaments that bear
    a created name, while its visibility lines go through the created
    tournaments and look each one up by name and host.  When the created
    names are pairwise distinct the count is at least the number of
    created tournaments reported visible, and when the listed names are
    distinct as well the two agree: the verdict is then True exactly when
    the number of created tournaments visible equals the expected count.
    A tournament listed twice under one created name is counted twice but
    reported once. *)
Theorem filtering_tally_agrees_with_visibility_lines
        (d : data_obj) (expected : Z)
        (created : list Fresh.created_tournament) (s : state Fresh.tester) :
  let user := Fresh.username (self s) in
  let mine := Fresh.my_tournaments user (Fresh.state_leaderboards d) in
  let counted := List.length (Fresh.my_new_tournaments mine created) in
  let visible := List.length (visible_created user mine created) in
  fst (Fresh.report_filtering (Some d) expected created s) =
    Ok (Z.of_nat counted =? expected) /\
  List.length (filter (fun e => match e with
                                | EvVisibility _ true _ => true
                                | _ => false
                                end)
                      (new_events (Fresh.report_filtering (Some d) expected
                                                          created) s)) =
    visible /\
  (NoDup (map Fresh.ct_name created) -> (visible <= counted)%nat) /\
  (NoDup (map Fresh.ct_name created) -> NoDup (map lb_name mine) ->
   visible = counted /\
   (fst (Fresh.report_filtering (Some d) expected created s) = Ok true <->
    Z.of_nat visible = expected)).
Proof.
  cbv zeta.
  set (user := Fresh.username (self s)).
  set (mine := Fresh.my_tournaments user (Fresh.state_leaderboards d)).
  destruct (tally_names user (Fresh.state_leaderboards d) created)
    as [Hvc Hcv]. fold mine in Hvc, Hcv.
  assert (Hres : fst (Fresh.report_filtering (Some d) expected created s) =
                 Ok (Z.of_nat (List.length
                        (Fresh.my_new_tournaments mine created)) =? expected)).
  { unfold Fresh.report_filtering. unfold bind at 1. cbn [get_self].
    unfold bind at 1. rewrite report_filtering_lines. fold user. fold mine.
    destruct (_ =? expected); reflexivity. }
  assert (Hle : NoDup (map Fresh.ct_name created) ->
                (List.length (visible_created user mine created) <=
                 List.length (Fresh.my_new_tournaments mine created))%nat).
  { intros Hnd.
    rewrite <- (length_map Fresh.ct_name (visible_created user mine created)).
    rewrite <- (length_map lb_name (Fresh.my_new_tournaments mine created)).
    apply NoDup_incl_length; [|exact Hvc].
    unfold visible_created. now apply kept_names_distinct. }
  split; [exact Hres|]. split; [|split; [exact Hle|]].
  - destruct (report_filtering_spec d expected created s) as [Hev _].
    cbv zeta in Hev. fold user in Hev. fold mine in Hev. rewrite Hev.
    rewrite filter_app. unfold filter_verdict.
    match goal with
    | |- context [if ?b then EvFilterOk else _] => destruct b
    end; cbn [filter]; rewrite app_nil_r;
      unfold visible_created; clear;
      (induction created as [|c created IH]; cbn; [reflexivity|];
       destruct (Fresh.is_some _); cbn; now rewrite IH).
  - intros Hnd Hnd'.
    assert (Heq : List.length (visible_created user mine created) =
                  List.length (Fresh.my_new_tournaments mine created)).
    { apply Nat.le_antisymm; [now apply Hle|].
      rewrite <- (length_map Fresh.ct_name (visible_created user mine created)).
      rewrite <- (length_map lb_name (Fresh.my_new_tournaments mine created)).
      apply NoDup_incl_length; [|exact Hcv].
      unfold Fresh.my_new_tournaments. now apply kept_names_distinct. }
    split; [exact Heq|]. rewrite Hres, Heq. split.
    + intros H. inversion H as [Hb]. now apply Z.eqb_eq.
    + intros H. f_equal. now apply Z.eqb_eq.
Qed.

Lemma filtering_tally_agrees_with_visibility_lines_witness :
  (List.length
     (visible_created "test_abc123"
        (Fresh.my_tournaments "test_abc123"
           (Fresh.state_leaderboards doubled_listing))
        [created_active]) <=
   List.length
     (Fresh.my_new_tournaments
        (Fresh.my_tournaments "test_abc123"
           (Fresh.state_leaderboards doubled_listing))
        [created_active]))%nat /\
  fst (Fresh.report_filtering (Some doubled_listing) 1 [created_active]
         (demo_tester silent_service)) = Ok false.
Proof.
  split; [|reflexivity].
  apply (proj1 (proj2 (proj2
    (filtering_tally_agrees_with_visibility_lines doubled_listing 1
       [created_active] (demo_tester silent_service))))).
  repeat constructor. intros [].
Defined.

(** ** A passing validation run has skipped the expired tournament *)

Lemma emits_out {Self A} (c : M Self A) (s : state Self) :
  emits any_event any_request c ->
  exists es, out (world (snd (c s))) = out (world s) ++ es.
Proof. intros H. destruct (H s) as [rs [es [_ [Ho _]]]]. eauto. Qed.

Lemma emits_active_block (active : option string) :
  emits any_event any_request
    (match active with
     | Some id =>
         if Py.truthy id
         then n <- Fresh.active_attempt id ;; ret (n, 1)
         else log EvActiveSkipped ;; ret (0, 0)
     | None => log EvActiveSkipped ;; ret (0, 0)
     end).
Proof.
  unfold Fresh.active_attempt, Fresh.active_except.
  pose proof emits_any_create_board. emits_any.
Qed.

Lemma validation_true_skipped_expired
      (created : list Fresh.created_tournament) (s : state Fresh.tester) :
  fst (Fresh.test_board_creation_validation created s) = Ok true ->
  exists es,
    out (world (snd (Fresh.test_board_creation_validation created s))) =
      out (world s) ++ es /\
    In EvPastSkipped es.
Proof.
  intros Htrue.
  pose proof (expired_listed_blocks_validation created s) as HX.
  pose proof (get_tournament_id_by_name_truthy "past_tournament" s) as HT.
  destruct (emits_out (Fresh.get_tournament_id_by_name "past_tournament") s
                      (emits_get_tournament_id _)) as [es1 Ho1].
  remember (Fresh.test_board_creation_validation created s) as r eqn:Hr.
  unfold Fresh.test_board_creation_validation in Hr.
  unfold bind at 1 in Hr.
  destruct (Fresh.get_tournament_id_by_name "past_tournament" s)
    as [[[id|]|e] s1]; cbn [fst snd] in *.
  - exfalso. exact (HX id eq_refl Htrue).
  - unfold bind at 1 in Hr.
    destruct (emits_out (Fresh.get_tournament_id_by_name "active_tournament")
                        s1 (emits_get_tournament_id _)) as [es2 Ho2].
    destruct (Fresh.get_tournament_id_by_name "active_tournament" s1)
      as [[active|e] s2]; cbn [fst snd] in *;
      [|subst r; discriminate].
    unfold bind at 1 in Hr. unfold bind at 1 in Hr. cbn [log ret] in Hr.
    unfold bind at 1 in Hr.
    match type of Hr with
    | context [match ?blk ?x with _ => _ end] =>
        destruct (emits_out blk x (emits_active_block active)) as [es3 Ho3];
        destruct (blk x) as [[[n t]|e] s3]
    end; cbn [fst snd] in *; [|subst r; discriminate].
    cbn [io_log world out] in Ho3.
    destruct (0 <? 0 + t); subst r; unfold bind, log, ret; cbn [fst snd];
      cbn [io_log world out self];
      rewrite Ho3, Ho2, Ho1, <- !app_assoc;
      eexists; (split; [reflexivity|]);
      apply in_or_app; right; apply in_or_app; right;
      apply in_or_app; left; now left.
  - subst r. discriminate.
Qed.

(** X19. A validation run that returns True has skipped the test on the
    expired tournament.  The run's result is the conjunction of the
    filtering and the validation verdicts; the validation verdict is True
    only when every test it ran succeeded, and a test on the expired
    tournament never succeeds; so in a passing run the expired tournament
    was not among the player's listed tournaments and the line "Past
    tournament not found ... skipping" was printed.  The last line of a
    passing run is the summary with both verdicts True. *)
Theorem passing_validation_run_skipped_the_expired_tournament
        (s : state Fresh.tester) :
  fst (Fresh.run_tournament_validation_test s) = Ok true ->
  In EvPastSkipped (new_events Fresh.run_tournament_validation_test s) /\
  exists lines,
    new_events Fresh.run_tournament_validation_test s =
    lines ++ [EvSummary true true true].
Proof.
  intros Htrue.
  assert (H : exists es, out (world (snd (Fresh.run_tournament_validation_test s)))
                         = out (world s) ++ es ++ [EvSummary true true true] /\
                         In EvPastSkipped es).
  { remember (Fresh.run_tournament_validation_test s) as r eqn:Hr.
    unfold Fresh.run_tournament_validation_test in Hr.
    unfold bind at 1 in Hr.
    destruct (emits_out Fresh.register_player s) as [e1 Ho1].
    { unfold Fresh.register_player, Fresh.request. emits_any. }
    destruct (Fresh.register_player s) as [[[|]|e] s1]; cbn [fst snd negb] in *;
      try (subst r; discriminate).
    unfold bind at 1 in Hr. cbn [sleep] in Hr. unfold bind at 1 in Hr.
    match type of Hr with
    | context [Fresh.create_multiple_test_tournaments ?x] =>
        destruct (emits_out Fresh.create_multiple_test_tournaments x
                            emits_create_multiple_test_tournaments)
          as [e2 Ho2];
        destruct (Fresh.create_multiple_test_tournaments x)
          as [[[[|c l]|]|e] s2]
    end; cbn [fst snd] in *; try (subst r; discriminate).
    cbv zeta in Hr.
    unfold bind at 1 in Hr. cbn [sleep] in Hr. unfold bind at 1 in Hr.
    match type of Hr with
    | context [Fresh.trigger_tournament_update ?x] =>
        destruct (emits_out Fresh.trigger_tournament_update x
                            emits_trigger_tournament_update) as [e3 Ho3];
        destruct (Fresh.trigger_tournament_update x) as [[[]|e] s3]
    end; cbn [fst snd] in *; try (subst r; discriminate).
    unfold bind at 1 in Hr. cbn [sleep] in Hr. unfold bind at 1 in Hr.
    match type of Hr with
    | context [Fresh.verify_active_tournaments ?n ?cr ?x] =>
        destruct (emits_out (Fresh.verify_active_tournaments n cr) x
                            (emits_verify_active_tournaments n cr))
          as [e4 Ho4];
        destruct (Fresh.verify_active_tournaments n cr x) as [[f|e] s4]
    end; cbn [fst snd] in *; try (subst r; discriminate).
    unfold bind at 1 in Hr.
    pose proof (validation_true_skipped_expired (c :: l) s4) as HV.
    destruct (Fresh.test_board_creation_validation (c :: l) s4)
      as [[v|e] s5]; cbn [fst snd] in *; try (subst r; discriminate).
    unfold bind at 1 in Hr.
    destruct (emits_out (Fresh.get_tournament_id_by_name "active_tournament")
                        s5 (emits_get_tournament_id _)) as [e6 Ho6].
    destruct (Fresh.get_tournament_id_by_name "active_tournament" s5)
      as [[a|e] s6]; cbn [fst snd] in *; try (subst r; discriminate).
    unfold bind at 1 in Hr.
    match type of Hr with
    | context [match ?blk s6 with _ => _ end] =>
        assert (Hblk : emits any_event any_request blk)
          by (pose proof emits_streaming_step; emits_any);
        destruct (emits_out blk s6 Hblk) as [e7 Ho7];
        destruct (blk s6) as [[[]|e] s7]
    end; cbn [fst snd] in *; try (subst r; discriminate).
    unfold bind, log, ret in Hr. subst r. cbn [fst snd] in *.
    assert (Hf : f = true /\ v = true).
    { assert (Hb : f && v = true) by congruence.
      now apply andb_true_iff in Hb. }
    destruct Hf as [-> ->].
    destruct (HV eq_refl) as [e5 [Ho5 Hin]].
    cbn [io_log world out self io_sleep] in *.
    rewrite Ho7, Ho6, Ho5, Ho4, Ho3, Ho2, Ho1.
    exists (e1 ++ e2 ++ e3 ++ e4 ++ e5 ++ e6 ++ e7).
    rewrite <- !app_assoc. split; [reflexivity|].
    rewrite !in_app_iff. tauto. }
  destruct H as [es [Ho Hin]].
  assert (Hn : new_events Fresh.run_tournament_validation_test s =
               es ++ [EvSummary true true true])
    by now apply new_events_eq.
  rewrite Hn. split; [apply in_or_app; now left | eauto].
Qed.

Lemma passing_validation_run_skipped_the_expired_tournament_witness :
  In EvPastSkipped
     (new_events Fresh.run_tournament_validation_test
                 (new_tester hiding_service)).
Proof.
  apply (proj1 (passing_validation_run_skipped_the_expired_tournament
                  (new_tester hiding_service) eq_refl)).
Defined.

(** ** Triggering the cache update *)

(** X20. trigger_tournament_update never raises: it sends the one
    updateActiveTournaments mutation, leaves the tester as it was, and
    ends with exactly one line of its own.  The line reports the update
    as triggered whenever the reply is a non-empty JSON body that does not
    mention "errors" and comes with a success status, whatever is under
    "data"; it reports a possible failure on a transport failure or a
    reported error; and on a reply on which the transport raises, such as
    one whose "errors" list is empty, it is the except block that reports
    the exception. *)
Theorem cache_update_trigger_never_raises (s : state Fresh.tester) :
  let call := Fresh.trigger_tournament_update in
  let resp := next_response s in
  fst (call s) = Ok tt /\
  self (snd (call s)) = self s /\
  new_requests call s =
    [mkRequest (Fresh.main_url (self s)) OpUpdateActiveTournaments 10] /\
  (exists line, new_events call s = transport_events true resp ++ [line] /\
     (is_transport_failure resp = true \/ is_service_rejection resp = true ->
      line = EvCacheUpdateUnconfirmed) /\
     (has_empty_errors resp = true ->
      line = EvCacheUpdateError "list index out of range") /\
     (forall status e,
        resp = Http status (Some e) -> is_error_status status = false ->
        mentions_errors e = false ->
        line = if envelope_truthy e then EvCacheUpdateTriggered
               else EvCacheUpdateUnconfirmed) /\
     (forall x, decode true resp = Raise x ->
        line = EvCacheUpdateError (Py.exn_msg x))).
Proof.
  cbv zeta.
  set (line := match decode true (next_response s) with
               | Ok (Some e) => if envelope_truthy e
                                then EvCacheUpdateTriggered
                                else EvCacheUpdateUnconfirmed
               | Ok None => EvCacheUpdateUnconfirmed
               | Raise e => EvCacheUpdateError (Py.exn_msg e)
               end).
  assert (E : Fresh.trigger_tournament_update s =
              (Ok tt,
               after_request
                 (mkRequest (Fresh.main_url (self s))
                            OpUpdateActiveTournaments 10)
                 (transport_events true (next_response s) ++ [line]) s)).
  { unfold Fresh.trigger_tournament_update, try_except, Fresh.request.
    unfold bind at 1. cbn [get_self].
    unfold bind at 1. rewrite make_graphql_request_eq. subst line.
    destruct (decode true (next_response s)) as [[e|]|x];
      try destruct (envelope_truthy e);
      unfold log, io_log, after_request;
      cbn [self world net sent slept now_us disk_ok written out];
      rewrite <- app_assoc; reflexivity. }
  rewrite E. cbn [fst snd after_request self].
  split; [reflexivity|]. split; [reflexivity|]. split.
  - apply new_requests_eq. rewrite E. reflexivity.
  - exists line. split; [apply new_events_eq; rewrite E; reflexivity|].
    subst line. split; [|split; [|split]].
    + intros H. rewrite decode_collapses; [reflexivity|]. tauto.
    + unfold has_empty_errors.
      destruct (next_response s)
        as [|msg|status [[[[|x errs]|] d|v d| |str|items]|]|status a];
        try discriminate. reflexivity.
    + intros status e Hresp Hst Herr. rewrite Hresp.
      destruct e as [[errs|] d|v d| |str|items];
        cbn -[Py.contains among] in Herr |- *; try discriminate;
        now rewrite ?Herr, ?Hst.
    + intros x Hx. now rewrite Hx.
Qed.

Lemma cache_update_trigger_never_raises_witness :
  exists line,
    new_events Fresh.trigger_tournament_update
               (demo_tester empty_errors_service) =
      transport_events true (next_response (demo_tester empty_errors_service))
      ++ [line] /\
    line = EvCacheUpdateError "list index out of range".
Proof.
  destruct (proj2 (proj2 (proj2
    (cache_update_trigger_never_raises (demo_tester empty_errors_service)))))
    as [line [Hl [_ [He _]]]].
  exists line. split; [exact Hl | apply He; reflexivity].
Defined.

(** ** Which board create_board reports *)

Lemma find_first_match {A} (p : A -> bool) (pre : list A) (x : A) post :
  (forall y, In y pre -> p y = false) -> p x = true ->
  find p (pre ++ x :: post) = Some x.
Proof.
  intros Hpre Hx. induction pre as [|a pre IH]; cbn.
  - now rewrite Hx.
  - rewrite (Hpre a (or_introl eq_refl)). apply IH.
    intros y Hy. apply Hpre. now right.
Qed.

(** X21. create_board reports the first board of the follow-up list that
    belongs to the player and the tournament, and looks no further: when
    the list holds a board of the player in that tournament ahead of
    others, it is that board's id that comes back, whatever boards follow
    it.  A board created by the very mutation is therefore not told apart
    from one the player already had in the tournament. *)
Theorem create_board_reports_the_first_listed_board
        (tid ts : string) (s : state Fresh.tester) (chain : string)
        (status : Z) (d : data_obj) (pre post : list board) (b : board) :
  Fresh.player_chain_id (self s) = Some chain ->
  Py.truthy chain = true ->
  (exists r, decode true (next_response s) = Ok r /\ has_data r = true) ->
  second_response s =
    Http status (Some (mkEnvelope None (Some (DObject d)))) ->
  is_error_status status = false ->
  d_boards d = Some (pre ++ b :: post) ->
  is_players_board (Fresh.username (self s)) tid b = true ->
  (forall x, In x pre ->
     is_players_board (Fresh.username (self s)) tid x = false) ->
  fst (Fresh.create_board tid ts s) = Ok (Some (bd_boardId b)) /\
  new_requests (Fresh.create_board tid ts) s =
    [new_board_request (self s) chain tid ts;
     boards_query_request (self s) chain].
Proof.
  intros Hc Ht [r [Hr Hd]] Hsecond Hst Hboards Hb Hpre.
  pose proof (fresh_create_board_cases tid ts s) as C. cbv zeta in C.
  rewrite Hc, Ht, Hr, Hd, Hsecond in C. cbn [decode] in C.
  rewrite Hst in C. unfold member_outcome in C.
  cbn [has_data data_outcome] in C.
  rewrite Hboards in C. destruct C as [Hsent Hf].
  split.
  - rewrite Hf. unfold Fresh.find_board.
    unfold is_players_board in Hb, Hpre.
    rewrite find_first_match; [reflexivity | exact Hpre | exact Hb].
  - now apply new_requests_eq.
Qed.

Lemma create_board_reports_the_first_listed_board_witness :
  fst (Fresh.create_board "T-active" "10000000"
         (demo_tester two_boards_service)) = Ok (Some "B-0").
Proof.
  apply (proj1 (create_board_reports_the_first_listed_board
           "T-active" "10000000" (demo_tester two_boards_service)
           "player-chain" 200
           (mkData None None None None None None
                   (Some [older_board; demo_board]))
           [] [demo_board] older_board
           eq_refl eq_refl
           (ex_intro _ _ (conj eq_refl eq_refl))
           eq_refl eq_refl eq_refl eq_refl
           (fun x (H : In x []) => match H with end))).
Defined.

(** ** test_tournaments.py: the numbered tournaments *)

Lemma legacy_create_numbered_step_eq count i (s : state Legacy.tester) :
  let r := Legacy.create_numbered_step count i s in
  sent (world (snd r)) = sent (world s) ++ [legacy_numbered_request (self s) i] /\
  net (world (snd r)) = net (world s) /\
  match legacy_created_id (next_response s) with
  | Some id =>
      fst r = Ok None /\
      self (snd r) =
        Legacy.set_tournaments (Legacy.tournaments (self s) ++ [id]) (self s)
  | None =>
      self (snd r) = self s /\
      match legacy_raises (next_response s) with
      | Some e => fst r = Raise e
      | None =>
          if has_data (legacy_decode (next_response s)) then
            match data_outcome (legacy_decode (next_response s)) with
            | Ok (DObject o) =>
                match d_leaderboardAction o with
                | Some _ => fst r = Ok (Some false)
                | None => fst r = Raise (Py.KeyError "leaderboardAction")
                end
            | Ok DNull => fst r = Raise Legacy.TypeError_none_subscript
            | Ok (DScalar _) => fst r = Raise Py.TypeError_str_index
            | Raise e => fst r = Raise e
            end
          else fst r = Ok (Some false)
      end
  end.
Proof.
  cbv zeta.
  remember (Legacy.create_numbered_step count i s) as r eqn:Hr.
  unfold Legacy.create_numbered_step, Legacy.create_tournament in Hr.
  unfold bind at 1 2 in Hr. cbn [get_self] in Hr.
  unfold bind at 1 in Hr.
  destruct (legacy_request_eq (Legacy.main_url (self s))
              (OpCreateTournament (Legacy.numbered_name i) "0"
                                  Legacy.far_end_time 2 "hello" "hello") s)
    as [evs E].
  rewrite E in Hr. unfold legacy_created_id, legacy_numbered_request.
  change Legacy.far_end_time with "18588537542440000" in Hr.
  unfold legacy_outcome in Hr.
  destruct (legacy_raises (next_response s)) as [x|] eqn:Hx.
  - assert (Hd : legacy_decode (next_response s) = None).
    { destruct (legacy_decode (next_response s)) as [e|] eqn:Hd;
        [|reflexivity].
      apply legacy_decode_raises_none in Hd. congruence. }
    rewrite Hd. subst r. cbn. auto.
  - destruct (has_data (legacy_decode (next_response s))) eqn:Hhd.
    + rewrite bind_data_of in Hr.
      destruct (data_outcome (legacy_decode (next_response s)))
        as [[|str|o]|e] eqn:Hdo.
      * rewrite (legacy_data _ _ Hdo). subst r. cbn. auto.
      * rewrite (legacy_data _ _ Hdo). subst r. cbn. auto.
      * rewrite (legacy_data _ _ Hdo). cbn in Hr.
        destruct (d_leaderboardAction o) as [id|]; cbn in Hr;
          [|subst r; cbn; auto].
        destruct (Py.truthy id); [|subst r; cbn; auto].
        destruct (i <? count); subst r; cbn; auto.
      * assert (Hnone : match legacy_decode (next_response s) with
                        | Some (mkEnvelope _ (Some (DObject o))) =>
                            match d_leaderboardAction o with
                            | Some id => if Py.truthy id then Some id else None
                            | None => None
                            end
                        | _ => None
                        end = None).
        { destruct (legacy_decode (next_response s))
            as [[[errs|] [d0|]|v [d0|]| |str|items]|];
            try reflexivity; discriminate. }
        rewrite Hnone. subst r. cbn. auto.
    + assert (Hnone : match legacy_decode (next_response s) with
                      | Some (mkEnvelope _ (Some (DObject o))) =>
                          match d_leaderboardAction o with
                          | Some id => if Py.truthy id then Some id else None
                          | None => None
                          end
                      | _ => None
                      end = None).
      { destruct (legacy_decode (next_response s))
          as [[[errs|] [d0|]|v [d0|]| |str|items]|];
          try reflexivity; discriminate. }
      rewrite Hnone. subst r. cbn. auto.
Qed.

Lemma legacy_create_numbered_loop count (l : list Z) :
  forall (s : state Legacy.tester),
  let r := for_each l (Legacy.create_numbered_step count) s in
  let ids := legacy_accepted_ids (net (world s)) (List.length (sent (world s)))
                                 (List.length l) in
  sent (world (snd r)) =
    sent (world s) ++
    map (legacy_numbered_request (self s)) (firstn (S (List.length ids)) l) /\
  self (snd r) =
    Legacy.set_tournaments (Legacy.tournaments (self s) ++ ids) (self s) /\
  (if Nat.eqb (List.length ids) (List.length l)
   then fst r = Ok None
   else fst r = Ok (Some false) \/ exists e, fst r = Raise e).
Proof.
  induction l as [|i rest IH]; intros s; cbv zeta;
    cbn [for_each List.length legacy_accepted_ids].
  - cbn. rewrite !app_nil_r. destruct s as [[] w]; auto.
  - unfold bind.
    pose proof (legacy_create_numbered_step_eq count i s)
      as [Hsent [Hnet Hres]].
    unfold next_response in Hres.
    destruct (legacy_created_id
                (net (world s) (List.length (sent (world s)))))
      as [id|] eqn:Hacc.
    + destruct Hres as [Hfst Hself].
      destruct (Legacy.create_numbered_step count i s) as [o s1].
      cbn [fst snd] in *. subst o.
      specialize (IH s1). cbv zeta in IH.
      destruct IH as [IHsent [IHself IHres]].
      rewrite Hnet, Hsent, length_app in IHsent, IHself, IHres.
      cbn [List.length] in IHsent, IHself, IHres.
      rewrite Nat.add_1_r in IHsent, IHself, IHres.
      rewrite Hself in IHsent, IHself.
      cbn [List.length firstn map Nat.eqb].
      split; [|split].
      * rewrite IHsent, <- app_assoc. reflexivity.
      * rewrite IHself. unfold Legacy.set_tournaments.
        cbn. now rewrite <- app_assoc.
      * exact IHres.
    + destruct Hres as [Hself Hfst].
      assert (Hfail : fst (Legacy.create_numbered_step count i s) =
                        Ok (Some false) \/
                      exists e, fst (Legacy.create_numbered_step count i s) =
                                Raise e).
      { destruct (legacy_raises _) as [x|]; eauto.
        destruct (has_data _); eauto.
        destruct (data_outcome _) as [[|str|o]|x]; eauto.
        destruct (d_leaderboardAction o); eauto. }
      clear Hfst.
      destruct (Legacy.create_numbered_step count i s) as [o s1].
      cbn [fst snd] in *.
      cbn [List.length firstn map Nat.eqb]. rewrite app_nil_r.
      destruct Hfail as [->|[e ->]]; cbn [fst snd ret];
        rewrite Hsent, Hself; destruct s as [[] w]; cbn; eauto.
Qed.

(** X22. create_multiple_tournaments of test_tournaments.py asks for
    test_1, test_2, ... in order, every one as the fixed player hello, with
    two shards and the window "0".."18588537542440000", up to and
    including the first creation that yields no non-empty id, and for none
    after it; the ids accepted so far are stored in self.tournaments.  It
    returns True exactly when every creation was accepted.  A reply whose
    data is an object without leaderboardAction does not make it return
    False: reading the missing key raises KeyError. *)
Theorem legacy_numbered_tournaments_stop_at_first_failure
        (count : Z) (s : state Legacy.tester) :
  let call := Legacy.create_multiple_tournaments count in
  let ids := legacy_accepted_ids (net (world s)) (List.length (sent (world s)))
                                 (Z.to_nat count) in
  new_requests call s =
    map (legacy_numbered_request (self s))
        (firstn (S (List.length ids)) (Fresh.one_to count)) /\
  Legacy.tournaments (self (snd (call s))) =
    Legacy.tournaments (self s) ++ ids /\
  (List.length ids = Z.to_nat count -> fst (call s) = Ok true) /\
  ((List.length ids < Z.to_nat count)%nat ->
   fst (call s) = Ok false \/ exists e, fst (call s) = Raise e) /\
  (forall o,
     1 <= count ->
     legacy_decode (next_response s) =
       Some (mkEnvelope None (Some (DObject o))) ->
     d_leaderboardAction o = None ->
     fst (call s) = Raise (Py.KeyError "leaderboardAction")).
Proof.
  cbv zeta.
  pose proof (legacy_create_numbered_loop count (Fresh.one_to count) s) as H.
  cbv zeta in H. rewrite one_to_length in H.
  destruct H as [Hsent [Hself Hres]].
  remember (legacy_accepted_ids (net (world s)) (List.length (sent (world s)))
                                (Z.to_nat count)) as ids eqn:Hids.
  assert (E : Legacy.create_multiple_tournaments count s =
              (match fst (for_each (Fresh.one_to count)
                                   (Legacy.create_numbered_step count) s) with
               | Ok (Some b) => Ok b
               | Ok None => Ok true
               | Raise e => Raise e
               end,
               snd (for_each (Fresh.one_to count)
                             (Legacy.create_numbered_step count) s))).
  { unfold Legacy.create_multiple_tournaments, bind. fold (Fresh.one_to count).
    destruct (for_each _ _ s) as [[[b|]|e] s1]; reflexivity. }
  split; [apply new_requests_eq; rewrite E; exact Hsent|].
  split; [|split; [|split]].
  - rewrite E. cbn [snd]. now rewrite Hself.
  - intros Hlen. rewrite E. cbn [fst].
    rewrite Hlen, Nat.eqb_refl in Hres. now rewrite Hres.
  - intros Hlen. rewrite E. cbn [fst].
    apply Nat.lt_neq, Nat.eqb_neq in Hlen. rewrite Hlen in Hres.
    destruct Hres as [->|[e ->]]; eauto.
  - intros o Hc Hreply Hkey. rewrite E. cbn [fst].
    assert (Hone : Fresh.one_to count = 1 :: map (fun i => i + 1)
                     (map Z.of_nat (seq 1 (Z.to_nat count - 1)))).
    { unfold Fresh.one_to, Py.range.
      destruct (Z.to_nat count) as [|n] eqn:Hn; [lia|].
      cbn. now rewrite Nat.sub_0_r. }
    rewrite Hone. cbn [for_each]. unfold bind at 1.
    pose proof (legacy_create_numbered_step_eq count 1 s) as [_ [_ Hstep]].
    unfold legacy_created_id in Hstep.
    rewrite (legacy_decode_raises_none _ _ Hreply), Hreply in Hstep.
    cbn [has_data data_outcome] in Hstep. rewrite Hkey in Hstep.
    destruct Hstep as [_ Hstep].
    destruct (Legacy.create_numbered_step count 1 s) as [o1 s1].
    cbn [fst] in Hstep. subst o1. reflexivity.
Qed.

Lemma legacy_numbered_tournaments_stop_at_first_failure_witness :
  fst (Legacy.create_multiple_tournaments 3
         (legacy_new_tester numbering_service)) = Ok true /\
  (fst (Legacy.create_multiple_tournaments 3
          (legacy_new_tester failing_second)) = Ok false \/
   exists e, fst (Legacy.create_multiple_tournaments 3
                    (legacy_new_tester failing_second)) = Raise e) /\
  fst (Legacy.create_multiple_tournaments 3
         (legacy_new_tester five_boards_service)) =
    Raise (Py.KeyError "leaderboardAction").
Proof.
  split; [|split].
  - apply (proj1 (proj2 (proj2
      (legacy_numbered_tournaments_stop_at_first_failure 3
         (legacy_new_tester numbering_service))))).
    reflexivity.
  - apply (proj1 (proj2 (proj2 (proj2
      (legacy_numbered_tournaments_stop_at_first_failure 3
         (legacy_new_tester failing_second)))))).
    vm_compute. lia.
  - apply (proj2 (proj2 (proj2 (proj2
      (legacy_numbered_tournaments_stop_at_first_failure 3
         (legacy_new_tester five_boards_service)))))
      (mkData None None None None (Some [active_with_boards 5]) None None)).
    + lia.
    + reflexivity.
    + reflexivity.
Defined.

(** ** Whose chains the score check queries *)

(** A score check that runs to its end has asked every chain. *)
Lemma score_outcome_full service (own : list leaderboard) :
  forall base,
  score_outcome service base own = Ok tt ->
  chains_asked service base own = List.length own.
Proof.
  induction own as [|lb rest IH]; intros base H; [reflexivity|].
  cbn [score_outcome chains_asked List.length] in *.
  destruct (chain_listing (service base)); [|discriminate].
  f_equal. now apply IH.
Qed.

(** X23. check_leaderboard_scores first asks the main chain for the list
    of leaderboards and then queries chains one by one: each further
    request goes to the chain of a listed leaderboard that has an id and
    is hosted by the tester, in the list's order, and when the check runs
    to its end there is exactly one such request per leaderboard of the
    tester.  The chain of another host's leaderboard is never queried. *)
Theorem score_check_queries_only_own_chains (s : state Fresh.tester) :
  let call := Fresh.check_leaderboard_scores in
  exists rest,
    new_requests call s = list_request (self s) :: rest /\
    (forall r, In r rest ->
       exists status d all lb,
         next_response s =
           Http status (Some (mkEnvelope None (Some (DObject d)))) /\
         d_leaderboards d = Some all /\ In lb all /\
         Py.truthy (lb_leaderboardId lb) = true /\
         lb_host lb = Fresh.username (self s) /\
         r = chain_request (self s) lb) /\
    (fst (call s) = Ok tt ->
     forall status d all,
       next_response s =
         Http status (Some (mkEnvelope None (Some (DObject d)))) ->
       is_error_status status = false ->
       d_leaderboards d = Some all ->
       rest = map (chain_request (self s))
                  (filter (fun lb => Py.truthy (lb_leaderboardId lb) &&
                                     String.eqb (lb_host lb)
                                                (Fresh.username (self s)))
                          all)).
Proof.
  cbv zeta.
  remember (Fresh.check_leaderboard_scores s) as r eqn:Hr.
  assert (H : exists rest,
             sent (world (snd r)) = sent (world s) ++ list_request (self s) :: rest
             /\ (forall q, In q rest ->
                   exists status d all lb,
                     next_response s =
                       Http status (Some (mkEnvelope None (Some (DObject d))))
                     /\ d_leaderboards d = Some all /\ In lb all /\
                     Py.truthy (lb_leaderboardId lb) = true /\
                     lb_host lb = Fresh.username (self s) /\
                     q = chain_request (self s) lb) /\
                (fst r = Ok tt ->
                 forall status d all,
                   next_response s =
                     Http status (Some (mkEnvelope None (Some (DObject d)))) ->
                   is_error_status status = false ->
                   d_leaderboards d = Some all ->
                   rest = map (chain_request (self s))
                              (filter (fun lb =>
                                         Py.truthy (lb_leaderboardId lb) &&
                                         String.eqb (lb_host lb)
                                                    (Fresh.username (self s)))
                                      all))).
  { rewrite check_leaderboard_scores_eq in Hr. cbv zeta in Hr.
    assert (Hlisted : forall status d all,
              next_response s =
                Http status (Some (mkEnvelope None (Some (DObject d)))) ->
              is_error_status status = false ->
              d_leaderboards d = Some all ->
              chain_listing (next_response s) = Ok (Some all)).
    { intros status d all E Hst Hall. rewrite E.
      destruct (chain_listing_listed status d Hst) as [-> _].
      now rewrite Hall. }
    destruct (chain_listing (next_response s)) as [[all|]|e] eqn:Hl.
    - destruct (chain_listing_some _ _ Hl) as [status [d [Hresp [Hst Hall]]]].
      unfold hosted_with_id in Hr.
      destruct (filter _ all) as [|lb0 own] eqn:Hown.
      + subst r. cbn. exists []. split; [reflexivity|].
        split; [intros q []|].
        intros _ status0 d0 all0 E Hst0 Hall0.
        pose proof (Hlisted _ _ _ E Hst0 Hall0) as Hsame.
        inversion Hsame; subst. now rewrite Hown.
      + rewrite score_loop_eq in Hr. cbv zeta in Hr.
        rewrite after_request_length in Hr. unfold after_request in Hr.
        cbn [self world net sent slept now_us disk_ok written out] in Hr.
        match type of Hr with
        | context [firstn ?k (lb0 :: own)] =>
            exists (map (chain_request (self s)) (firstn k (lb0 :: own)))
        end.
        subst r. cbn [fst snd world sent].
        split; [now rewrite <- app_assoc|]. split.
        * intros q Hq. apply in_map_iff in Hq.
          destruct Hq as [lb [<- Hlb]].
          apply in_firstn in Hlb. rewrite <- Hown in Hlb.
          apply filter_In in Hlb. destruct Hlb as [Hin Hb].
          apply andb_true_iff in Hb. destruct Hb as [Hid Hhost].
          apply String.eqb_eq in Hhost.
          exists status, d, all, lb. auto 8.
        * intros Hok status0 d0 all0 E Hst0 Hall0.
          pose proof (Hlisted _ _ _ E Hst0 Hall0) as Hsame.
          inversion Hsame; subst. rewrite Hown.
          rewrite (score_outcome_full _ _ _ Hok), firstn_all. reflexivity.
    - subst r. cbn. exists []. split; [reflexivity|].
      split; [intros q []|].
      intros _ status0 d0 all0 E Hst0 Hall0.
      pose proof (Hlisted _ _ _ E Hst0 Hall0). discriminate.
    - subst r. cbn. exists []. split; [reflexivity|].
      split; [intros q [] | discriminate]. }
  destruct H as [rest [Hsent [Hin Hall]]].
  exists rest. split; [subst r; now apply new_requests_eq|].
  split; [exact Hin | exact Hall].
Qed.

Lemma score_check_queries_only_own_chains_witness :
  exists rest,
    new_requests Fresh.check_leaderboard_scores (demo_tester listing_service) =
      list_request (self (demo_tester listing_service)) :: rest /\
    rest = map (chain_request (self (demo_tester listing_service)))
               [active_with_boards 0; eternal_observed].
Proof.
  destruct (score_check_queries_only_own_chains (demo_tester listing_service))
    as [rest [Hreq [_ Hall]]].
  exists rest. split; [exact Hreq|].
  apply (Hall eq_refl 200
           (mkData (Some "tok") (Some "tok") (Some "tok") (Some "tok")
                   (Some observed_list)
                   (Some (mkPlayer "test_abc123" "player-chain" false))
                   (Some []))
           observed_list eq_refl eq_refl eq_refl).
Defined.
